(** * StuntMan trading service: order execution and risk gating

    A shallow embedding of [trading-service/trading_client.py] (the
    [TradingClient] class) and of the two composite endpoints of
    [trading-service/api.py] ([execute_signal] and [emergency_stop]),
    followed by the properties of the order path, the risk gate, the
    order book and the position ledger.

    Conventions of the embedding.
    - Python [int] is [Z]; Python [float] is IEEE binary64, here the
      primitive [float] with its own comparison, so that [nan] and the
      signed zeros behave as they do in the interpreter.
    - A Python [dict] keeps its keys in insertion order; it is an
      association list with unique keys ([dict_set] overwrites in place or
      appends).
    - The Rithmic client is an external service.  Every call made to it is
      appended to a log, and its answer is read from an oracle that sees
      the whole log, so a theorem quantified over every [Venue] covers
      every behaviour of the broker, failures included.
    - A method is a computation [M A]: it takes the world, and gives back
      either a value or a raised exception, together with the new world.
      State written before an exception is raised stays written.
    - Each method runs from its first statement to its last without another
      method running in between (the service runs them on one event loop);
      logging is not modelled. *)

From Stdlib Require Import ZArith List String Bool Lia.
From Stdlib Require Import Floats DecimalString.
Import ListNotations.

Local Open Scope Z_scope.
Local Open Scope list_scope.

(** ** Enumerations and records of [trading_client.py] *)

Inductive OrderSide : Type := BUY | SELL.

Inductive OrderType : Type := MARKET | LIMIT | STOP | STOP_LIMIT.

Inductive OrderStatus : Type :=
| PENDING | SUBMITTED | FILLED | PARTIALLY_FILLED | CANCELLED | REJECTED.

Definition OrderStatus_eqb (a b : OrderStatus) : bool :=
  match a, b with
  | PENDING, PENDING | SUBMITTED, SUBMITTED | FILLED, FILLED
  | PARTIALLY_FILLED, PARTIALLY_FILLED | CANCELLED, CANCELLED
  | REJECTED, REJECTED => true
  | _, _ => false
  end.

(** [status in [...]] *)
Definition status_in (s : OrderStatus) (l : list OrderStatus) : bool :=
  existsb (OrderStatus_eqb s) l.

Record Position : Type := {
  p_symbol : string;
  p_quantity : Z;
  p_avg_price : float;
  p_unrealized_pnl : float;
  p_realized_pnl : float
}.

Record Order : Type := {
  o_order_id : string;
  o_symbol : string;
  o_side : OrderSide;
  o_quantity : Z;
  o_order_type : OrderType;
  o_price : option float;
  o_stop_price : option float;
  o_status : OrderStatus;
  o_filled_quantity : Z;
  o_filled_price : float;
  o_timestamp : Z
}.

Definition set_status (s : OrderStatus) (o : Order) : Order :=
  {| o_order_id := o_order_id o; o_symbol := o_symbol o; o_side := o_side o;
     o_quantity := o_quantity o; o_order_type := o_order_type o;
     o_price := o_price o; o_stop_price := o_stop_price o;
     o_status := s;
     o_filled_quantity := o_filled_quantity o;
     o_filled_price := o_filled_price o; o_timestamp := o_timestamp o |}.

Record AccountInfo : Type := {
  a_account_id : string;
  a_balance : float;
  a_buying_power : float;
  a_daily_pnl : float;
  a_unrealized_pnl : float;
  a_realized_pnl : float;
  a_positions : list Position
}.

(** ** [config.py] *)

Record RithmicConfig : Type := {
  user : string;
  password : string;
  system_name : string;
  gateway : string;
  app_name : string;
  app_version : string
}.

Record TradingConfig : Type := {
  default_instrument : string;
  default_contract : string;
  max_contracts : Z;
  max_daily_loss : float;
  auto_stop_drawdown_percent : float
}.

Record Config : Type := {
  rithmic : RithmicConfig;
  trading : TradingConfig
}.

(** ** Python dictionaries *)

Definition dict (V : Type) : Type := list (string * V).

Fixpoint dict_get {V : Type} (d : dict V) (k : string) : option V :=
  match d with
  | [] => None
  | (k', v) :: rest => if String.eqb k k' then Some v else dict_get rest k
  end.

Fixpoint dict_set {V : Type} (d : dict V) (k : string) (v : V) : dict V :=
  match d with
  | [] => [(k, v)]
  | (k', v') :: rest =>
      if String.eqb k k' then (k', v) :: rest else (k', v') :: dict_set rest k v
  end.

Definition dict_keys {V : Type} (d : dict V) : list string := map fst d.

Definition dict_values {V : Type} (d : dict V) : list V := map snd d.

Definition dict_map_values {V : Type} (f : V -> V) (d : dict V) : dict V :=
  map (fun kv => (fst kv, f (snd kv))) d.

(** ** The broker link *)

(** [async_rithmic.OrderType], as far as [order_type_map] uses it. *)
Inductive RithmicOrderType : Type :=
| R_MARKET | R_LIMIT | R_STOP_MARKET | R_STOP_LIMIT.

Inductive BrokerCall : Type :=
| CallConnect
| CallDisconnect
| CallSubmitOrder (symbol exchange side : string) (quantity : Z)
    (order_type : RithmicOrderType) (price stop_price : option float)
| CallCancelOrder (order_id : string)
| CallCancelAllOrders
| CallGetPositions
| CallGetAccountInfo.

(** What an awaited broker call does: it raises, or it returns a value. *)
Inductive reply (A : Type) : Type :=
| Raises
| Returns (a : A).
Arguments Raises {A}.
Arguments Returns {A} a.

(** The value of [submit_order]: [.get("order_id", ...)] needs a mapping,
    which may or may not hold the key. *)
Inductive SubmitResult : Type :=
| SubmitNotADict
| SubmitDict (order_id : option string).

(** One element of the list returned by [get_positions]. *)
Record RawPosition : Type := {
  raw_symbol : option string;
  raw_quantity : option Z;
  raw_avg_price : option float;
  raw_unrealized_pnl : option float;
  raw_realized_pnl : option float
}.

Inductive PositionItem : Type :=
| PosNotADict
| PosDict (d : RawPosition).

Record RawAccount : Type := {
  raw_account_id : option string;
  raw_balance : option float;
  raw_buying_power : option float;
  raw_daily_pnl : option float;
  raw_acc_unrealized_pnl : option float;
  raw_acc_realized_pnl : option float
}.

Inductive AccountResult : Type :=
| AccountNotADict
| AccountDict (d : RawAccount).

(** [connect] first imports [async_rithmic], then builds the client (taken
    not to raise), then awaits its [connect]. *)
Inductive ConnectReply : Type :=
| ConnectImportError
| ConnectRaises
| ConnectReturns.

(** The oracle.  Every field reads the log of calls made so far, the call
    being answered last. *)
Record Venue : Type := {
  v_connect : list BrokerCall -> ConnectReply;
  v_disconnect : list BrokerCall -> reply unit;
  v_submit_order : list BrokerCall -> reply SubmitResult;
  v_cancel_order : list BrokerCall -> reply unit;
  v_cancel_all_orders : list BrokerCall -> reply unit;
  v_get_positions : list BrokerCall -> reply (list PositionItem);
  v_get_account_info : list BrokerCall -> reply AccountResult;
  (** [datetime.now()] as a number, and the text
      [f"ORD-{datetime.now().timestamp()}"] *)
  v_now : list BrokerCall -> Z;
  v_fallback_order_id : list BrokerCall -> string
}.

(** ** The state of a [TradingClient] *)

Record TradingClient : Type := {
  config : Config;
  _client : bool;   (* [self._client] is not [None] *)
  _connected : bool;
  _positions : dict Position;
  _orders : dict Order;
  _account_info : option AccountInfo;
  _daily_pnl : float;
  _trading_enabled : bool
}.

(** Events handed to [_notify_callbacks]. *)
Inductive Event : Type :=
| EvOrderUpdate (o : Order)
| EvConnectionStatus (connected : bool) (with_error : bool).

Record World : Type := {
  client : TradingClient;
  calls : list BrokerCall;
  published : list Event
}.

Definition set_client_obj (b : bool) (c : TradingClient) : TradingClient :=
  {| config := config c; _client := b; _connected := _connected c;
     _positions := _positions c; _orders := _orders c;
     _account_info := _account_info c; _daily_pnl := _daily_pnl c;
     _trading_enabled := _trading_enabled c |}.

Definition set_connected (b : bool) (c : TradingClient) : TradingClient :=
  {| config := config c; _client := _client c; _connected := b;
     _positions := _positions c; _orders := _orders c;
     _account_info := _account_info c; _daily_pnl := _daily_pnl c;
     _trading_enabled := _trading_enabled c |}.

Definition set_positions (d : dict Position) (c : TradingClient) : TradingClient :=
  {| config := config c; _client := _client c; _connected := _connected c;
     _positions := d; _orders := _orders c;
     _account_info := _account_info c; _daily_pnl := _daily_pnl c;
     _trading_enabled := _trading_enabled c |}.

Definition set_orders (d : dict Order) (c : TradingClient) : TradingClient :=
  {| config := config c; _client := _client c; _connected := _connected c;
     _positions := _positions c; _orders := d;
     _account_info := _account_info c; _daily_pnl := _daily_pnl c;
     _trading_enabled := _trading_enabled c |}.

Definition set_account_info (a : option AccountInfo) (c : TradingClient)
  : TradingClient :=
  {| config := config c; _client := _client c; _connected := _connected c;
     _positions := _positions c; _orders := _orders c;
     _account_info := a; _daily_pnl := _daily_pnl c;
     _trading_enabled := _trading_enabled c |}.

Definition set_daily_pnl (x : float) (c : TradingClient) : TradingClient :=
  {| config := config c; _client := _client c; _connected := _connected c;
     _positions := _positions c; _orders := _orders c;
     _account_info := _account_info c; _daily_pnl := x;
     _trading_enabled := _trading_enabled c |}.

Definition set_trading_enabled (b : bool) (c : TradingClient) : TradingClient :=
  {| config := config c; _client := _client c; _connected := _connected c;
     _positions := _positions c; _orders := _orders c;
     _account_info := _account_info c; _daily_pnl := _daily_pnl c;
     _trading_enabled := b |}.

Definition with_client (c : TradingClient) (w : World) : World :=
  {| client := c; calls := calls w; published := published w |}.

Definition with_calls (l : list BrokerCall) (w : World) : World :=
  {| client := client w; calls := l; published := published w |}.

Definition with_published (l : list Event) (w : World) : World :=
  {| client := client w; calls := calls w; published := l |}.

(** [TradingClient.__init__] *)
Definition init (cfg : Config) : World :=
  {| client := {| config := cfg; _client := false; _connected := false;
                  _positions := []; _orders := []; _account_info := None;
                  _daily_pnl := 0%float; _trading_enabled := true |};
     calls := [];
     published := [] |}.

(** ** Computations: state and exceptions *)

Inductive exn : Type :=
| RuntimeError (msg : string)
| AttributeError
| VenueError
| HTTPException (status_code : Z).

Inductive outcome (A : Type) : Type :=
| Ok (a : A)
| Raise (e : exn).
Arguments Ok {A} a.
Arguments Raise {A} e.

Definition M (A : Type) : Type := World -> outcome A * World.

Definition ret {A : Type} (a : A) : M A := fun w => (Ok a, w).

Definition bind {A B : Type} (m : M A) (k : A -> M B) : M B :=
  fun w =>
    match m w with
    | (Ok a, w') => k a w'
    | (Raise e, w') => (Raise e, w')
    end.

Definition raise {A : Type} (e : exn) : M A := fun w => (Raise e, w).

(** [try: body / except Exception as e: handler] *)
Definition try_except {A : Type} (body : M A) (handler : exn -> M A) : M A :=
  fun w =>
    match body w with
    | (Ok a, w') => (Ok a, w')
    | (Raise e, w') => handler e w'
    end.

Definition gets {A : Type} (f : TradingClient -> A) : M A :=
  fun w => (Ok (f (client w)), w).

Definition modify (f : TradingClient -> TradingClient) : M unit :=
  fun w => (Ok tt, with_client (f (client w)) w).

(** The log of broker calls, read for the clock. *)
Definition history : M (list BrokerCall) := fun w => (Ok (calls w), w).

Declare Scope monad_scope.
Delimit Scope monad_scope with monad.
Notation "x <- m ;; k" := (bind m (fun x => k))
  (at level 61, m at next level, right associativity) : monad_scope.
Notation "m ;; k" := (bind m (fun _ => k))
  (at level 61, right associativity) : monad_scope.
Local Open Scope monad_scope.

(** [await self._client.<method>(...)] *)
Definition call_venue {A : Type} (c : BrokerCall)
    (answer : list BrokerCall -> reply A) : M A :=
  fun w =>
    let log := calls w ++ [c] in
    match answer log with
    | Raises => (Raise VenueError, with_calls log w)
    | Returns a => (Ok a, with_calls log w)
    end.

(** [_notify_callbacks]: every registered callback is called with the
    payload, and what a callback raises is swallowed. *)
Definition _notify_callbacks (e : Event) : M unit :=
  fun w => (Ok tt, with_published (published w ++ [e]) w).

Definition is_some {A : Type} (o : option A) : bool :=
  match o with Some _ => true | None => false end.

Definition get_default {A : Type} (o : option A) (d : A) : A :=
  match o with Some a => a | None => d end.

(** ** [TradingClient] *)

Section Client.

Variable venue : Venue.

(** *** Connection *)

Definition connect : M bool :=
  fun w =>
    let log := calls w ++ [CallConnect] in
    match v_connect venue log with
    | ConnectImportError => (Ok false, w)
    | ConnectRaises =>
        (_notify_callbacks (EvConnectionStatus false true) ;; ret false)
          (with_calls log
             (with_client (set_connected false (set_client_obj true (client w))) w))
    | ConnectReturns =>
        (_notify_callbacks (EvConnectionStatus true false) ;; ret true)
          (with_calls log
             (with_client (set_connected true (set_client_obj true (client w))) w))
    end.

Definition disconnect : M unit :=
  has_client <- gets _client ;;
  if has_client then
    try_except
      (call_venue CallDisconnect (v_disconnect venue))
      (fun _ => ret tt) ;;
    modify (set_connected false) ;;
    _notify_callbacks (EvConnectionStatus false false)
  else ret tt.

Definition is_connected : M bool := gets _connected.

(** *** Order management *)

Definition order_type_map (t : OrderType) : RithmicOrderType :=
  match t with
  | MARKET => R_MARKET
  | LIMIT => R_LIMIT
  | STOP => R_STOP_MARKET
  | STOP_LIMIT => R_STOP_LIMIT
  end.

Definition side_code (side : OrderSide) : string :=
  match side with BUY => "B"%string | SELL => "S"%string end.

Definition place_order (symbol : string) (side : OrderSide) (quantity : Z)
    (order_type : OrderType) (price stop_price : option float)
  : M (option Order) :=
  connected <- gets _connected ;;
  if negb connected then raise (RuntimeError "Not connected to Rithmic") else
  enabled <- gets _trading_enabled ;;
  if negb enabled then ret None else
  (* Safety checks *)
  cap <- gets (fun c => max_contracts (trading (config c))) ;;
  let quantity := if quantity >? cap then cap else quantity in
  (* Check daily loss limit *)
  pnl <- gets _daily_pnl ;;
  limit <- gets (fun c => max_daily_loss (trading (config c))) ;;
  if (pnl <? - limit)%float then
    modify (set_trading_enabled false) ;;
    ret None
  else
    try_except
      (result <- call_venue
                   (CallSubmitOrder symbol "CME" (side_code side) quantity
                      (order_type_map order_type) price stop_price)
                   (v_submit_order venue) ;;
       log <- history ;;
       order_id <- match result with
                   | SubmitNotADict => raise AttributeError
                   | SubmitDict oid =>
                       ret (get_default oid (v_fallback_order_id venue log))
                   end ;;
       let order :=
         {| o_order_id := order_id; o_symbol := symbol; o_side := side;
            o_quantity := quantity; o_order_type := order_type;
            o_price := price; o_stop_price := stop_price;
            o_status := SUBMITTED;
            o_filled_quantity := 0; o_filled_price := 0%float;
            o_timestamp := v_now venue log |} in
       modify (fun c => set_orders (dict_set (_orders c) order_id order) c) ;;
       _notify_callbacks (EvOrderUpdate order) ;;
       ret (Some order))
      (fun _ => ret None).

Definition cancel_order (order_id : string) : M bool :=
  connected <- gets _connected ;;
  if negb connected then raise (RuntimeError "Not connected to Rithmic") else
  try_except
    (call_venue (CallCancelOrder order_id) (v_cancel_order venue) ;;
     modify (fun c =>
               match dict_get (_orders c) order_id with
               | Some o =>
                   set_orders (dict_set (_orders c) order_id
                                 (set_status CANCELLED o)) c
               | None => c
               end) ;;
     ret true)
    (fun _ => ret false).

Definition cancel_all_orders : M bool :=
  connected <- gets _connected ;;
  if negb connected then raise (RuntimeError "Not connected to Rithmic") else
  try_except
    (call_venue CallCancelAllOrders (v_cancel_all_orders venue) ;;
     modify (fun c =>
               set_orders
                 (dict_map_values
                    (fun order =>
                       if status_in (o_status order) [PENDING; SUBMITTED]
                       then set_status CANCELLED order
                       else order)
                    (_orders c)) c) ;;
     ret true)
    (fun _ => ret false).

Definition get_order (order_id : string) : M (option Order) :=
  gets (fun c => dict_get (_orders c) order_id).

Definition get_open_orders : M (list Order) :=
  gets (fun c =>
          filter (fun o => status_in (o_status o)
                             [PENDING; SUBMITTED; PARTIALLY_FILLED])
                 (dict_values (_orders c))).

(** *** Position management *)

Definition position_of (d : RawPosition) : Position :=
  {| p_symbol := get_default (raw_symbol d) ""%string;
     p_quantity := get_default (raw_quantity d) 0;
     p_avg_price := get_default (raw_avg_price d) 0%float;
     p_unrealized_pnl := get_default (raw_unrealized_pnl d) 0%float;
     p_realized_pnl := get_default (raw_realized_pnl d) 0%float |}.

(** The [for pos in positions] loop of [get_positions]. *)
Fixpoint load_positions (positions : list PositionItem) : M unit :=
  match positions with
  | [] => ret tt
  | PosNotADict :: _ => raise AttributeError
  | PosDict d :: rest =>
      let position := position_of d in
      modify (fun c => set_positions
                         (dict_set (_positions c) (p_symbol position) position) c) ;;
      load_positions rest
  end.

Definition get_positions : M (list Position) :=
  connected <- gets _connected ;;
  if negb connected then gets (fun c => dict_values (_positions c)) else
  try_except
    (positions <- call_venue CallGetPositions (v_get_positions venue) ;;
     modify (set_positions []) ;;
     load_positions positions ;;
     gets (fun c => dict_values (_positions c)))
    (fun _ => gets (fun c => dict_values (_positions c))).

Definition close_position (symbol : string) : M bool :=
  positions <- gets _positions ;;
  match dict_get positions symbol with
  | None => ret false
  | Some position =>
      if p_quantity position =? 0 then ret true else
      (* Place opposite order to close *)
      let side := if p_quantity position >? 0 then SELL else BUY in
      let quantity := Z.abs (p_quantity position) in
      order <- place_order symbol side quantity MARKET None None ;;
      ret (is_some order)
  end.

(** The loop of [close_all_positions], [success] being its accumulator. *)
Fixpoint close_all_loop (symbols : list string) (success : bool) : M bool :=
  match symbols with
  | [] => ret success
  | symbol :: rest =>
      closed <- close_position symbol ;;
      close_all_loop rest (if negb closed then false else success)
  end.

Definition close_all_positions : M bool :=
  symbols <- gets (fun c => dict_keys (_positions c)) ;;
  close_all_loop symbols true.

(** *** Account information *)

Definition get_account_info : M (option AccountInfo) :=
  connected <- gets _connected ;;
  if negb connected then gets _account_info else
  try_except
    (account <- call_venue CallGetAccountInfo (v_get_account_info venue) ;;
     positions <- get_positions ;;
     fallback_id <- gets (fun c => user (rithmic (config c))) ;;
     info <- match account with
             | AccountNotADict => raise AttributeError
             | AccountDict d =>
                 ret {| a_account_id := get_default (raw_account_id d) fallback_id;
                        a_balance := get_default (raw_balance d) 150000%float;
                        a_buying_power := get_default (raw_buying_power d) 0%float;
                        a_daily_pnl := get_default (raw_daily_pnl d) 0%float;
                        a_unrealized_pnl :=
                          get_default (raw_acc_unrealized_pnl d) 0%float;
                        a_realized_pnl :=
                          get_default (raw_acc_realized_pnl d) 0%float;
                        a_positions := positions |}
             end ;;
     modify (set_account_info (Some info)) ;;
     modify (set_daily_pnl (a_daily_pnl info)) ;;
     gets _account_info)
    (fun _ => gets _account_info).

(** *** Trading controls *)

Definition enable_trading : M unit := modify (set_trading_enabled true).

Definition disable_trading : M unit := modify (set_trading_enabled false).

Definition is_trading_enabled : M bool := gets _trading_enabled.

Definition reset_daily_stats : M unit :=
  modify (set_daily_pnl 0%float) ;;
  modify (set_trading_enabled true).

End Client.

(** ** The composite endpoints of [api.py]

    The endpoints act on the one module-level [trading_client].  A response
    body is the dictionary literal the endpoint returns; an [HTTPException]
    is kept with its status code. *)

Inductive json : Type :=
| JBool (b : bool)
| JString (s : string)
| JInt (z : Z)
| JFloat (x : float).

Definition response : Type := list (string * json).

Record SignalRequest : Type := {
  signal_type : string;   (* "LONG", "SHORT", "EXIT" *)
  symbol : string;
  confidence : float;
  entry_price : option float;
  stop_loss : option float;
  take_profit : option float;
  contracts : Z
}.

(** Truth value of an [Optional[float]]: [None] and both zeros are false. *)
Definition float_truthy (x : option float) : bool :=
  match x with
  | None => false
  | Some v => negb (v =? 0)%float
  end.

(** [str] of an [int] *)
Definition str_of_int (z : Z) : string := NilZero.string_of_int (Z.to_int z).

Section Api.

Variable venue : Venue.

Definition execute_signal (signal : SignalRequest) : M response :=
  connected <- is_connected ;;
  if negb connected then raise (HTTPException 503) else
  enabled <- is_trading_enabled ;;
  if negb enabled then raise (HTTPException 403) else
  try_except
    (early <-
       (if String.eqb (signal_type signal) "LONG" then
          (* Enter long position *)
          order <- place_order venue (symbol signal) BUY (contracts signal)
                     MARKET None None ;;
          (* Place stop loss if provided *)
          (if float_truthy (stop_loss signal) && is_some order then
             place_order venue (symbol signal) SELL (contracts signal)
               STOP None (stop_loss signal) ;;
             ret tt
           else ret tt) ;;
          ret None
        else if String.eqb (signal_type signal) "SHORT" then
          (* Enter short position *)
          order <- place_order venue (symbol signal) SELL (contracts signal)
                     MARKET None None ;;
          (* Place stop loss if provided *)
          (if float_truthy (stop_loss signal) && is_some order then
             place_order venue (symbol signal) BUY (contracts signal)
               STOP None (stop_loss signal) ;;
             ret tt
           else ret tt) ;;
          ret None
        else if String.eqb (signal_type signal) "EXIT" then
          (* Close position *)
          close_position venue (symbol signal) ;;
          cancel_all_orders venue ;;
          ret (Some [("success", JBool true); ("action", JString "EXIT");
                     ("message", JString "Position closed")]%string)
        else raise (HTTPException 400)) ;;
     match early with
     | Some body => ret body
     | None =>
         ret [("success", JBool true);
              ("action", JString (signal_type signal));
              ("symbol", JString (symbol signal));
              ("contracts", JInt (contracts signal));
              ("confidence", JFloat (confidence signal));
              ("message",
               JString ("Signal executed: " ++ signal_type signal ++ " "
                        ++ str_of_int (contracts signal) ++ "x "
                        ++ symbol signal))]%string
     end)
    (fun _ => raise (HTTPException 500)).

Definition emergency_stop : M response :=
  disable_trading ;;
  cancel_all_orders venue ;;
  close_all_positions venue ;;
  ret [("success", JBool true);
       ("message",
        JString "Emergency stop executed - all positions closed, trading disabled")
      ]%string.

End Api.

(** ** Commands

    The operations a caller can issue, and the world after a sequence of
    them.  A command that raises leaves the world as it was when the
    exception left the method. *)

Inductive Command : Type :=
| CmdConnect
| CmdDisconnect
| CmdPlaceOrder (symbol : string) (side : OrderSide) (quantity : Z)
    (order_type : OrderType) (price stop_price : option float)
| CmdCancelOrder (order_id : string)
| CmdCancelAllOrders
| CmdGetPositions
| CmdClosePosition (symbol : string)
| CmdCloseAllPositions
| CmdGetAccountInfo
| CmdExecuteSignal (signal : SignalRequest)
| CmdEmergencyStop
| CmdDisableTrading
| CmdEnableTrading
| CmdResetDailyStats.

Definition step (venue : Venue) (c : Command) (w : World) : World :=
  match c with
  | CmdConnect => snd (connect venue w)
  | CmdDisconnect => snd (disconnect venue w)
  | CmdPlaceOrder s sd q t p sp => snd (place_order venue s sd q t p sp w)
  | CmdCancelOrder oid => snd (cancel_order venue oid w)
  | CmdCancelAllOrders => snd (cancel_all_orders venue w)
  | CmdGetPositions => snd (get_positions venue w)
  | CmdClosePosition s => snd (close_position venue s w)
  | CmdCloseAllPositions => snd (close_all_positions venue w)
  | CmdGetAccountInfo => snd (get_account_info venue w)
  | CmdExecuteSignal sg => snd (execute_signal venue sg w)
  | CmdEmergencyStop => snd (emergency_stop venue w)
  | CmdDisableTrading => snd (disable_trading w)
  | CmdEnableTrading => snd (enable_trading w)
  | CmdResetDailyStats => snd (reset_daily_stats w)
  end.

Definition run (venue : Venue) (cmds : list Command) (w : World) : World :=
  fold_left (fun w c => step venue c w) cmds w.

(** The two commands that set [_trading_enabled] to [True]. *)
Definition turns_trading_on (c : Command) : bool :=
  match c with
  | CmdEnableTrading | CmdResetDailyStats => true
  | _ => false
  end.

(** The [submit_order] calls of a log. *)
Definition is_submission (c : BrokerCall) : bool :=
  match c with
  | CallSubmitOrder _ _ _ _ _ _ _ => true
  | _ => false
  end.

Definition submissions (log : list BrokerCall) : list BrokerCall :=
  filter is_submission log.

(** ** Sample worlds *)

Definition sample_config : Config :=
  {| rithmic := {| user := "APEX-1"; password := "secret";
                   system_name := "Apex"; gateway := "CHICAGO";
                   app_name := "StuntMan"; app_version := "1.0" |};
     trading := {| default_instrument := "ES"; default_contract := "ESH5";
                   max_contracts := 5; max_daily_loss := 1500%float;
                   auto_stop_drawdown_percent := 80%float |} |}%string.

(** A broker that accepts everything and names orders itself. *)
Definition willing_venue : Venue :=
  {| v_connect := fun _ => ConnectReturns;
     v_disconnect := fun _ => Returns tt;
     v_submit_order := fun _ => Returns (SubmitDict (Some "R-1"%string));
     v_cancel_order := fun _ => Returns tt;
     v_cancel_all_orders := fun _ => Returns tt;
     v_get_positions := fun _ => Returns [];
     v_get_account_info :=
       fun _ => Returns (AccountDict
                           {| raw_account_id := None; raw_balance := None;
                              raw_buying_power := None; raw_daily_pnl := None;
                              raw_acc_unrealized_pnl := None;
                              raw_acc_realized_pnl := None |});
     v_now := fun log => Z.of_nat (List.length log);
     v_fallback_order_id := fun _ => "ORD-0"%string |}.

(** A broker whose every call raises. *)
Definition failing_venue : Venue :=
  {| v_connect := fun _ => ConnectRaises;
     v_disconnect := fun _ => Raises;
     v_submit_order := fun _ => Raises;
     v_cancel_order := fun _ => Raises;
     v_cancel_all_orders := fun _ => Raises;
     v_get_positions := fun _ => Raises;
     v_get_account_info := fun _ => Raises;
     v_now := fun log => Z.of_nat (List.length log);
     v_fallback_order_id := fun _ => "ORD-0"%string |}.

(** A broker that accepts everything and reports a daily loss of 3000. *)
Definition losing_venue : Venue :=
  {| v_connect := v_connect willing_venue;
     v_disconnect := v_disconnect willing_venue;
     v_submit_order := v_submit_order willing_venue;
     v_cancel_order := v_cancel_order willing_venue;
     v_cancel_all_orders := v_cancel_all_orders willing_venue;
     v_get_positions := v_get_positions willing_venue;
     v_get_account_info :=
       fun _ => Returns (AccountDict
                           {| raw_account_id := None; raw_balance := None;
                              raw_buying_power := None;
                              raw_daily_pnl := Some (-3000)%float;
                              raw_acc_unrealized_pnl := None;
                              raw_acc_realized_pnl := None |});
     v_now := v_now willing_venue;
     v_fallback_order_id := v_fallback_order_id willing_venue |}.

(** A broker that accepts everything and reports a long position of two
    ESH5 contracts. *)
Definition holding_venue : Venue :=
  {| v_connect := v_connect willing_venue;
     v_disconnect := v_disconnect willing_venue;
     v_submit_order := v_submit_order willing_venue;
     v_cancel_order := v_cancel_order willing_venue;
     v_cancel_all_orders := v_cancel_all_orders willing_venue;
     v_get_positions :=
       fun _ => Returns [PosDict {| raw_symbol := Some "ESH5"%string;
                                    raw_quantity := Some 2;
                                    raw_avg_price := Some 4500%float;
                                    raw_unrealized_pnl := None;
                                    raw_realized_pnl := None |}];
     v_get_account_info := v_get_account_info willing_venue;
     v_now := v_now willing_venue;
     v_fallback_order_id := v_fallback_order_id willing_venue |}.

(** A broker that accepts everything and reports two open positions. *)
Definition two_holdings_venue : Venue :=
  {| v_connect := v_connect willing_venue;
     v_disconnect := v_disconnect willing_venue;
     v_submit_order := v_submit_order willing_venue;
     v_cancel_order := v_cancel_order willing_venue;
     v_cancel_all_orders := v_cancel_all_orders willing_venue;
     v_get_positions :=
       fun _ => Returns [PosDict {| raw_symbol := Some "ESH5"%string;
                                    raw_quantity := Some 2;
                                    raw_avg_price := Some 4500%float;
                                    raw_unrealized_pnl := None;
                                    raw_realized_pnl := None |};
                         PosDict {| raw_symbol := Some "NQH5"%string;
                                    raw_quantity := Some (-1);
                                    raw_avg_price := Some 4500%float;
                                    raw_unrealized_pnl := None;
                                    raw_realized_pnl := None |}];
     v_get_account_info := v_get_account_info willing_venue;
     v_now := v_now willing_venue;
     v_fallback_order_id := v_fallback_order_id willing_venue |}.


(** The client right after a successful [connect]. *)
Definition online : World := snd (connect willing_venue (init sample_config)).

Definition position (s : string) (q : Z) : Position :=
  {| p_symbol := s; p_quantity := q; p_avg_price := 4500%float;
     p_unrealized_pnl := 0%float; p_realized_pnl := 0%float |}.

Definition with_ledger (l : list Position) (w : World) : World :=
  with_client (set_positions (map (fun p => (p_symbol p, p)) l) (client w)) w.

Definition with_pnl (x : float) (w : World) : World :=
  with_client (set_daily_pnl x (client w)) w.

Definition order_in (id : string) (st : OrderStatus) : Order :=
  {| o_order_id := id; o_symbol := "ESH5"; o_side := BUY; o_quantity := 2;
     o_order_type := LIMIT; o_price := Some 4500%float; o_stop_price := None;
     o_status := st; o_filled_quantity := 0; o_filled_price := 0%float;
     o_timestamp := 0 |}%string.

Definition with_book (l : list Order) (w : World) : World :=
  with_client (set_orders (map (fun o => (o_order_id o, o)) l) (client w)) w.

(** ** Reading aids for the statements *)

(** The quantity [place_order] goes on with after its cap check. *)
Definition clamped (c : TradingClient) (quantity : Z) : Z :=
  if quantity >? max_contracts (trading (config c))
  then max_contracts (trading (config c))
  else quantity.

(** The test of the daily loss rule. *)
Definition loss_limit_breached (c : TradingClient) : bool :=
  (_daily_pnl c <? - max_daily_loss (trading (config c)))%float.

(** The broker call [place_order] makes once the risk gate is passed. *)
Definition submission_of (c : TradingClient) (symbol : string)
    (side : OrderSide) (quantity : Z) (order_type : OrderType)
    (price stop_price : option float) : BrokerCall :=
  CallSubmitOrder symbol "CME" (side_code side) (clamped c quantity)
    (order_type_map order_type) price stop_price.

(** The order [place_order] books when the broker answers with [oid]. *)
Definition booked_order (venue : Venue) (log : list BrokerCall)
    (c : TradingClient) (symbol : string) (side : OrderSide) (quantity : Z)
    (order_type : OrderType) (price stop_price : option float)
    (oid : option string) : Order :=
  {| o_order_id := get_default oid (v_fallback_order_id venue log);
     o_symbol := symbol; o_side := side;
     o_quantity := clamped c quantity; o_order_type := order_type;
     o_price := price; o_stop_price := stop_price;
     o_status := SUBMITTED;
     o_filled_quantity := 0; o_filled_price := 0%float;
     o_timestamp := v_now venue log |}.

Definition opposite (side : OrderSide) : OrderSide :=
  match side with BUY => SELL | SELL => BUY end.

(** A computation that never sets [_trading_enabled] back to [True]. *)
Definition keeps_disabled {A : Type} (m : M A) : Prop :=
  forall w, _trading_enabled (client w) = false ->
            _trading_enabled (client (snd (m w))) = false.

(** The part of the client that decides whether an order passes the gate,
    together with the ledger. *)
Definition same_gate (w w' : World) : Prop :=
  config (client w') = config (client w) /\
  _connected (client w') = _connected (client w) /\
  _trading_enabled (client w') = _trading_enabled (client w) /\
  _daily_pnl (client w') = _daily_pnl (client w) /\
  _positions (client w') = _positions (client w).

(** The side that closes a position of signed quantity [q]. *)
Definition closing_side (q : Z) : OrderSide := if q >? 0 then SELL else BUY.

(** The broker call that closes [symbol], if the ledger holds it open. *)
Definition closing_call (c : TradingClient) (symbol : string) : list BrokerCall :=
  match dict_get (_positions c) symbol with
  | None => []
  | Some position =>
      if p_quantity position =? 0 then []
      else [submission_of c symbol (closing_side (p_quantity position))
              (Z.abs (p_quantity position)) MARKET None None]
  end.

Definition closing_calls (c : TradingClient) : list BrokerCall :=
  flat_map (closing_call c) (dict_keys (_positions c)).

(** [close_all_positions] in the words of its contract: every known symbol
    is attempted in turn, each outcome is kept, and the answer is their
    conjunction. *)
Fixpoint close_each (venue : Venue) (symbols : list string) : M (list bool) :=
  match symbols with
  | [] => ret []
  | symbol :: rest =>
      closed <- close_position venue symbol ;;
      others <- close_each venue rest ;;
      ret (closed :: others)
  end.

Definition close_all_by_conjunction (venue : Venue) : M bool :=
  symbols <- gets (fun c => dict_keys (_positions c)) ;;
  outcomes <- close_each venue symbols ;;
  ret (forallb (fun closed => closed) outcomes).

Definition signal (kind sym : string) (n : Z) (stop : option float)
  : SignalRequest :=
  {| signal_type := kind; symbol := sym; confidence := 1%float;
     entry_price := None; stop_loss := stop; take_profit := None;
     contracts := n |}.

(** ** The other endpoints of [api.py]

    [str.upper] is the interpreter's; the endpoints take it as [upper]. *)

Record OrderRequest : Type := {
  rq_symbol : string;
  rq_side : string;         (* "BUY" or "SELL" *)
  rq_quantity : Z;
  rq_order_type : string;   (* "MARKET", "LIMIT", "STOP", "STOP_LIMIT" *)
  rq_price : option float;
  rq_stop_price : option float
}.

(** [.value] of the enumerations *)
Definition OrderSide_value (s : OrderSide) : string :=
  match s with BUY => "BUY" | SELL => "SELL" end.

Definition OrderStatus_value (s : OrderStatus) : string :=
  match s with
  | PENDING => "PENDING" | SUBMITTED => "SUBMITTED" | FILLED => "FILLED"
  | PARTIALLY_FILLED => "PARTIALLY_FILLED" | CANCELLED => "CANCELLED"
  | REJECTED => "REJECTED"
  end.

Module Endpoints.

Section Endpoints.

Variable venue : Venue.
Variable upper : string -> string.

(** The [order_type_map] of the [/orders] endpoint. *)
Definition order_type_map : dict OrderType :=
  [("MARKET", MARKET); ("LIMIT", LIMIT); ("STOP", STOP);
   ("STOP_LIMIT", STOP_LIMIT)]%string.

(** [POST /orders] *)
Definition place_order (order : OrderRequest) : M response :=
  connected <- is_connected ;;
  if negb connected then raise (HTTPException 503) else
  enabled <- is_trading_enabled ;;
  if negb enabled then raise (HTTPException 403) else
  try_except
    (let side := if String.eqb (upper (rq_side order)) "BUY" then BUY else SELL in
     let order_type :=
       get_default (dict_get order_type_map (upper (rq_order_type order)))
         MARKET in
     result <- place_order venue (rq_symbol order) side (rq_quantity order)
                 order_type (rq_price order) (rq_stop_price order) ;;
     match result with
     | Some result =>
         ret [("success", JBool true);
              ("order_id", JString (o_order_id result));
              ("symbol", JString (o_symbol result));
              ("side", JString (OrderSide_value (o_side result)));
              ("quantity", JInt (o_quantity result));
              ("status", JString (OrderStatus_value (o_status result)))]%string
     | None => raise (HTTPException 400)
     end)
    (fun _ => raise (HTTPException 500)).

(** [DELETE /orders/{order_id}] *)
Definition cancel_order (order_id : string) : M response :=
  success <- cancel_order venue order_id ;;
  if success then
    ret [("success", JBool true); ("order_id", JString order_id);
         ("message", JString "Order cancelled")]%string
  else raise (HTTPException 400).

(** [DELETE /orders] *)
Definition cancel_all_orders : M response :=
  success <- cancel_all_orders venue ;;
  ret [("success", JBool success);
       ("message",
        JString (if success then "All orders cancelled" else "Failed"))]%string.

(** [POST /positions/{symbol}/close] *)
Definition close_position (symbol : string) : M response :=
  success <- close_position venue symbol ;;
  if success then
    ret [("success", JBool true); ("symbol", JString symbol);
         ("message", JString "Position closed")]%string
  else raise (HTTPException 400).

(** [POST /positions/close-all] *)
Definition close_all_positions : M response :=
  success <- close_all_positions venue ;;
  ret [("success", JBool success);
       ("message",
        JString (if success then "All positions closed" else "Failed"))]%string.

(** [GET /account] *)
Definition get_account : M response :=
  account <- get_account_info venue ;;
  match account with
  | None =>
      fallback <- gets (fun c => user (rithmic (config c))) ;;
      ret [("account_id", JString fallback);
           ("connected", JBool false);
           ("message", JString "Not connected - showing estimated data");
           ("balance", JInt 150000);
           ("daily_pnl", JInt 0)]%string
  | Some account =>
      ret [("account_id", JString (a_account_id account));
           ("connected", JBool true);
           ("balance", JFloat (a_balance account));
           ("buying_power", JFloat (a_buying_power account));
           ("daily_pnl", JFloat (a_daily_pnl account));
           ("unrealized_pnl", JFloat (a_unrealized_pnl account));
           ("realized_pnl", JFloat (a_realized_pnl account));
           ("positions_count",
            JInt (Z.of_nat (List.length (a_positions account))))]%string
  end.

End Endpoints.

End Endpoints.

(** ** The market data cache of [TradingClient]

    [_market_data] is touched by [_handle_market_data] and
    [get_market_data] alone; it is kept beside the world, with the payloads
    handed to the [market_data] callbacks. *)

Record MarketData : Type := {
  md_symbol : string;
  md_last_price : float;
  md_bid : float;
  md_ask : float;
  md_bid_size : Z;
  md_ask_size : Z;
  md_volume : Z;
  md_high : float;
  md_low : float;
  md_open : float;
  md_timestamp : Z
}.

(** The mapping the broker pushes, each key present or not. *)
Record RawQuote : Type := {
  q_symbol : option string;
  q_last_trade_price : option float;
  q_best_bid_price : option float;
  q_best_ask_price : option float;
  q_best_bid_size : option Z;
  q_best_ask_size : option Z;
  q_volume : option Z;
  q_high_price : option float;
  q_low_price : option float;
  q_open_price : option float
}.

Inductive QuotePayload : Type :=
| QuoteNotADict
| QuoteDict (d : RawQuote).

Record MarketState : Type := {
  _market_data : dict MarketData;
  market_published : list MarketData
}.

(** [_handle_market_data], [now] being [datetime.now()]; what the body
    raises is logged and swallowed. *)
Definition _handle_market_data (now : Z) (data : QuotePayload)
    (st : MarketState) : MarketState :=
  match data with
  | QuoteNotADict => st
  | QuoteDict d =>
      let symbol := get_default (q_symbol d) ""%string in
      let market_data :=
        {| md_symbol := symbol;
           md_last_price := get_default (q_last_trade_price d) 0%float;
           md_bid := get_default (q_best_bid_price d) 0%float;
           md_ask := get_default (q_best_ask_price d) 0%float;
           md_bid_size := get_default (q_best_bid_size d) 0;
           md_ask_size := get_default (q_best_ask_size d) 0;
           md_volume := get_default (q_volume d) 0;
           md_high := get_default (q_high_price d) 0%float;
           md_low := get_default (q_low_price d) 0%float;
           md_open := get_default (q_open_price d) 0%float;
           md_timestamp := now |} in
      {| _market_data := dict_set (_market_data st) symbol market_data;
         market_published := market_published st ++ [market_data] |}
  end.

Definition get_market_data (symbol : string) (st : MarketState)
  : option MarketData :=
  dict_get (_market_data st) symbol.

(** ** The callback registry of [TradingClient]

    A callable is known by its identity, here a number. *)

Definition Registry : Type := dict (list nat).

(** [self._callbacks] as [__init__] builds it *)
Definition initial_callbacks : Registry :=
  [("market_data", []); ("order_update", []); ("position_update", []);
   ("connection_status", [])]%string.

(** [list.remove]: the first equal element goes. *)
Fixpoint list_remove (x : nat) (l : list nat) : list nat :=
  match l with
  | [] => []
  | y :: rest => if Nat.eqb y x then rest else y :: list_remove x rest
  end.

Definition on (event : string) (callback : nat) (r : Registry) : Registry :=
  match dict_get r event with
  | Some registered => dict_set r event (registered ++ [callback])
  | None => r
  end.

Definition off (event : string) (callback : nat) (r : Registry) : Registry :=
  match dict_get r event with
  | Some registered =>
      if existsb (Nat.eqb callback) registered
      then dict_set r event (list_remove callback registered)
      else r
  | None => r
  end.

(** ** Invariants *)

(** [m] keeps [I]. *)
Definition preserves (I : World -> Prop) {A : Type} (m : M A) : Prop :=
  forall w, I w -> I (snd (m w)).

(** A broker call that asks for no more than [cap] contracts. *)
Definition within_cap (cap : Z) (c : BrokerCall) : Prop :=
  match c with
  | CallSubmitOrder _ _ _ quantity _ _ _ => quantity <= cap
  | _ => True
  end.

(** Every order sent so far respects the configured cap. *)
Definition capped (cfg : Config) (w : World) : Prop :=
  config (client w) = cfg /\
  Forall (within_cap (max_contracts (trading cfg))) (calls w).

(** An entry of the order book as [place_order] and the cancels leave it. *)
Definition entry_ok (cap : Z) (kv : string * Order) : Prop :=
  o_order_id (snd kv) = fst kv /\
  (o_status (snd kv) = SUBMITTED \/ o_status (snd kv) = CANCELLED) /\
  o_quantity (snd kv) <= cap /\
  o_filled_quantity (snd kv) = 0.

Definition book_ok (cfg : Config) (w : World) : Prop :=
  config (client w) = cfg /\
  NoDup (dict_keys (_orders (client w))) /\
  Forall (entry_ok (max_contracts (trading cfg))) (_orders (client w)).

(** One entry per symbol, each under its own symbol. *)
Definition ledger_ok (w : World) : Prop :=
  NoDup (dict_keys (_positions (client w))) /\
  Forall (fun kv => p_symbol (snd kv) = fst kv) (_positions (client w)).

(** Trading is off and the orders sent so far are [sent]. *)
Definition halted (sent : list BrokerCall) (w : World) : Prop :=
  _trading_enabled (client w) = false /\ submissions (calls w) = sent.

(** The client is off line and the log, the book and the ledger are those
    of [w0]. *)
Definition offline_as (w0 w : World) : Prop :=
  _connected (client w) = false /\
  calls w = calls w0 /\
  _orders (client w) = _orders (client w0) /\
  _positions (client w) = _positions (client w0).

(** The two commands that talk to the broker without a connection. *)
Definition uses_connection (c : Command) : bool :=
  match c with
  | CmdConnect | CmdDisconnect => true
  | _ => false
  end.

(** [m] answers with a value in every world: no exception leaves it. *)
Definition never_raises {A : Type} (m : M A) : Prop :=
  forall w, exists a, fst (m w) = Ok a.

(** The client apart from its ledger, and the log and events of the world,
    are those of [w]. *)
Definition same_but_ledger (w w' : World) : Prop :=
  config (client w') = config (client w) /\
  _client (client w') = _client (client w) /\
  _connected (client w') = _connected (client w) /\
  _orders (client w') = _orders (client w) /\
  _account_info (client w') = _account_info (client w) /\
  _daily_pnl (client w') = _daily_pnl (client w) /\
  _trading_enabled (client w') = _trading_enabled (client w) /\
  calls w' = calls w /\
  published w' = published w.

(** The last element of [positions] reported for [symbol], if any. *)
Fixpoint last_reported (symbol : string) (positions : list RawPosition)
  : option Position :=
  match positions with
  | [] => None
  | d :: rest =>
      match last_reported symbol rest with
      | Some p => Some p
      | None =>
          if String.eqb symbol (p_symbol (position_of d))
          then Some (position_of d) else None
      end
  end.

(** * Properties *)

(** ** The four ways through [place_order] *)

Section PlaceOrder.

Variable venue : Venue.
Variables (symbol : string) (side : OrderSide) (quantity : Z)
          (order_type : OrderType) (price stop_price : option float).

Local Abbreviation attempt :=
  (place_order venue symbol side quantity order_type price stop_price).

Lemma place_order_not_connected (w : World) :
  _connected (client w) = false ->
  attempt w = (Raise (RuntimeError "Not connected to Rithmic"), w).
Proof.
  intros Hc. unfold attempt, place_order, bind, gets, raise.
  cbn. rewrite Hc. reflexivity.
Qed.

Lemma place_order_trading_disabled (w : World) :
  _connected (client w) = true ->
  _trading_enabled (client w) = false ->
  attempt w = (Ok None, w).
Proof.
  intros Hc He. unfold attempt, place_order, bind, gets, ret.
  cbn. rewrite Hc. cbn. rewrite He. reflexivity.
Qed.

Lemma place_order_loss_limit (w : World) :
  _connected (client w) = true ->
  _trading_enabled (client w) = true ->
  loss_limit_breached (client w) = true ->
  attempt w = (Ok None, with_client (set_trading_enabled false (client w)) w).
Proof.
  intros Hc He Hl. unfold loss_limit_breached in Hl.
  unfold attempt, place_order, bind, gets, ret, modify.
  cbn. rewrite Hc. cbn. rewrite He. cbn. rewrite Hl. reflexivity.
Qed.

Lemma place_order_venue_fails (w : World) :
  _connected (client w) = true ->
  _trading_enabled (client w) = true ->
  loss_limit_breached (client w) = false ->
  let call := submission_of (client w) symbol side quantity order_type
                price stop_price in
  v_submit_order venue (calls w ++ [call]) = Raises \/
  v_submit_order venue (calls w ++ [call]) = Returns SubmitNotADict ->
  attempt w = (Ok None, with_calls (calls w ++ [call]) w).
Proof.
  intros Hc He Hl call Hv. unfold loss_limit_breached in Hl.
  unfold attempt, place_order, bind, gets, ret, modify, try_except,
    call_venue, history, raise.
  cbn. rewrite Hc. cbn. rewrite He. cbn. rewrite Hl.
  fold (clamped (client w) quantity).
  fold (submission_of (client w) symbol side quantity order_type price stop_price).
  fold call.
  destruct Hv as [Hv | Hv]; rewrite Hv; reflexivity.
Qed.

Lemma place_order_acknowledged (w : World) (oid : option string) :
  _connected (client w) = true ->
  _trading_enabled (client w) = true ->
  loss_limit_breached (client w) = false ->
  let call := submission_of (client w) symbol side quantity order_type
                price stop_price in
  v_submit_order venue (calls w ++ [call]) = Returns (SubmitDict oid) ->
  let order := booked_order venue (calls w ++ [call]) (client w) symbol side
                 quantity order_type price stop_price oid in
  attempt w =
    (Ok (Some order),
     {| client := set_orders
                    (dict_set (_orders (client w)) (o_order_id order) order)
                    (client w);
        calls := calls w ++ [call];
        published := published w ++ [EvOrderUpdate order] |}).
Proof.
  intros Hc He Hl call Hv order. unfold loss_limit_breached in Hl.
  unfold attempt, place_order, bind, gets, ret, modify, try_except,
    call_venue, history, raise, _notify_callbacks.
  cbn. rewrite Hc. cbn. rewrite He. cbn. rewrite Hl.
  fold (clamped (client w) quantity).
  fold (submission_of (client w) symbol side quantity order_type price stop_price).
  fold call. rewrite Hv. reflexivity.
Qed.

End PlaceOrder.

(** ** The quantity cap *)

Lemma clamped_over_cap (c : TradingClient) (q : Z) :
  q > max_contracts (trading (config c)) ->
  clamped c q = max_contracts (trading (config c)).
Proof.
  intros Hq. unfold clamped.
  destruct (q >? max_contracts (trading (config c))) eqn:E; [reflexivity|].
  rewrite Z.gtb_ltb, Z.ltb_ge in E. lia.
Qed.

Lemma clamped_at_cap (c : TradingClient) :
  clamped c (max_contracts (trading (config c))) =
  max_contracts (trading (config c)).
Proof.
  unfold clamped. rewrite Z.gtb_ltb, Z.ltb_irrefl. reflexivity.
Qed.

Lemma clamped_le_cap (c : TradingClient) (q : Z) :
  clamped c q <= max_contracts (trading (config c)).
Proof.
  unfold clamped.
  destruct (q >? max_contracts (trading (config c))) eqn:E; [lia|].
  rewrite Z.gtb_ltb, Z.ltb_ge in E. exact E.
Qed.

(** [place_order] reads its quantity only through the cap check. *)
Lemma place_order_reads_clamped (venue : Venue) (w : World) (s : string)
    (sd : OrderSide) (q q' : Z) (t : OrderType) (p sp : option float) :
  clamped (client w) q = clamped (client w) q' ->
  place_order venue s sd q t p sp w = place_order venue s sd q' t p sp w.
Proof.
  intros Hq. unfold place_order, bind, gets. cbn.
  destruct (_connected (client w)); [|reflexivity]. cbn.
  destruct (_trading_enabled (client w)); [|reflexivity]. cbn.
  fold (clamped (client w) q). fold (clamped (client w) q').
  rewrite Hq. reflexivity.
Qed.

(** An order that comes back carries the clamped quantity, whatever the
    state and the broker. *)
Lemma place_order_returns_clamped (venue : Venue) (w : World) (s : string)
    (sd : OrderSide) (q : Z) (t : OrderType) (p sp : option float)
    (order : Order) :
  fst (place_order venue s sd q t p sp w) = Ok (Some order) ->
  o_quantity order = clamped (client w) q /\ o_status order = SUBMITTED.
Proof.
  unfold place_order, bind, gets, ret, raise, modify, try_except, call_venue,
    history, _notify_callbacks. cbn.
  destruct (_connected (client w)); cbn; [|discriminate].
  destruct (_trading_enabled (client w)); cbn; [|discriminate].
  destruct (_ <? _)%float; cbn; [discriminate|].
  fold (clamped (client w) q).
  destruct (v_submit_order venue _) as [|[|oid]]; cbn; try discriminate.
  intros H. injection H as <-. split; reflexivity.
Qed.

(** No order ever comes back for more than the cap. *)
Lemma place_order_never_exceeds_cap (venue : Venue) (w : World) (s : string)
    (sd : OrderSide) (q : Z) (t : OrderType) (p sp : option float)
    (order : Order) :
  fst (place_order venue s sd q t p sp w) = Ok (Some order) ->
  o_quantity order <= max_contracts (trading (config (client w))).
Proof.
  intros H. destruct (place_order_returns_clamped _ _ _ _ _ _ _ _ _ H) as [-> _].
  apply clamped_le_cap.
Qed.

(** C1: a [place_order] call made while connected and trading-enabled with
    a quantity above [max_contracts] returns, when it returns an order, an
    order for exactly [max_contracts]; it behaves in every respect as the
    same call made with the cap itself, so nothing is rejected for the
    excess alone; and when the loss rule is quiet and the broker
    acknowledges, the order does come back, [SUBMITTED]. *)
Theorem place_order_clamps_to_max_contracts
    (venue : Venue) (w : World) (s : string) (sd : OrderSide) (q : Z)
    (t : OrderType) (p sp : option float) :
  _connected (client w) = true ->
  _trading_enabled (client w) = true ->
  q > max_contracts (trading (config (client w))) ->
  (forall order,
      fst (place_order venue s sd q t p sp w) = Ok (Some order) ->
      o_quantity order = max_contracts (trading (config (client w)))) /\
  place_order venue s sd q t p sp w =
    place_order venue s sd (max_contracts (trading (config (client w)))) t p sp w /\
  (forall oid,
      loss_limit_breached (client w) = false ->
      v_submit_order venue
        (calls w ++ [CallSubmitOrder s "CME" (side_code sd)
                       (max_contracts (trading (config (client w))))
                       (order_type_map t) p sp]) = Returns (SubmitDict oid) ->
      exists order,
        fst (place_order venue s sd q t p sp w) = Ok (Some order) /\
        o_quantity order = max_contracts (trading (config (client w))) /\
        o_status order = SUBMITTED).
Proof.
  intros Hc He Hq.
  pose proof (clamped_over_cap (client w) q Hq) as Hcl.
  split; [|split].
  - intros order Ho.
    destruct (place_order_returns_clamped _ _ _ _ _ _ _ _ _ Ho) as [Hqty _].
    congruence.
  - apply place_order_reads_clamped.
    rewrite Hcl. symmetry. apply clamped_at_cap.
  - intros oid Hl Hv.
    pose proof (place_order_acknowledged venue s sd q t p sp w oid Hc He Hl)
      as Hack.
    cbv zeta in Hack. unfold submission_of in Hack. rewrite Hcl in Hack.
    specialize (Hack Hv). rewrite Hack. cbn.
    eexists. split; [reflexivity|]. split; [|reflexivity].
    cbn. unfold submission_of. exact Hcl.
Qed.

Lemma place_order_clamps_to_max_contracts_witness :
  _connected (client online) = true /\
  _trading_enabled (client online) = true /\
  10 > max_contracts (trading (config (client online))) /\
  exists order,
    fst (place_order willing_venue "ESH5" BUY 10 MARKET None None online)
      = Ok (Some order) /\
    o_quantity order = 5 /\ o_status order = SUBMITTED.
Proof.
  split; [reflexivity|]. split; [reflexivity|]. split; [reflexivity|].
  destruct (place_order_clamps_to_max_contracts willing_venue online
              "ESH5" BUY 10 MARKET None None
              eq_refl eq_refl eq_refl) as (_ & _ & H).
  exact (H (Some "R-1"%string) eq_refl eq_refl).
Defined.

(** ** The trading flag is only ever switched on by a command *)

Create HintDb latch.

Section KeepsDisabled.

Context {A B : Type}.

Lemma keeps_disabled_ret (a : A) : keeps_disabled (ret a).
Proof. intros w H. exact H. Qed.

Lemma keeps_disabled_raise (e : exn) : keeps_disabled (@raise A e).
Proof. intros w H. exact H. Qed.

Lemma keeps_disabled_gets (f : TradingClient -> A) : keeps_disabled (gets f).
Proof. intros w H. exact H. Qed.

Lemma keeps_disabled_call (c : BrokerCall) (answer : list BrokerCall -> reply A) :
  keeps_disabled (call_venue c answer).
Proof.
  intros w H. unfold call_venue. destruct (answer _); exact H.
Qed.

Lemma keeps_disabled_bind (m : M A) (k : A -> M B) :
  keeps_disabled m -> (forall a, keeps_disabled (k a)) ->
  keeps_disabled (bind m k).
Proof.
  intros Hm Hk w H. unfold bind. specialize (Hm w H).
  destruct (m w) as [[a|e] w']; cbn in Hm.
  - apply Hk. exact Hm.
  - exact Hm.
Qed.

Lemma keeps_disabled_try (body : M A) (handler : exn -> M A) :
  keeps_disabled body -> (forall e, keeps_disabled (handler e)) ->
  keeps_disabled (try_except body handler).
Proof.
  intros Hm Hk w H. unfold try_except. specialize (Hm w H).
  destruct (body w) as [[a|e] w']; cbn in Hm.
  - exact Hm.
  - apply Hk. exact Hm.
Qed.

Lemma keeps_disabled_if (b : bool) (m1 m2 : M A) :
  keeps_disabled m1 -> keeps_disabled m2 ->
  keeps_disabled (if b then m1 else m2).
Proof. destruct b; auto. Qed.

End KeepsDisabled.

Lemma keeps_disabled_modify (f : TradingClient -> TradingClient) :
  (forall c, _trading_enabled c = false -> _trading_enabled (f c) = false) ->
  keeps_disabled (modify f).
Proof. intros Hf w H. apply Hf. exact H. Qed.

Lemma keeps_disabled_history : keeps_disabled history.
Proof. intros w H. exact H. Qed.

Lemma keeps_disabled_notify (e : Event) : keeps_disabled (_notify_callbacks e).
Proof. intros w H. exact H. Qed.

#[local] Hint Resolve keeps_disabled_ret keeps_disabled_raise
  keeps_disabled_gets keeps_disabled_call keeps_disabled_bind
  keeps_disabled_try keeps_disabled_if keeps_disabled_history
  keeps_disabled_notify : latch.

(** Closes [keeps_disabled] goals over code built from the operations
    above, opening a [match] where the code has one. *)
Ltac latch :=
  repeat first
    [ progress (intros)
    | apply keeps_disabled_modify; intros ? ?; cbn; solve [assumption | reflexivity]
    | apply keeps_disabled_modify; intros c ?; destruct (dict_get _ _); cbn; assumption
    | solve [auto with latch]
    | apply keeps_disabled_bind
    | apply keeps_disabled_try
    | apply keeps_disabled_if
    | match goal with
      | |- keeps_disabled (match ?x with _ => _ end) => destruct x
      end ].

Section Latch.

Variable venue : Venue.

Lemma connect_keeps_disabled : keeps_disabled (connect venue).
Proof.
  intros w H. unfold connect.
  destruct (v_connect venue _); cbn; exact H.
Qed.

Lemma disconnect_keeps_disabled : keeps_disabled (disconnect venue).
Proof. unfold disconnect. latch. Qed.

Lemma place_order_keeps_disabled s sd q t p sp :
  keeps_disabled (place_order venue s sd q t p sp).
Proof. unfold place_order. latch. Qed.

Lemma cancel_order_keeps_disabled oid : keeps_disabled (cancel_order venue oid).
Proof. unfold cancel_order. latch. Qed.

Lemma cancel_all_orders_keeps_disabled : keeps_disabled (cancel_all_orders venue).
Proof. unfold cancel_all_orders. latch. Qed.

Lemma load_positions_keeps_disabled items : keeps_disabled (load_positions items).
Proof.
  induction items as [|[|d] rest IH]; cbn [load_positions]; latch.
Qed.

Lemma get_positions_keeps_disabled : keeps_disabled (get_positions venue).
Proof.
  pose proof load_positions_keeps_disabled.
  unfold get_positions. latch.
Qed.

Lemma close_position_keeps_disabled s : keeps_disabled (close_position venue s).
Proof.
  pose proof place_order_keeps_disabled.
  unfold close_position. latch.
Qed.

Lemma close_all_loop_keeps_disabled symbols success :
  keeps_disabled (close_all_loop venue symbols success).
Proof.
  pose proof close_position_keeps_disabled.
  revert success.
  induction symbols as [|s rest IH]; intros success; cbn [close_all_loop]; latch.
Qed.

Lemma close_all_positions_keeps_disabled :
  keeps_disabled (close_all_positions venue).
Proof.
  pose proof close_all_loop_keeps_disabled.
  unfold close_all_positions. latch.
Qed.

Lemma get_account_info_keeps_disabled : keeps_disabled (get_account_info venue).
Proof.
  pose proof get_positions_keeps_disabled.
  unfold get_account_info. latch.
Qed.

Lemma execute_signal_keeps_disabled sg : keeps_disabled (execute_signal venue sg).
Proof.
  pose proof place_order_keeps_disabled.
  pose proof close_position_keeps_disabled.
  pose proof cancel_all_orders_keeps_disabled.
  unfold execute_signal, is_connected, is_trading_enabled. latch.
Qed.

Lemma emergency_stop_keeps_disabled : keeps_disabled (emergency_stop venue).
Proof.
  pose proof cancel_all_orders_keeps_disabled.
  pose proof close_all_positions_keeps_disabled.
  unfold emergency_stop, disable_trading. latch.
Qed.

Lemma step_keeps_disabled (c : Command) (w : World) :
  turns_trading_on c = false ->
  _trading_enabled (client w) = false ->
  _trading_enabled (client (step venue c w)) = false.
Proof.
  intros Hc H.
  destruct c; cbn [step]; try discriminate Hc.
  - now apply connect_keeps_disabled.
  - now apply disconnect_keeps_disabled.
  - now apply place_order_keeps_disabled.
  - now apply cancel_order_keeps_disabled.
  - now apply cancel_all_orders_keeps_disabled.
  - now apply get_positions_keeps_disabled.
  - now apply close_position_keeps_disabled.
  - now apply close_all_positions_keeps_disabled.
  - now apply get_account_info_keeps_disabled.
  - now apply execute_signal_keeps_disabled.
  - now apply emergency_stop_keeps_disabled.
  - reflexivity.
Qed.

Lemma run_keeps_disabled (cmds : list Command) (w : World) :
  Forall (fun c => turns_trading_on c = false) cmds ->
  _trading_enabled (client w) = false ->
  _trading_enabled (client (run venue cmds w)) = false.
Proof.
  intros Hall. revert w.
  induction Hall as [|c cmds Hc _ IH]; intros w H; cbn.
  - exact H.
  - apply IH. now apply step_keeps_disabled.
Qed.

End Latch.

(** ** The daily loss rule *)

(** C2: once [_daily_pnl] is below [-max_daily_loss], a [place_order]
    attempted on the connected client returns no order and leaves
    [_trading_enabled] false; the flag is still false after any further
    sequence of commands (orders, account refreshes that worsen the loss,
    cancels, closes, signals, ...) that holds no explicit switch-on, and
    [reset_daily_stats] issued after it sets the flag again. *)
Theorem daily_loss_breach_disables_until_reset
    (venue : Venue) (w : World) (s : string) (sd : OrderSide) (q : Z)
    (t : OrderType) (p sp : option float) (cmds : list Command) :
  _connected (client w) = true ->
  loss_limit_breached (client w) = true ->
  Forall (fun c => turns_trading_on c = false) cmds ->
  fst (place_order venue s sd q t p sp w) = Ok None /\
  _trading_enabled (client (snd (place_order venue s sd q t p sp w))) = false /\
  _trading_enabled
    (client (run venue cmds (snd (place_order venue s sd q t p sp w)))) = false /\
  _trading_enabled
    (client (snd (reset_daily_stats
                    (run venue cmds (snd (place_order venue s sd q t p sp w))))))
    = true.
Proof.
  intros Hc Hl Hcmds.
  assert (Hfirst : fst (place_order venue s sd q t p sp w) = Ok None /\
                   _trading_enabled
                     (client (snd (place_order venue s sd q t p sp w))) = false).
  { destruct (_trading_enabled (client w)) eqn:He.
    - rewrite (place_order_loss_limit venue s sd q t p sp w Hc He Hl).
      split; reflexivity.
    - rewrite (place_order_trading_disabled venue s sd q t p sp w Hc He).
      split; [reflexivity | exact He]. }
  destruct Hfirst as [Hres Hoff].
  split; [exact Hres|]. split; [exact Hoff|]. split.
  - apply run_keeps_disabled; assumption.
  - reflexivity.
Qed.

Lemma daily_loss_breach_disables_until_reset_witness :
  let w := with_pnl (-2000)%float online in
  let cmds := [CmdPlaceOrder "ESH5" BUY 1 MARKET None None;
               CmdGetAccountInfo;
               CmdClosePosition "ESH5";
               CmdPlaceOrder "ESH5" SELL 3 LIMIT (Some 4500%float) None]%string in
  let after := run losing_venue cmds
                 (snd (place_order losing_venue "ESH5" BUY 2 MARKET None None w)) in
  _connected (client w) = true /\
  loss_limit_breached (client w) = true /\
  _trading_enabled (client w) = true /\
  _daily_pnl (client after) = (-3000)%float /\
  _trading_enabled (client after) = false.
Proof.
  cbv zeta.
  split; [reflexivity|]. split; [reflexivity|]. split; [reflexivity|].
  split; [reflexivity|].
  refine (proj1 (proj2 (proj2
    (daily_loss_breach_disables_until_reset losing_venue
       (with_pnl (-2000)%float online) "ESH5" BUY 2 MARKET None None _
       eq_refl eq_refl _)))).
  repeat constructor.
Defined.

(** ** Disabled trading and a missing connection are told apart *)

(** C8: [place_order] on a connected client whose trading is disabled
    returns [None] and changes nothing; on a disconnected client it raises
    [RuntimeError("Not connected to Rithmic")]; the two outcomes differ
    whatever the arguments and the broker. *)
Theorem trading_disabled_differs_from_not_connected
    (venue venue' : Venue) (w w' : World)
    (s s' : string) (sd sd' : OrderSide) (q q' : Z) (t t' : OrderType)
    (p sp p' sp' : option float) :
  _connected (client w) = true ->
  _trading_enabled (client w) = false ->
  _connected (client w') = false ->
  place_order venue s sd q t p sp w = (Ok None, w) /\
  place_order venue' s' sd' q' t' p' sp' w' =
    (Raise (RuntimeError "Not connected to Rithmic"), w') /\
  fst (place_order venue s sd q t p sp w) <>
  fst (place_order venue' s' sd' q' t' p' sp' w').
Proof.
  intros Hc He Hc'.
  rewrite (place_order_trading_disabled venue s sd q t p sp w Hc He).
  rewrite (place_order_not_connected venue' s' sd' q' t' p' sp' w' Hc').
  repeat split. cbn. discriminate.
Qed.

Lemma trading_disabled_differs_from_not_connected_witness :
  let halted := snd (disable_trading online) in
  let offline := init sample_config in
  _connected (client halted) = true /\
  _trading_enabled (client halted) = false /\
  _connected (client offline) = false /\
  fst (place_order willing_venue "ESH5" BUY 1 MARKET None None halted) <>
  fst (place_order willing_venue "ESH5" BUY 1 MARKET None None offline).
Proof.
  cbv zeta.
  split; [reflexivity|]. split; [reflexivity|]. split; [reflexivity|].
  exact (proj2 (proj2
    (trading_disabled_differs_from_not_connected willing_venue willing_venue
       (snd (disable_trading online)) (init sample_config)
       "ESH5" "ESH5" BUY BUY 1 1 MARKET MARKET None None None None
       eq_refl eq_refl eq_refl))).
Defined.

(** ** The position ledger under a failing positions query *)

Lemma get_positions_offline (venue : Venue) (w : World) :
  _connected (client w) = false ->
  get_positions venue w = (Ok (dict_values (_positions (client w))), w).
Proof.
  intros Hc. unfold get_positions, bind, gets. cbn. rewrite Hc. reflexivity.
Qed.

Lemma get_positions_query_raises (venue : Venue) (w : World) :
  _connected (client w) = true ->
  v_get_positions venue (calls w ++ [CallGetPositions]) = Raises ->
  get_positions venue w =
    (Ok (dict_values (_positions (client w))),
     with_calls (calls w ++ [CallGetPositions]) w).
Proof.
  intros Hc Hv.
  unfold get_positions, bind, gets, try_except, call_venue. cbn.
  rewrite Hc. cbn. rewrite Hv. reflexivity.
Qed.

(** C10: when the broker's positions query raises on a connected client,
    [get_positions] returns the values of the ledger as it stood, and the
    client (ledger included) is exactly as before, the only trace being
    the logged call; conversely the ledger differs after [get_positions]
    only if the client was connected and the query returned. *)
Theorem get_positions_keeps_ledger_when_query_raises
    (venue : Venue) (w : World) :
  (_connected (client w) = true ->
   v_get_positions venue (calls w ++ [CallGetPositions]) = Raises ->
   fst (get_positions venue w) = Ok (dict_values (_positions (client w))) /\
   client (snd (get_positions venue w)) = client w /\
   calls (snd (get_positions venue w)) = calls w ++ [CallGetPositions]) /\
  (_positions (client (snd (get_positions venue w))) <> _positions (client w) ->
   _connected (client w) = true /\
   exists items,
     v_get_positions venue (calls w ++ [CallGetPositions]) = Returns items).
Proof.
  split.
  - intros Hc Hv. rewrite (get_positions_query_raises venue w Hc Hv).
    repeat split.
  - intros Hdiff.
    destruct (_connected (client w)) eqn:Hc.
    + split; [reflexivity|].
      destruct (v_get_positions venue (calls w ++ [CallGetPositions]))
        as [|items] eqn:Hv.
      * rewrite (get_positions_query_raises venue w Hc Hv) in Hdiff.
        now contradiction Hdiff.
      * now exists items.
    + rewrite (get_positions_offline venue w Hc) in Hdiff.
      now contradiction Hdiff.
Qed.

Lemma get_positions_keeps_ledger_when_query_raises_witness :
  let w := with_ledger [position "ESH5" 2; position "NQH5" (-1)]%string online in
  _connected (client w) = true /\
  v_get_positions failing_venue (calls w ++ [CallGetPositions]) = Raises /\
  fst (get_positions failing_venue w) =
    Ok [position "ESH5" 2; position "NQH5" (-1)]%string /\
  client (snd (get_positions failing_venue w)) = client w.
Proof.
  cbv zeta.
  split; [reflexivity|]. split; [reflexivity|].
  destruct (proj1 (get_positions_keeps_ledger_when_query_raises failing_venue
              (with_ledger [position "ESH5" 2; position "NQH5" (-1)]%string online))
              eq_refl eq_refl) as (Hres & Hclient & _).
  split; [exact Hres | exact Hclient].
Defined.

(** ** What [place_order] leaves alone *)

Section PlaceOrderFrame.

Variable venue : Venue.
Variables (s : string) (sd : OrderSide) (q : Z) (t : OrderType)
          (p sp : option float).

(** Connected, the call returns (it does not raise) and the client stays
    connected. *)
Lemma place_order_connected_returns (w : World) :
  _connected (client w) = true ->
  (exists r, fst (place_order venue s sd q t p sp w) = Ok r) /\
  _connected (client (snd (place_order venue s sd q t p sp w))) = true.
Proof.
  intros Hc.
  unfold place_order, bind, gets, ret, raise, modify, try_except, call_venue,
    history, _notify_callbacks. cbn. rewrite Hc. cbn.
  destruct (_trading_enabled (client w)); cbn; [|eauto].
  destruct (_ <? _)%float; cbn; [eauto|].
  destruct (v_submit_order venue _) as [|[|oid]]; cbn; eauto.
Qed.

(** With the gate open, exactly one call reaches the broker, whatever it
    answers, and the gate and the ledger are as before. *)
Lemma place_order_gate_open (w : World) :
  _connected (client w) = true ->
  _trading_enabled (client w) = true ->
  loss_limit_breached (client w) = false ->
  calls (snd (place_order venue s sd q t p sp w)) =
    calls w ++ [submission_of (client w) s sd q t p sp] /\
  same_gate w (snd (place_order venue s sd q t p sp w)).
Proof.
  intros Hc He Hl.
  destruct (v_submit_order venue
              (calls w ++ [submission_of (client w) s sd q t p sp]))
    as [|[|oid]] eqn:Hv.
  - rewrite (place_order_venue_fails venue s sd q t p sp w Hc He Hl (or_introl Hv)).
    split; [reflexivity|]. repeat split.
  - rewrite (place_order_venue_fails venue s sd q t p sp w Hc He Hl (or_intror Hv)).
    split; [reflexivity|]. repeat split.
  - rewrite (place_order_acknowledged venue s sd q t p sp w oid Hc He Hl Hv).
    split; [reflexivity|]. repeat split.
Qed.

End PlaceOrderFrame.

Lemma same_gate_open (w w' : World) :
  same_gate w w' ->
  _connected (client w) = true ->
  _trading_enabled (client w) = true ->
  loss_limit_breached (client w) = false ->
  _connected (client w') = true /\
  _trading_enabled (client w') = true /\
  loss_limit_breached (client w') = false.
Proof.
  intros (Hcfg & Hc & He & Hp & _) Hc0 He0 Hl0.
  unfold loss_limit_breached in *. rewrite Hcfg, Hc, He, Hp. auto.
Qed.

Lemma same_gate_submission (w w' : World) s sd q t p sp :
  same_gate w w' ->
  submission_of (client w') s sd q t p sp = submission_of (client w) s sd q t p sp.
Proof.
  intros (Hcfg & _). unfold submission_of, clamped. rewrite Hcfg. reflexivity.
Qed.

Lemma same_gate_closing_call (w w' : World) (s : string) :
  same_gate w w' ->
  closing_call (client w') s = closing_call (client w) s.
Proof.
  intros (Hcfg & _ & _ & _ & Hpos).
  unfold closing_call, submission_of, clamped. rewrite Hcfg, Hpos. reflexivity.
Qed.

Lemma same_gate_refl (w : World) : same_gate w w.
Proof. repeat split. Qed.

Lemma same_gate_trans (w1 w2 w3 : World) :
  same_gate w1 w2 -> same_gate w2 w3 -> same_gate w1 w3.
Proof.
  intros (A1 & A2 & A3 & A4 & A5) (B1 & B2 & B3 & B4 & B5).
  repeat split; congruence.
Qed.

(** ** [close_position] *)

Section ClosePosition.

Variable venue : Venue.

Lemma close_position_absent (w : World) (s : string) :
  dict_get (_positions (client w)) s = None ->
  close_position venue s w = (Ok false, w).
Proof.
  intros H. unfold close_position, bind, gets. cbn. rewrite H. reflexivity.
Qed.

Lemma close_position_flat (w : World) (s : string) (pos : Position) :
  dict_get (_positions (client w)) s = Some pos ->
  p_quantity pos = 0 ->
  close_position venue s w = (Ok true, w).
Proof.
  intros H Hq. unfold close_position, bind, gets. cbn. rewrite H, Hq.
  reflexivity.
Qed.

Lemma close_position_open (w : World) (s : string) (pos : Position) :
  dict_get (_positions (client w)) s = Some pos ->
  p_quantity pos <> 0 ->
  close_position venue s w =
    (order <- place_order venue s (closing_side (p_quantity pos))
                (Z.abs (p_quantity pos)) MARKET None None ;;
     ret (is_some order)) w.
Proof.
  intros H Hq. unfold close_position at 1. unfold bind at 1, gets at 1.
  cbn. rewrite H.
  destruct (p_quantity pos =? 0) eqn:E.
  - apply Z.eqb_eq in E. contradiction.
  - reflexivity.
Qed.

(** Connected, [close_position] returns and the client stays connected. *)
Lemma close_position_connected_returns (w : World) (s : string) :
  _connected (client w) = true ->
  (exists closed, fst (close_position venue s w) = Ok closed) /\
  _connected (client (snd (close_position venue s w))) = true.
Proof.
  intros Hc.
  destruct (dict_get (_positions (client w)) s) as [pos|] eqn:Hp.
  - destruct (Z.eq_dec (p_quantity pos) 0) as [Hq|Hq].
    + rewrite (close_position_flat w s pos Hp Hq). cbn.
      split; [eexists; reflexivity | exact Hc].
    + rewrite (close_position_open w s pos Hp Hq). unfold bind, ret.
      destruct (place_order_connected_returns venue s
                  (closing_side (p_quantity pos)) (Z.abs (p_quantity pos))
                  MARKET None None w Hc) as [[r Hr] Hc'].
      destruct (place_order venue s _ _ MARKET None None w) as [[r'|e] w'].
      * cbn in *. split; [eexists; reflexivity | exact Hc'].
      * cbn in Hr. discriminate.
  - rewrite (close_position_absent w s Hp). cbn.
    split; [eexists; reflexivity | exact Hc].
Qed.

(** With the gate open, [close_position] makes the closing call of the
    symbol, if it has one, and no other. *)
Lemma close_position_gate_open (w : World) (s : string) :
  _connected (client w) = true ->
  _trading_enabled (client w) = true ->
  loss_limit_breached (client w) = false ->
  calls (snd (close_position venue s w)) = calls w ++ closing_call (client w) s /\
  same_gate w (snd (close_position venue s w)).
Proof.
  intros Hc He Hl. unfold closing_call.
  destruct (dict_get (_positions (client w)) s) as [pos|] eqn:Hp.
  - destruct (Z.eq_dec (p_quantity pos) 0) as [Hq|Hq].
    + rewrite (close_position_flat w s pos Hp Hq), Hq. cbn.
      rewrite app_nil_r. split; [reflexivity | apply same_gate_refl].
    + rewrite (close_position_open w s pos Hp Hq).
      destruct (p_quantity pos =? 0) eqn:E;
        [apply Z.eqb_eq in E; contradiction|].
      destruct (place_order_gate_open venue s (closing_side (p_quantity pos))
                  (Z.abs (p_quantity pos)) MARKET None None w Hc He Hl)
        as [Hcalls Hgate].
      unfold bind, ret.
      destruct (place_order venue s _ _ MARKET None None w) as [[r|e] w'];
        cbn in *; auto.
  - rewrite (close_position_absent w s Hp). cbn.
    rewrite app_nil_r. split; [reflexivity | apply same_gate_refl].
Qed.

End ClosePosition.

(** A symbol the ledger does not hold: the answer is [False], not a
    success. *)
Lemma close_position_absent_symbol_counterexample :
  dict_get (_positions (client online)) "ESH5" = None /\
  close_position willing_venue "ESH5" online = (Ok false, online) /\
  fst (close_position willing_venue "ESH5" online) <> Ok true.
Proof.
  split; [reflexivity|]. split; [reflexivity|]. cbn. discriminate.
Qed.

(** C5, as the code has it: for a symbol absent from the ledger
    [close_position] returns [False] and does nothing; for a flat position
    it returns [True] and does nothing; otherwise it is one [place_order]
    call, a [MARKET] order on the opposite side for the absolute quantity,
    and its answer says whether an order came back, so that with the gate
    open exactly one call reaches the broker. *)
Theorem close_position_by_cases (venue : Venue) (w : World) (s : string) :
  (dict_get (_positions (client w)) s = None ->
   close_position venue s w = (Ok false, w)) /\
  (forall pos,
      dict_get (_positions (client w)) s = Some pos ->
      p_quantity pos = 0 ->
      close_position venue s w = (Ok true, w)) /\
  (forall pos,
      dict_get (_positions (client w)) s = Some pos ->
      p_quantity pos <> 0 ->
      close_position venue s w =
        (order <- place_order venue s
                    (if p_quantity pos >? 0 then SELL else BUY)
                    (Z.abs (p_quantity pos)) MARKET None None ;;
         ret (is_some order)) w /\
      (_connected (client w) = true ->
       _trading_enabled (client w) = true ->
       loss_limit_breached (client w) = false ->
       calls (snd (close_position venue s w)) =
         calls w ++ [CallSubmitOrder s "CME"
                       (if p_quantity pos >? 0 then "S" else "B")
                       (clamped (client w) (Z.abs (p_quantity pos)))
                       R_MARKET None None])).
Proof.
  split; [|split].
  - apply close_position_absent.
  - apply close_position_flat.
  - intros pos Hp Hq. split.
    + apply (close_position_open venue w s pos Hp Hq).
    + intros Hc He Hl.
      destruct (close_position_gate_open venue w s Hc He Hl) as [Hcalls _].
      rewrite Hcalls. unfold closing_call. rewrite Hp.
      destruct (p_quantity pos =? 0) eqn:E;
        [apply Z.eqb_eq in E; contradiction|].
      unfold submission_of, closing_side, side_code.
      destruct (p_quantity pos >? 0); reflexivity.
Qed.

Lemma close_position_by_cases_witness :
  let w := with_ledger [position "ESH5" 2; position "NQH5" 0;
                        position "CLH5" (-7)]%string online in
  close_position willing_venue "GCH5" w = (Ok false, w) /\
  close_position willing_venue "NQH5" w = (Ok true, w) /\
  calls (snd (close_position willing_venue "CLH5" w)) =
    calls w ++ [CallSubmitOrder "CLH5" "CME" "B" 5 R_MARKET None None].
Proof.
  cbv zeta.
  destruct (close_position_by_cases willing_venue
              (with_ledger [position "ESH5" 2; position "NQH5" 0;
                            position "CLH5" (-7)]%string online) "GCH5")
    as (Habsent & _ & _).
  destruct (close_position_by_cases willing_venue
              (with_ledger [position "ESH5" 2; position "NQH5" 0;
                            position "CLH5" (-7)]%string online) "NQH5")
    as (_ & Hflat & _).
  destruct (close_position_by_cases willing_venue
              (with_ledger [position "ESH5" 2; position "NQH5" 0;
                            position "CLH5" (-7)]%string online) "CLH5")
    as (_ & _ & Hopen).
  split; [exact (Habsent eq_refl)|].
  split; [exact (Hflat (position "NQH5" 0) eq_refl eq_refl)|].
  refine (proj2 (Hopen (position "CLH5" (-7)) eq_refl _) eq_refl eq_refl eq_refl).
  cbn. discriminate.
Defined.

(** ** [close_all_positions] *)

Section CloseAll.

Variable venue : Venue.

(** The loop with its accumulator is the conjunction of the outcomes. *)
Lemma close_all_loop_is_conjunction (symbols : list string) :
  forall (success : bool) (w : World),
    close_all_loop venue symbols success w =
      (outcomes <- close_each venue symbols ;;
       ret (forallb (fun closed => closed) outcomes && success)) w.
Proof.
  induction symbols as [|s rest IH]; intros success w.
  - reflexivity.
  - cbn [close_all_loop close_each]. unfold bind, ret.
    destruct (close_position venue s w) as [[closed|e] w1]; [|reflexivity].
    rewrite IH. unfold bind, ret.
    destruct (close_each venue rest w1) as [[others|e] w2]; [|reflexivity].
    cbn. destruct closed, (forallb (fun closed => closed) others), success;
      reflexivity.
Qed.

Lemma close_all_positions_is_conjunction (w : World) :
  close_all_positions venue w = close_all_by_conjunction venue w.
Proof.
  unfold close_all_positions, close_all_by_conjunction.
  unfold bind, gets, ret. cbn.
  rewrite close_all_loop_is_conjunction. unfold bind, ret.
  destruct (close_each venue _ w) as [[outcomes|e] w']; [|reflexivity].
  rewrite andb_true_r. reflexivity.
Qed.

(** Connected, every symbol of the list is attempted and answers. *)
Lemma close_each_connected (symbols : list string) :
  forall w : World,
    _connected (client w) = true ->
    exists outcomes,
      fst (close_each venue symbols w) = Ok outcomes /\
      List.length outcomes = List.length symbols.
Proof.
  induction symbols as [|s rest IH]; intros w Hc.
  - exists []. split; reflexivity.
  - cbn [close_each]. unfold bind, ret.
    destruct (close_position_connected_returns venue w s Hc)
      as [[closed Hclosed] Hc1].
    destruct (close_position venue s w) as [[closed'|e] w1]; cbn in *;
      [|discriminate].
    destruct (IH w1 Hc1) as (others & Hothers & Hlen).
    destruct (close_each venue rest w1) as [[others'|e] w2]; cbn in *;
      [|discriminate].
    injection Hothers as ->.
    exists (closed' :: others). split; [reflexivity|]. cbn. now rewrite Hlen.
Qed.

(** With the gate open, each open position gets its closing call, in the
    order of the symbols, whatever the broker answers to the earlier ones. *)
Lemma close_each_gate_open (symbols : list string) :
  forall w : World,
    _connected (client w) = true ->
    _trading_enabled (client w) = true ->
    loss_limit_breached (client w) = false ->
    calls (snd (close_each venue symbols w)) =
      calls w ++ flat_map (closing_call (client w)) symbols /\
    same_gate w (snd (close_each venue symbols w)).
Proof.
  induction symbols as [|s rest IH]; intros w Hc He Hl.
  - cbn. rewrite app_nil_r. split; [reflexivity | apply same_gate_refl].
  - cbn [close_each flat_map]. unfold bind, ret.
    destruct (close_position_gate_open venue w s Hc He Hl) as [Hcalls Hgate].
    destruct (close_position_connected_returns venue w s Hc) as [[closed Hr] _].
    destruct (close_position venue s w) as [[closed'|e] w1]; cbn in *;
      [|discriminate].
    destruct (same_gate_open w w1 Hgate Hc He Hl) as (Hc1 & He1 & Hl1).
    destruct (IH w1 Hc1 He1 Hl1) as [Hcalls' Hgate'].
    destruct (close_each venue rest w1) as [[others|e] w2]; cbn in *.
    + split; [|eapply same_gate_trans; eassumption].
      rewrite Hcalls', Hcalls, <- app_assoc. f_equal. f_equal.
      apply flat_map_ext. intros a. now apply same_gate_closing_call.
    + split; [|eapply same_gate_trans; eassumption].
      rewrite Hcalls', Hcalls, <- app_assoc. f_equal. f_equal.
      apply flat_map_ext. intros a. now apply same_gate_closing_call.
Qed.

End CloseAll.

(** ** [execute_signal]: entry and protective stop *)

Section ExecuteSignal.

Variable venue : Venue.

(** For [LONG] and [SHORT] the broker sees what the entry order and,
    under the guard, the stop order make it see. *)
Lemma execute_signal_entry_calls (w : World) (sg : SignalRequest)
    (entry : OrderSide) :
  _connected (client w) = true ->
  _trading_enabled (client w) = true ->
  (signal_type sg = "LONG"%string /\ entry = BUY) \/
  (signal_type sg = "SHORT"%string /\ entry = SELL) ->
  calls (snd (execute_signal venue sg w)) =
    calls (snd ((order <- place_order venue (symbol sg) entry (contracts sg)
                            MARKET None None ;;
                 if float_truthy (stop_loss sg) && is_some order
                 then place_order venue (symbol sg) (opposite entry)
                        (contracts sg) STOP None (stop_loss sg) ;;
                      ret tt
                 else ret tt) w)).
Proof.
  intros Hc He Hkind.
  unfold execute_signal, is_connected, is_trading_enabled.
  unfold bind, gets, try_except, ret, raise.
  cbn -[place_order close_position cancel_all_orders]. rewrite Hc.
  cbn -[place_order close_position cancel_all_orders]. rewrite He.
  destruct Hkind as [[Hk ->] | [Hk ->]]; rewrite Hk;
    cbn -[place_order close_position cancel_all_orders];
    destruct (place_order venue (symbol sg) _ (contracts sg) MARKET None None w)
      as [[order|e] w1]; cbn -[place_order]; try reflexivity;
    destruct (float_truthy (stop_loss sg) && is_some order); cbn -[place_order];
      try reflexivity;
    destruct (place_order venue (symbol sg) _ (contracts sg) STOP None
                (stop_loss sg) w1) as [[stop|e] w2]; reflexivity.
Qed.

End ExecuteSignal.

(** Ten contracts asked with a cap of five: both orders reach the broker
    for five. *)
Lemma execute_signal_over_cap_counterexample :
  let sg := signal "LONG" "ESH5" 10 (Some 4500%float) in
  _connected (client online) = true /\
  _trading_enabled (client online) = true /\
  is_some (stop_loss sg) = true /\
  (exists order,
      fst (place_order willing_venue "ESH5" BUY 10 MARKET None None online)
        = Ok (Some order)) /\
  submissions (calls (snd (execute_signal willing_venue sg online))) =
    [CallSubmitOrder "ESH5" "CME" "B" 5 R_MARKET None None;
     CallSubmitOrder "ESH5" "CME" "S" 5 R_STOP_MARKET None (Some 4500%float)] /\
  submissions (calls (snd (execute_signal willing_venue sg online))) <>
    [CallSubmitOrder "ESH5" "CME" "B" 10 R_MARKET None None;
     CallSubmitOrder "ESH5" "CME" "S" 10 R_STOP_MARKET None (Some 4500%float)].
Proof.
  cbv zeta.
  split; [reflexivity|]. split; [reflexivity|]. split; [reflexivity|].
  split; [eexists; reflexivity|]. split; [reflexivity|].
  vm_compute. intros H. injection H as H. discriminate H.
Qed.

(** C7, as the code has it: a [LONG] (or [SHORT]) signal for [n] contracts
    on a connected, trading-enabled client sends every order for
    [n] clamped to [max_contracts].  When the entry order comes back and
    the stop price is one Python counts as true, the broker receives
    exactly the [MARKET] entry and then the [STOP] order on the opposite
    side at that stop price.  When the daily loss rule is quiet and either
    no stop price is given or the entry brings no order back, the broker
    receives the entry alone.  When the daily loss rule rejects the entry,
    the broker receives nothing. *)
Theorem execute_signal_entry_then_stop
    (venue : Venue) (w : World) (sg : SignalRequest) (entry : OrderSide) :
  _connected (client w) = true ->
  _trading_enabled (client w) = true ->
  (signal_type sg = "LONG"%string /\ entry = BUY) \/
  (signal_type sg = "SHORT"%string /\ entry = SELL) ->
  (forall order,
      fst (place_order venue (symbol sg) entry (contracts sg) MARKET None None w)
        = Ok (Some order) ->
      float_truthy (stop_loss sg) = true ->
      calls (snd (execute_signal venue sg w)) =
        calls w ++
        [CallSubmitOrder (symbol sg) "CME" (side_code entry)
           (clamped (client w) (contracts sg)) R_MARKET None None;
         CallSubmitOrder (symbol sg) "CME" (side_code (opposite entry))
           (clamped (client w) (contracts sg)) R_STOP_MARKET None
           (stop_loss sg)]) /\
  (loss_limit_breached (client w) = false ->
   stop_loss sg = None \/
   fst (place_order venue (symbol sg) entry (contracts sg) MARKET None None w)
     = Ok None ->
   calls (snd (execute_signal venue sg w)) =
     calls w ++
     [CallSubmitOrder (symbol sg) "CME" (side_code entry)
        (clamped (client w) (contracts sg)) R_MARKET None None]) /\
  (loss_limit_breached (client w) = true ->
   calls (snd (execute_signal venue sg w)) = calls w).
Proof.
  intros Hc He Hkind.
  rewrite (execute_signal_entry_calls venue w sg entry Hc He Hkind).
  split; [|split].
  - intros order Hentry Htruthy.
    destruct (loss_limit_breached (client w)) eqn:Hl.
    { rewrite (place_order_loss_limit venue _ _ _ _ _ _ w Hc He Hl) in Hentry.
      discriminate Hentry. }
    destruct (place_order_gate_open venue (symbol sg) entry (contracts sg)
                MARKET None None w Hc He Hl) as [Hcalls Hgate].
    unfold bind, ret.
    destruct (place_order venue (symbol sg) entry (contracts sg) MARKET None
                None w) as [[r|e] w1]; cbn -[place_order] in *; [|discriminate].
    injection Hentry as ->. rewrite Htruthy. cbn -[place_order].
    destruct (same_gate_open w w1 Hgate Hc He Hl) as (Hc1 & He1 & Hl1).
    destruct (place_order_gate_open venue (symbol sg) (opposite entry)
                (contracts sg) STOP None (stop_loss sg) w1 Hc1 He1 Hl1)
      as [Hcalls1 _].
    rewrite (same_gate_submission w w1 _ _ _ _ _ _ Hgate) in Hcalls1.
    destruct (place_order venue (symbol sg) (opposite entry) (contracts sg)
                STOP None (stop_loss sg) w1) as [[r1|e1] w2]; cbn -[place_order] in *;
      rewrite Hcalls1, Hcalls, <- app_assoc; reflexivity.
  - intros Hl Hwhy.
    destruct (place_order_gate_open venue (symbol sg) entry (contracts sg)
                MARKET None None w Hc He Hl) as [Hcalls _].
    destruct (place_order_connected_returns venue (symbol sg) entry
                (contracts sg) MARKET None None w Hc) as [[r Hr] _].
    unfold bind, ret.
    destruct (place_order venue (symbol sg) entry (contracts sg) MARKET None
                None w) as [[r'|e] w1]; cbn -[place_order] in *; [|discriminate].
    assert (Hguard : float_truthy (stop_loss sg) && is_some r' = false).
    { destruct Hwhy as [Hnone | Hfail].
      - rewrite Hnone. reflexivity.
      - injection Hfail as ->. apply andb_false_r. }
    rewrite Hguard. exact Hcalls.
  - intros Hl. unfold bind, ret.
    rewrite (place_order_loss_limit venue _ _ _ _ _ _ w Hc He Hl).
    cbn -[place_order]. rewrite andb_false_r. reflexivity.
Qed.

Lemma execute_signal_entry_then_stop_witness :
  let sg := signal "SHORT" "ESH5" 10 (Some 4500%float) in
  _connected (client online) = true /\
  _trading_enabled (client online) = true /\
  float_truthy (stop_loss sg) = true /\
  calls (snd (execute_signal willing_venue sg online)) =
    calls online ++
    [CallSubmitOrder "ESH5" "CME" "S" 5 R_MARKET None None;
     CallSubmitOrder "ESH5" "CME" "B" 5 R_STOP_MARKET None (Some 4500%float)].
Proof.
  cbv zeta.
  split; [reflexivity|]. split; [reflexivity|]. split; [reflexivity|].
  destruct (execute_signal_entry_then_stop willing_venue online
              (signal "SHORT" "ESH5" 10 (Some 4500%float)) SELL
              eq_refl eq_refl (or_intror (conj eq_refl eq_refl)))
    as (Hboth & _ & _).
  exact (Hboth _ eq_refl eq_refl).
Defined.

(** A stop price of zero is not a true value for the guard: the entry goes
    out alone. *)
Example execute_signal_zero_stop :
  calls (snd (execute_signal willing_venue
                (signal "LONG" "ESH5" 2 (Some 0%float)) online)) =
  calls online ++ [CallSubmitOrder "ESH5" "CME" "B" 2 R_MARKET None None].
Proof. reflexivity. Qed.

(** The scenario of the specification, inside the cap. *)
Example execute_signal_long_two_contracts :
  calls (snd (execute_signal willing_venue
                (signal "LONG" "ESH5" 2 (Some 4500%float)) online)) =
  calls online ++
  [CallSubmitOrder "ESH5" "CME" "B" 2 R_MARKET None None;
   CallSubmitOrder "ESH5" "CME" "S" 2 R_STOP_MARKET None (Some 4500%float)].
Proof. reflexivity. Qed.

(** With the loss limit breached the entry is rejected before the broker
    is called. *)
Example execute_signal_loss_limit :
  calls (snd (execute_signal willing_venue
                (signal "LONG" "ESH5" 2 (Some 4500%float))
                (with_pnl (-2000)%float online))) =
  calls online.
Proof. reflexivity. Qed.

(** ** Cancelling *)

Section Cancel.

Variable venue : Venue.

Lemma cancel_order_not_connected (w : World) (oid : string) :
  _connected (client w) = false ->
  cancel_order venue oid w = (Raise (RuntimeError "Not connected to Rithmic"), w).
Proof.
  intros Hc. unfold cancel_order, bind, gets, raise. cbn. rewrite Hc.
  reflexivity.
Qed.

Lemma cancel_order_venue_raises (w : World) (oid : string) :
  _connected (client w) = true ->
  v_cancel_order venue (calls w ++ [CallCancelOrder oid]) = Raises ->
  cancel_order venue oid w =
    (Ok false, with_calls (calls w ++ [CallCancelOrder oid]) w).
Proof.
  intros Hc Hv.
  unfold cancel_order, bind, gets, try_except, call_venue. cbn.
  rewrite Hc. cbn. rewrite Hv. reflexivity.
Qed.

Lemma cancel_order_venue_returns (w : World) (oid : string) :
  _connected (client w) = true ->
  v_cancel_order venue (calls w ++ [CallCancelOrder oid]) = Returns tt ->
  cancel_order venue oid w =
    (Ok true,
     with_calls (calls w ++ [CallCancelOrder oid])
       (with_client
          match dict_get (_orders (client w)) oid with
          | Some o =>
              set_orders (dict_set (_orders (client w)) oid
                            (set_status CANCELLED o)) (client w)
          | None => client w
          end w)).
Proof.
  intros Hc Hv.
  unfold cancel_order, bind, gets, try_except, call_venue, modify, ret. cbn.
  rewrite Hc. cbn. rewrite Hv. reflexivity.
Qed.

Lemma cancel_all_orders_venue_returns (w : World) :
  _connected (client w) = true ->
  v_cancel_all_orders venue (calls w ++ [CallCancelAllOrders]) = Returns tt ->
  cancel_all_orders venue w =
    (Ok true,
     with_calls (calls w ++ [CallCancelAllOrders])
       (with_client
          (set_orders
             (dict_map_values
                (fun order =>
                   if status_in (o_status order) [PENDING; SUBMITTED]
                   then set_status CANCELLED order
                   else order)
                (_orders (client w)))
             (client w)) w)).
Proof.
  intros Hc Hv.
  unfold cancel_all_orders, bind, gets, try_except, call_venue, modify, ret.
  cbn. rewrite Hc. cbn. rewrite Hv. reflexivity.
Qed.

Lemma cancel_all_orders_venue_raises (w : World) :
  _connected (client w) = true ->
  v_cancel_all_orders venue (calls w ++ [CallCancelAllOrders]) = Raises ->
  cancel_all_orders venue w =
    (Ok false, with_calls (calls w ++ [CallCancelAllOrders]) w).
Proof.
  intros Hc Hv.
  unfold cancel_all_orders, bind, gets, try_except, call_venue. cbn.
  rewrite Hc. cbn. rewrite Hv. reflexivity.
Qed.

End Cancel.

(** An order cancelled once is cancelled again: the broker lets the call
    through and the answer is [True]. *)
Lemma cancel_order_twice_counterexample :
  let w := run willing_venue
             [CmdPlaceOrder "ESH5" BUY 1 MARKET None None;
              CmdCancelOrder "R-1"]%string online in
  _connected (client w) = true /\
  option_map o_status (dict_get (_orders (client w)) "R-1") = Some CANCELLED /\
  fst (cancel_order willing_venue "R-1" w) = Ok true /\
  fst (cancel_order willing_venue "R-1" w) <> Ok false.
Proof.
  cbv zeta.
  split; [reflexivity|]. split; [reflexivity|]. split; [reflexivity|].
  vm_compute. discriminate.
Qed.

(** [cancel_order] does not read the status it overwrites.  On a book
    holding a filled order, which no sequence of commands builds, the
    order would be booked as cancelled once the broker lets the call
    through. *)
Example cancel_order_overwrites_filled :
  let w := with_book [order_in "A" FILLED]%string online in
  fst (cancel_order willing_venue "A" w) = Ok true /\
  option_map o_status
    (dict_get (_orders (client (snd (cancel_order willing_venue "A" w)))) "A") =
  Some CANCELLED.
Proof. split; reflexivity. Qed.

(** The status test of [cancel_all_orders] names [PENDING] and
    [SUBMITTED] only.  On a book holding a [PARTIALLY_FILLED] order, which
    no sequence of commands builds, that order would keep its status. *)
Example cancel_all_orders_skips_partially_filled :
  let w := with_book [order_in "A" PARTIALLY_FILLED; order_in "B" SUBMITTED;
                      order_in "C" PENDING; order_in "D" FILLED;
                      order_in "E" REJECTED; order_in "F" CANCELLED]%string
             online in
  fst (get_open_orders w) =
    Ok [order_in "A" PARTIALLY_FILLED; order_in "B" SUBMITTED;
        order_in "C" PENDING]%string /\
  fst (cancel_all_orders willing_venue w) = Ok true /\
  map (fun kv => (fst kv, o_status (snd kv)))
      (_orders (client (snd (cancel_all_orders willing_venue w)))) =
    [("A", PARTIALLY_FILLED); ("B", CANCELLED); ("C", CANCELLED);
     ("D", FILLED); ("E", REJECTED); ("F", CANCELLED)]%string /\
  fst (get_open_orders (snd (cancel_all_orders willing_venue w))) =
    Ok [order_in "A" PARTIALLY_FILLED]%string.
Proof. cbv zeta. repeat split; reflexivity. Qed.

(** What [cancel_all_orders] does to one order, for every book. *)
Lemma cancel_all_orders_status (venue : Venue) (w : World) (oid : string)
    (order : Order) :
  _connected (client w) = true ->
  v_cancel_all_orders venue (calls w ++ [CallCancelAllOrders]) = Returns tt ->
  dict_get (_orders (client w)) oid = Some order ->
  option_map o_status
    (dict_get (_orders (client (snd (cancel_all_orders venue w)))) oid) =
  Some (match o_status order with
        | PENDING | SUBMITTED => CANCELLED
        | st => st
        end).
Proof.
  intros Hc Hv Hin.
  rewrite (cancel_all_orders_venue_returns venue w Hc Hv). cbn.
  induction (_orders (client w)) as [|[k v] rest IH]; [discriminate|].
  cbn in *. destruct (String.eqb oid k).
  - injection Hin as ->. cbn.
    destruct (o_status order) eqn:E; cbn; rewrite ?E; reflexivity.
  - apply IH. exact Hin.
Qed.

(** ** [emergency_stop] *)

Section EmergencyStop.

Variable venue : Venue.

(** With trading disabled, closing a position reaches no broker: the
    answer is read off the ledger and the world is untouched. *)
Lemma close_position_trading_disabled (w : World) (s : string) :
  _connected (client w) = true ->
  _trading_enabled (client w) = false ->
  close_position venue s w =
    (Ok match dict_get (_positions (client w)) s with
        | Some pos => p_quantity pos =? 0
        | None => false
        end, w).
Proof.
  intros Hc He.
  destruct (dict_get (_positions (client w)) s) as [pos|] eqn:Hp.
  - destruct (Z.eq_dec (p_quantity pos) 0) as [Hq|Hq].
    + rewrite (close_position_flat venue w s pos Hp Hq), Hq. reflexivity.
    + rewrite (close_position_open venue w s pos Hp Hq). unfold bind, ret.
      rewrite (place_order_trading_disabled venue _ _ _ _ _ _ w Hc He).
      destruct (p_quantity pos =? 0) eqn:E;
        [apply Z.eqb_eq in E; contradiction | reflexivity].
  - apply (close_position_absent venue w s Hp).
Qed.

Lemma close_all_loop_trading_disabled (symbols : list string) :
  forall (success : bool) (w : World),
    _connected (client w) = true ->
    _trading_enabled (client w) = false ->
    snd (close_all_loop venue symbols success w) = w /\
    exists closed, fst (close_all_loop venue symbols success w) = Ok closed.
Proof.
  induction symbols as [|s rest IH]; intros success w Hc He.
  - cbn. split; [reflexivity | eexists; reflexivity].
  - cbn [close_all_loop]. unfold bind.
    rewrite (close_position_trading_disabled w s Hc He).
    apply IH; assumption.
Qed.

(** On a connected client the three steps run in their order, the answers
    of the last two are dropped, and the body returned is always the same;
    the only broker call is the cancel-all, and no closing order is sent. *)
Lemma emergency_stop_connected (w : World) :
  _connected (client w) = true ->
  let stopped := snd (disable_trading w) in
  let cancelled := snd (cancel_all_orders venue stopped) in
  emergency_stop venue w =
    (Ok [("success", JBool true);
         ("message",
          JString "Emergency stop executed - all positions closed, trading disabled")
        ]%string,
     snd (close_all_positions venue cancelled)) /\
  snd (close_all_positions venue cancelled) = cancelled /\
  calls cancelled = calls w ++ [CallCancelAllOrders] /\
  _trading_enabled (client cancelled) = false.
Proof.
  intros Hc stopped cancelled.
  assert (Hcs : _connected (client stopped) = true) by exact Hc.
  assert (Hcancel : exists c,
             cancel_all_orders venue stopped = (Ok c, cancelled) /\
             _connected (client cancelled) = true /\
             _trading_enabled (client cancelled) = false /\
             calls cancelled = calls w ++ [CallCancelAllOrders]).
  { subst cancelled.
    destruct (v_cancel_all_orders venue (calls stopped ++ [CallCancelAllOrders]))
      as [|[]] eqn:Hv.
    - rewrite (cancel_all_orders_venue_raises venue stopped Hcs Hv).
      exists false. repeat split. exact Hc.
    - rewrite (cancel_all_orders_venue_returns venue stopped Hcs Hv).
      exists true. repeat split. exact Hc. }
  destruct Hcancel as (c & Hrun & Hcc & Hec & Hcalls).
  assert (Hclose : exists b,
             close_all_positions venue cancelled = (Ok b, cancelled)).
  { destruct (close_all_loop_trading_disabled
                (dict_keys (_positions (client cancelled))) true cancelled
                Hcc Hec) as (Hsame & b & Hb).
    exists b. unfold close_all_positions, bind, gets.
    cbv beta iota.
    destruct (close_all_loop venue (dict_keys (_positions (client cancelled)))
                true cancelled) as [r w']; cbn in *.
    congruence. }
  destruct Hclose as (b & Hclose).
  rewrite Hclose. cbn [snd].
  split; [|auto].
  unfold emergency_stop, bind.
  change (disable_trading w) with (@Ok unit tt, stopped).
  cbv beta iota. rewrite Hrun. cbv beta iota. rewrite Hclose. reflexivity.
Qed.

End EmergencyStop.

(** C4, on the code: with one open position read from a broker that
    accepts every call, [emergency_stop] disables trading, has all orders
    cancelled ([True]), fails to close the position ([False]: the order is
    refused by the gate it has just shut, and nothing is sent), and reports
    success all the same. *)
Theorem emergency_stop_reports_success_though_close_failed :
  let w := run holding_venue [CmdGetPositions] online in
  let stopped := snd (disable_trading w) in
  let cancelled := cancel_all_orders holding_venue stopped in
  let closed := close_all_positions holding_venue (snd cancelled) in
  _positions (client w) = [("ESH5"%string, position "ESH5" 2)] /\
  fst cancelled = Ok true /\
  fst closed = Ok false /\
  emergency_stop holding_venue w =
    (Ok [("success", JBool true);
         ("message",
          JString "Emergency stop executed - all positions closed, trading disabled")
        ]%string,
     snd closed) /\
  calls (snd closed) = calls w ++ [CallCancelAllOrders] /\
  _positions (client (snd closed)) = _positions (client w).
Proof. cbv zeta. repeat split; reflexivity. Qed.

(** The same report when the broker refuses the cancel-all as well. *)
Example emergency_stop_reports_success_though_both_failed :
  let w := with_ledger [position "ESH5" 2]%string online in
  fst (cancel_all_orders failing_venue (snd (disable_trading w))) = Ok false /\
  fst (emergency_stop failing_venue w) =
    Ok [("success", JBool true);
        ("message",
         JString "Emergency stop executed - all positions closed, trading disabled")
       ]%string.
Proof. split; reflexivity. Qed.

(** Off line, the cancel step raises and the close step is not reached. *)
Example emergency_stop_not_connected :
  let w := with_ledger [position "ESH5" 2]%string (init sample_config) in
  emergency_stop willing_venue w =
    (Raise (RuntimeError "Not connected to Rithmic"), snd (disable_trading w)).
Proof. reflexivity. Qed.

(** ** Further remarks on the ledger *)

(** A positions answer holding an element that is not a mapping loses the
    ledger: it was emptied before the loop met the element. *)
Example get_positions_malformed_element :
  let venue :=
    {| v_connect := v_connect willing_venue;
       v_disconnect := v_disconnect willing_venue;
       v_submit_order := v_submit_order willing_venue;
       v_cancel_order := v_cancel_order willing_venue;
       v_cancel_all_orders := v_cancel_all_orders willing_venue;
       v_get_positions := fun _ => Returns [PosNotADict];
       v_get_account_info := v_get_account_info willing_venue;
       v_now := v_now willing_venue;
       v_fallback_order_id := v_fallback_order_id willing_venue |} in
  let w := with_ledger [position "ESH5" 2]%string online in
  get_positions venue w =
    (Ok [], with_calls (calls w ++ [CallGetPositions])
              (with_client (set_positions [] (client w)) w)).
Proof. reflexivity. Qed.

(** Off line, [close_all_positions] raises at the first open position. *)
Example close_all_positions_not_connected :
  let w := with_ledger [position "ESH5" 2; position "NQH5" 1]%string
             (init sample_config) in
  close_all_positions willing_venue w =
    (Raise (RuntimeError "Not connected to Rithmic"), w).
Proof. reflexivity. Qed.

(** The scenario of the specification for the cap: ten contracts asked,
    five submitted. *)
Example place_order_ten_contracts :
  exists order,
    fst (place_order willing_venue "ESH5" BUY 10 MARKET None None online)
      = Ok (Some order) /\
    o_quantity order = 5 /\ o_status order = SUBMITTED.
Proof. eexists. repeat split; reflexivity. Qed.

(** * Further properties *)

(** ** Dictionaries *)

Section DictFacts.

Context {V : Type}.

Lemma dict_get_set_same (d : dict V) (k : string) (v : V) :
  dict_get (dict_set d k v) k = Some v.
Proof.
  induction d as [|[k' v'] rest IH]; cbn.
  - now rewrite String.eqb_refl.
  - destruct (String.eqb k k') eqn:E; cbn; rewrite E; [reflexivity | exact IH].
Qed.

Lemma dict_get_set_other (d : dict V) (k k' : string) (v : V) :
  k' <> k ->
  dict_get (dict_set d k v) k' = dict_get d k'.
Proof.
  intros Hne.
  induction d as [|[k0 v0] rest IH]; cbn.
  - destruct (String.eqb k' k) eqn:E; [|reflexivity].
    apply String.eqb_eq in E. contradiction.
  - destruct (String.eqb k k0) eqn:E; cbn.
    + apply String.eqb_eq in E. subst k0.
      destruct (String.eqb k' k) eqn:E'; [|reflexivity].
      apply String.eqb_eq in E'. contradiction.
    + rewrite IH. reflexivity.
Qed.

Lemma dict_get_in_keys (d : dict V) (k : string) :
  In k (dict_keys d) <-> exists v, dict_get d k = Some v.
Proof.
  induction d as [|[k' v'] rest IH]; cbn.
  - split; [intros [] | intros [v Hv]; discriminate].
  - destruct (String.eqb k k') eqn:E.
    + apply String.eqb_eq in E. subst. split; eauto.
    + apply String.eqb_neq in E. rewrite <- IH. split.
      * intros [H | H]; [congruence | exact H].
      * auto.
Qed.

(** Writing under a key the dictionary holds keeps the keys as they are. *)
Lemma dict_keys_set_present (d : dict V) (k : string) (v : V) :
  In k (dict_keys d) -> dict_keys (dict_set d k v) = dict_keys d.
Proof.
  induction d as [|[k' v'] rest IH]; cbn; [intros []|].
  intros Hin. destruct (String.eqb k k') eqn:E; cbn; [reflexivity|].
  f_equal. apply IH. destruct Hin as [H | H]; [|exact H].
  apply String.eqb_neq in E. congruence.
Qed.

(** Writing under a new key appends it. *)
Lemma dict_keys_set_absent (d : dict V) (k : string) (v : V) :
  ~ In k (dict_keys d) -> dict_keys (dict_set d k v) = dict_keys d ++ [k].
Proof.
  induction d as [|[k' v'] rest IH]; cbn; [reflexivity|].
  intros Hnin. destruct (String.eqb k k') eqn:E; cbn.
  - apply String.eqb_eq in E. subst. exfalso. auto.
  - f_equal. apply IH. auto.
Qed.

Lemma dict_set_NoDup (d : dict V) (k : string) (v : V) :
  NoDup (dict_keys d) -> NoDup (dict_keys (dict_set d k v)).
Proof.
  intros Hnd.
  destruct (in_dec string_dec k (dict_keys d)) as [Hin | Hnin].
  - now rewrite dict_keys_set_present.
  - rewrite dict_keys_set_absent by exact Hnin.
    apply NoDup_app; [exact Hnd | repeat constructor; intros [] | ].
    intros x Hx [<- | []]. contradiction.
Qed.

Lemma dict_set_Forall (P : string * V -> Prop) (d : dict V) (k : string) (v : V) :
  P (k, v) ->
  Forall P d -> Forall P (dict_set d k v).
Proof.
  intros Hv Hd.
  induction Hd as [|[k' v'] rest Hx Hrest IH]; cbn.
  - constructor; [exact Hv | constructor].
  - destruct (String.eqb k k') eqn:E; constructor; auto.
    apply String.eqb_eq in E. now subst k'.
Qed.

Lemma dict_get_Forall (P : string * V -> Prop) (d : dict V) (k : string) (v : V) :
  Forall P d -> dict_get d k = Some v -> P (k, v).
Proof.
  intros Hd. induction Hd as [|[k' v'] rest Hx Hrest IH]; cbn; [discriminate|].
  destruct (String.eqb k k') eqn:E.
  - apply String.eqb_eq in E. subst. intros H. injection H as <-. exact Hx.
  - exact IH.
Qed.

Lemma dict_set_values_in (d : dict V) (k : string) (v : V) :
  In v (dict_values (dict_set d k v)).
Proof.
  induction d as [|[k' v'] rest IH]; cbn.
  - now left.
  - destruct (String.eqb k k'); cbn; [now left | right; exact IH].
Qed.

Lemma dict_map_values_keys (f : V -> V) (d : dict V) :
  dict_keys (dict_map_values f d) = dict_keys d.
Proof.
  unfold dict_keys, dict_map_values. rewrite map_map. reflexivity.
Qed.


(** With one entry per key, every entry is what its key looks up. *)
Lemma dict_in_get (d : dict V) (k : string) (v : V) :
  NoDup (dict_keys d) -> In (k, v) d -> dict_get d k = Some v.
Proof.
  induction d as [|[k' v'] rest IH]; cbn; [intros _ []|].
  intros Hnd Hin. inversion Hnd as [|? ? Hnin Hnd']; subst.
  destruct Hin as [Heq | Hin].
  - injection Heq as -> ->. now rewrite String.eqb_refl.
  - destruct (String.eqb k k') eqn:E.
    + apply String.eqb_eq in E. subst. exfalso. apply Hnin.
      change (In (fst (k', v)) (map fst rest)). now apply in_map.
    + now apply IH.
Qed.

End DictFacts.

(** ** Where [place_order] can leave the world *)

Lemma with_client_same (w : World) : with_client (client w) w = w.
Proof. destruct w. reflexivity. Qed.

Lemma place_order_cases (venue : Venue) (s : string) (sd : OrderSide) (q : Z)
    (t : OrderType) (p sp : option float) (w : World) :
  (_connected (client w) = false /\
   place_order venue s sd q t p sp w =
     (Raise (RuntimeError "Not connected to Rithmic"), w)) \/
  (_connected (client w) = true /\ _trading_enabled (client w) = false /\
   place_order venue s sd q t p sp w = (Ok None, w)) \/
  (_connected (client w) = true /\ _trading_enabled (client w) = true /\
   loss_limit_breached (client w) = true /\
   place_order venue s sd q t p sp w =
     (Ok None, with_client (set_trading_enabled false (client w)) w)) \/
  (_connected (client w) = true /\ _trading_enabled (client w) = true /\
   loss_limit_breached (client w) = false /\
   place_order venue s sd q t p sp w =
     (Ok None,
      with_calls (calls w ++ [submission_of (client w) s sd q t p sp]) w)) \/
  (_connected (client w) = true /\ _trading_enabled (client w) = true /\
   loss_limit_breached (client w) = false /\
   exists oid,
     place_order venue s sd q t p sp w =
       (Ok (Some (booked_order venue
                    (calls w ++ [submission_of (client w) s sd q t p sp])
                    (client w) s sd q t p sp oid)),
        {| client :=
             set_orders
               (dict_set (_orders (client w))
                  (o_order_id
                     (booked_order venue
                        (calls w ++ [submission_of (client w) s sd q t p sp])
                        (client w) s sd q t p sp oid))
                  (booked_order venue
                     (calls w ++ [submission_of (client w) s sd q t p sp])
                     (client w) s sd q t p sp oid))
               (client w);
           calls := calls w ++ [submission_of (client w) s sd q t p sp];
           published :=
             published w ++
             [EvOrderUpdate
                (booked_order venue
                   (calls w ++ [submission_of (client w) s sd q t p sp])
                   (client w) s sd q t p sp oid)] |})).
Proof.
  destruct (_connected (client w)) eqn:Hc.
  2:{ left. split; [reflexivity|]. now apply place_order_not_connected. }
  destruct (_trading_enabled (client w)) eqn:He.
  2:{ right; left. repeat split. now apply place_order_trading_disabled. }
  destruct (loss_limit_breached (client w)) eqn:Hl.
  { right; right; left. repeat split. now apply place_order_loss_limit. }
  destruct (v_submit_order venue
              (calls w ++ [submission_of (client w) s sd q t p sp]))
    as [|[|oid]] eqn:Hv.
  - right; right; right; left. repeat split.
    apply (place_order_venue_fails venue s sd q t p sp w Hc He Hl (or_introl Hv)).
  - right; right; right; left. repeat split.
    apply (place_order_venue_fails venue s sd q t p sp w Hc He Hl (or_intror Hv)).
  - right; right; right; right. repeat split. exists oid.
    apply (place_order_acknowledged venue s sd q t p sp w oid Hc He Hl Hv).
Qed.

(** ** Keeping an invariant through every operation *)

Section PreservesBasics.

Context {A B : Type}.
Variable I : World -> Prop.

Lemma preserves_ret (a : A) : preserves I (ret a).
Proof. intros w H. exact H. Qed.

Lemma preserves_raise (e : exn) : preserves I (@raise A e).
Proof. intros w H. exact H. Qed.

Lemma preserves_gets (f : TradingClient -> A) : preserves I (gets f).
Proof. intros w H. exact H. Qed.

Lemma preserves_bind (m : M A) (k : A -> M B) :
  preserves I m -> (forall a, preserves I (k a)) -> preserves I (bind m k).
Proof.
  intros Hm Hk w H. unfold bind. specialize (Hm w H).
  destruct (m w) as [[a|e] w']; cbn in Hm; [now apply Hk | exact Hm].
Qed.

Lemma preserves_try (body : M A) (handler : exn -> M A) :
  preserves I body -> (forall e, preserves I (handler e)) ->
  preserves I (try_except body handler).
Proof.
  intros Hm Hk w H. unfold try_except. specialize (Hm w H).
  destruct (body w) as [[a|e] w']; cbn in Hm; [exact Hm | now apply Hk].
Qed.

Lemma preserves_if (b : bool) (m1 m2 : M A) :
  preserves I m1 -> preserves I m2 -> preserves I (if b then m1 else m2).
Proof. destruct b; auto. Qed.

End PreservesBasics.

Lemma preserves_history (I : World -> Prop) : preserves I history.
Proof. intros w H. exact H. Qed.

Section Invariant.

Variable venue : Venue.
Variable I : World -> Prop.

Hypothesis I_log :
  forall w c, is_submission c = false -> I w -> I (with_calls (calls w ++ [c]) w).
Hypothesis I_published : forall w l, I w -> I (with_published l w).
Hypothesis I_client_obj :
  forall w b, I w -> I (with_client (set_client_obj b (client w)) w).
Hypothesis I_connected :
  forall w b, I w -> I (with_client (set_connected b (client w)) w).
Hypothesis I_positions_clear :
  forall w, I w -> I (with_client (set_positions [] (client w)) w).
Hypothesis I_positions_load :
  forall w d, I w ->
    I (with_client
         (set_positions
            (dict_set (_positions (client w)) (p_symbol (position_of d))
               (position_of d)) (client w)) w).
Hypothesis I_account :
  forall w a, I w -> I (with_client (set_account_info a (client w)) w).
Hypothesis I_pnl :
  forall w x, I w -> I (with_client (set_daily_pnl x (client w)) w).
Hypothesis I_disable :
  forall w, I w -> I (with_client (set_trading_enabled false (client w)) w).
Hypothesis I_cancel_one :
  forall w oid o, I w -> dict_get (_orders (client w)) oid = Some o ->
    I (with_client
         (set_orders (dict_set (_orders (client w)) oid (set_status CANCELLED o))
            (client w)) w).
Hypothesis I_cancel_all :
  forall w, I w ->
    I (with_client
         (set_orders
            (dict_map_values
               (fun order =>
                  if status_in (o_status order) [PENDING; SUBMITTED]
                  then set_status CANCELLED order
                  else order)
               (_orders (client w))) (client w)) w).
Hypothesis I_place_order :
  forall s sd q t p sp, preserves I (place_order venue s sd q t p sp).

Lemma preserves_call {A : Type} (c : BrokerCall)
    (answer : list BrokerCall -> reply A) :
  is_submission c = false -> preserves I (call_venue c answer).
Proof.
  intros Hc w H. unfold call_venue.
  destruct (answer _); cbn; now apply I_log.
Qed.

Lemma preserves_notify (e : Event) : preserves I (_notify_callbacks e).
Proof. intros w H. now apply I_published. Qed.

Lemma preserves_modify (f : TradingClient -> TradingClient) :
  (forall w, I w -> I (with_client (f (client w)) w)) ->
  preserves I (modify f).
Proof. intros Hf w H. now apply Hf. Qed.

Create HintDb keep.

#[local] Hint Resolve preserves_ret preserves_raise preserves_gets
  preserves_history preserves_notify I_place_order : keep.

(** Closes [preserves I] goals over code built from the operations. *)
Ltac keep :=
  repeat first
    [ progress (intros)
    | solve [auto with keep]
    | apply preserves_call; reflexivity
    | apply preserves_modify; intros ? ?; cbv beta;
      solve [ auto
            | match goal with
              | |- context [dict_get ?d ?k] =>
                  destruct (dict_get d k) eqn:?;
                  [ now apply I_cancel_one | now rewrite with_client_same ]
              end ]
    | apply preserves_bind
    | apply preserves_try
    | apply preserves_if
    | match goal with
      | |- preserves _ (match ?x with _ => _ end) => destruct x
      end ].

Lemma connect_preserves : preserves I (connect venue).
Proof.
  intros w H. unfold connect.
  destruct (v_connect venue _); cbn; [exact H | |];
    apply I_published;
    apply (I_log (with_client (set_connected _ (set_client_obj true (client w))) w));
    try reflexivity;
    apply (I_connected (with_client (set_client_obj true (client w)) w));
    now apply I_client_obj.
Qed.

Lemma disconnect_preserves : preserves I (disconnect venue).
Proof. unfold disconnect. keep. Qed.

Lemma cancel_order_preserves oid : preserves I (cancel_order venue oid).
Proof. unfold cancel_order. keep. Qed.

Lemma cancel_all_orders_preserves : preserves I (cancel_all_orders venue).
Proof. unfold cancel_all_orders. keep. Qed.

Lemma load_positions_preserves items : preserves I (load_positions items).
Proof.
  induction items as [|[|d] rest IH]; cbn [load_positions]; keep.
Qed.

Lemma get_positions_preserves : preserves I (get_positions venue).
Proof.
  pose proof load_positions_preserves.
  unfold get_positions. keep.
Qed.

Lemma close_position_preserves s : preserves I (close_position venue s).
Proof. unfold close_position. keep. Qed.

Lemma close_all_loop_preserves symbols success :
  preserves I (close_all_loop venue symbols success).
Proof.
  pose proof close_position_preserves.
  revert success.
  induction symbols as [|s rest IH]; intros success; cbn [close_all_loop]; keep.
Qed.

Lemma close_all_positions_preserves : preserves I (close_all_positions venue).
Proof.
  pose proof close_all_loop_preserves.
  unfold close_all_positions. keep.
Qed.

Lemma get_account_info_preserves : preserves I (get_account_info venue).
Proof.
  pose proof get_positions_preserves.
  unfold get_account_info. keep.
Qed.

Lemma execute_signal_preserves sg : preserves I (execute_signal venue sg).
Proof.
  pose proof close_position_preserves.
  pose proof cancel_all_orders_preserves.
  unfold execute_signal, is_connected, is_trading_enabled. keep.
Qed.

Lemma emergency_stop_preserves : preserves I (emergency_stop venue).
Proof.
  pose proof cancel_all_orders_preserves.
  pose proof close_all_positions_preserves.
  unfold emergency_stop, disable_trading. keep.
Qed.

(** Every command that does not switch trading on keeps [I]. *)
Lemma step_preserves (c : Command) (w : World) :
  turns_trading_on c = false -> I w -> I (step venue c w).
Proof.
  intros Hc H.
  destruct c; cbn [step]; try discriminate Hc.
  - now apply connect_preserves.
  - now apply disconnect_preserves.
  - now apply I_place_order.
  - now apply cancel_order_preserves.
  - now apply cancel_all_orders_preserves.
  - now apply get_positions_preserves.
  - now apply close_position_preserves.
  - now apply close_all_positions_preserves.
  - now apply get_account_info_preserves.
  - now apply execute_signal_preserves.
  - now apply emergency_stop_preserves.
  - now apply I_disable.
Qed.

Lemma run_preserves (cmds : list Command) (w : World) :
  Forall (fun c => turns_trading_on c = false) cmds ->
  I w -> I (run venue cmds w).
Proof.
  intros Hall. revert w.
  induction Hall as [|c cmds Hc _ IH]; intros w H; cbn; [exact H|].
  apply IH. now apply step_preserves.
Qed.

(** When [I] does not read the trading flag, every command keeps it. *)
Hypothesis I_enable :
  forall w, I w -> I (with_client (set_trading_enabled true (client w)) w).

Lemma step_preserves_any (c : Command) (w : World) :
  I w -> I (step venue c w).
Proof.
  intros H. destruct (turns_trading_on c) eqn:Hc.
  - destruct c; try discriminate Hc; cbn.
    + now apply I_enable.
    + apply (I_enable (with_client (set_daily_pnl 0%float (client w)) w)).
      now apply I_pnl.
  - now apply step_preserves.
Qed.

Lemma run_preserves_any (cmds : list Command) (w : World) :
  I w -> I (run venue cmds w).
Proof.
  revert w. induction cmds as [|c cmds IH]; intros w H; cbn; [exact H|].
  apply IH. now apply step_preserves_any.
Qed.

End Invariant.

(** ** While trading is disabled no order reaches the broker *)

Lemma submissions_app (l1 l2 : list BrokerCall) :
  submissions (l1 ++ l2) = submissions l1 ++ submissions l2.
Proof. apply filter_app. Qed.

Lemma submissions_benign (l : list BrokerCall) (c : BrokerCall) :
  is_submission c = false -> submissions (l ++ [c]) = submissions l.
Proof.
  intros Hc. rewrite submissions_app. cbn. rewrite Hc. apply app_nil_r.
Qed.

Lemma place_order_halted (venue : Venue) (sent : list BrokerCall)
    s sd q t p sp :
  preserves (halted sent) (place_order venue s sd q t p sp).
Proof.
  intros w [He Hs].
  destruct (place_order_cases venue s sd q t p sp w)
    as [[_ ->] | [(_ & _ & ->) | [(_ & He' & _) | [(_ & He' & _) | (_ & He' & _)]]]];
    try (split; assumption); congruence.
Qed.

(** X1: while [_trading_enabled] is false, whatever commands are issued
    short of [enable_trading] and [reset_daily_stats], and whatever the
    broker answers, no [submit_order] call is added to the log and the flag
    stays false. *)
Theorem no_order_is_sent_while_trading_is_disabled
    (venue : Venue) (cmds : list Command) (w : World) :
  _trading_enabled (client w) = false ->
  Forall (fun c => turns_trading_on c = false) cmds ->
  submissions (calls (run venue cmds w)) = submissions (calls w) /\
  _trading_enabled (client (run venue cmds w)) = false.
Proof.
  intros He Hcmds.
  assert (H : halted (submissions (calls w)) (run venue cmds w)).
  { apply run_preserves; try exact Hcmds; try (split; [exact He | reflexivity]);
      try (intros; match goal with H : halted _ _ |- _ => exact H end).
    - intros w0 c Hc [H1 H2]. split; [exact H1|]. cbn.
      now rewrite submissions_benign.
    - intros w0 [H1 H2]. split; [reflexivity | exact H2].
    - intros. apply place_order_halted. }
  destruct H as [H1 H2]. split; assumption.
Qed.

Lemma no_order_is_sent_while_trading_is_disabled_witness :
  let w := snd (disable_trading (with_ledger [position "ESH5" 2]%string online)) in
  let cmds := [CmdPlaceOrder "ESH5" BUY 1 MARKET None None;
               CmdExecuteSignal (signal "LONG" "ESH5" 1 None);
               CmdClosePosition "ESH5";
               CmdEmergencyStop;
               CmdGetAccountInfo]%string in
  _trading_enabled (client w) = false /\
  submissions (calls (run willing_venue cmds w)) = [] /\
  calls (run willing_venue cmds w) <> calls w.
Proof.
  cbv zeta. split; [reflexivity|]. split.
  - refine (proj1 (no_order_is_sent_while_trading_is_disabled willing_venue
                     [CmdPlaceOrder "ESH5" BUY 1 MARKET None None;
                      CmdExecuteSignal (signal "LONG" "ESH5" 1 None);
                      CmdClosePosition "ESH5";
                      CmdEmergencyStop;
                      CmdGetAccountInfo]%string
                     (snd (disable_trading
                             (with_ledger [position "ESH5" 2]%string online)))
                     eq_refl _)).
    repeat constructor.
  - vm_compute. discriminate.
Defined.

(** ** No order above the cap is ever sent *)

Lemma place_order_capped (venue : Venue) (cfg : Config) s sd q t p sp :
  preserves (capped cfg) (place_order venue s sd q t p sp).
Proof.
  intros w [Hcfg Hcalls].
  assert (Hnew : Forall (within_cap (max_contracts (trading cfg)))
                   (calls w ++ [submission_of (client w) s sd q t p sp])).
  { apply Forall_app. split; [exact Hcalls|]. repeat constructor.
    cbn. rewrite <- Hcfg. apply clamped_le_cap. }
  destruct (place_order_cases venue s sd q t p sp w)
    as [[_ ->] | [(_ & _ & ->) | [(_ & _ & _ & ->) | [(_ & _ & _ & ->)
       | (_ & _ & _ & oid & ->)]]]];
    split; assumption.
Qed.

Lemma run_capped (venue : Venue) (cfg : Config) (cmds : list Command)
    (w : World) :
  capped cfg w -> capped cfg (run venue cmds w).
Proof.
  apply run_preserves_any;
    try (intros; match goal with H : capped _ _ |- _ => exact H end).
  - intros w0 c Hc [H1 H2]. split; [exact H1|]. cbn.
    apply Forall_app. split; [exact H2|]. repeat constructor.
    destruct c; try exact I. discriminate Hc.
  - intros. apply place_order_capped.
Qed.

(** X2: starting from a fresh client, whatever commands are issued and
    whatever the broker answers, every [submit_order] call in the log asks
    for at most [max_contracts] contracts. *)
Theorem every_order_sent_respects_max_contracts
    (venue : Venue) (cfg : Config) (cmds : list Command)
    (s ex sd : string) (q : Z) (ot : RithmicOrderType) (p sp : option float) :
  In (CallSubmitOrder s ex sd q ot p sp) (calls (run venue cmds (init cfg))) ->
  q <= max_contracts (trading cfg).
Proof.
  intros Hin.
  destruct (run_capped venue cfg cmds (init cfg)) as [_ Hall].
  { split; [reflexivity | constructor]. }
  rewrite Forall_forall in Hall. exact (Hall _ Hin).
Qed.

Lemma every_order_sent_respects_max_contracts_witness :
  let cmds := [CmdConnect;
               CmdPlaceOrder "ESH5" BUY 10 MARKET None None;
               CmdExecuteSignal (signal "SHORT" "NQH5" 7 (Some 4500%float))]%string in
  In (CallSubmitOrder "NQH5" "CME" "B" 5 R_STOP_MARKET None (Some 4500%float))
     (calls (run willing_venue cmds (init sample_config))) /\
  5 <= max_contracts (trading sample_config).
Proof.
  cbv zeta.
  assert (Hin : In (CallSubmitOrder "NQH5" "CME" "B" 5 R_STOP_MARKET None
                      (Some 4500%float))
                   (calls (run willing_venue
                             [CmdConnect;
                              CmdPlaceOrder "ESH5" BUY 10 MARKET None None;
                              CmdExecuteSignal
                                (signal "SHORT" "NQH5" 7 (Some 4500%float))]%string
                             (init sample_config)))).
  { cbn. right. right. right. left. reflexivity. }
  split; [exact Hin|].
  exact (every_order_sent_respects_max_contracts _ _ _ _ _ _ _ _ _ _ Hin).
Defined.

(** ** The order book *)

Lemma entry_ok_cancelled (cap : Z) (k : string) (o : Order) :
  entry_ok cap (k, o) -> entry_ok cap (k, set_status CANCELLED o).
Proof.
  intros (H1 & _ & H3 & H4). repeat split; cbn in *; auto.
Qed.

Lemma place_order_book_ok (venue : Venue) (cfg : Config) s sd q t p sp :
  preserves (book_ok cfg) (place_order venue s sd q t p sp).
Proof.
  intros w (Hcfg & Hnd & Hall).
  destruct (place_order_cases venue s sd q t p sp w)
    as [[_ ->] | [(_ & _ & ->) | [(_ & _ & _ & ->) | [(_ & _ & _ & ->)
       | (_ & _ & _ & oid & ->)]]]];
    try (repeat split; assumption).
  split; [exact Hcfg|]. split; cbn.
  - now apply dict_set_NoDup.
  - apply dict_set_Forall; [|exact Hall].
    repeat split; cbn; auto. rewrite <- Hcfg. apply clamped_le_cap.
Qed.

Lemma run_book_ok (venue : Venue) (cfg : Config) (cmds : list Command)
    (w : World) :
  book_ok cfg w -> book_ok cfg (run venue cmds w).
Proof.
  apply run_preserves_any;
    try (intros; match goal with H : book_ok _ _ |- _ => exact H end).
  - intros w0 oid o (Hcfg & Hnd & Hall) Hget.
    split; [exact Hcfg|]. split; cbn.
    + now apply dict_set_NoDup.
    + apply dict_set_Forall; [|exact Hall].
      apply entry_ok_cancelled. exact (dict_get_Forall _ _ _ _ Hall Hget).
  - intros w0 (Hcfg & Hnd & Hall).
    split; [exact Hcfg|]. split; cbn [client with_client _orders set_orders].
    + now rewrite dict_map_values_keys.
    + unfold dict_map_values. apply Forall_map.
      eapply Forall_impl; [|exact Hall].
      intros [k o] Hok. cbn [fst snd].
      destruct (status_in (o_status o) [PENDING; SUBMITTED]);
        [now apply entry_ok_cancelled | exact Hok].
  - intros. apply place_order_book_ok.
Qed.

Lemma init_book_ok (cfg : Config) : book_ok cfg (init cfg).
Proof. repeat split; constructor. Qed.

(** X3: starting from a fresh client, whatever commands are issued and
    whatever the broker answers, an order found in the book is filed under
    its own [order_id], is [SUBMITTED] or [CANCELLED] (no other status is
    ever written), is for at most [max_contracts] contracts and has no
    filled quantity. *)
Theorem order_book_entries_are_submitted_or_cancelled
    (venue : Venue) (cfg : Config) (cmds : list Command)
    (oid : string) (o : Order) :
  fst (get_order oid (run venue cmds (init cfg))) = Ok (Some o) ->
  o_order_id o = oid /\
  (o_status o = SUBMITTED \/ o_status o = CANCELLED) /\
  o_quantity o <= max_contracts (trading cfg) /\
  o_filled_quantity o = 0.
Proof.
  unfold get_order, gets. cbn. intros Hget. injection Hget as Hget.
  destruct (run_book_ok venue cfg cmds (init cfg) (init_book_ok cfg))
    as (_ & _ & Hall).
  exact (dict_get_Forall _ _ _ _ Hall Hget).
Qed.

Lemma order_book_entries_are_submitted_or_cancelled_witness :
  let cmds := [CmdConnect;
               CmdPlaceOrder "ESH5" BUY 10 MARKET None None;
               CmdCancelOrder "R-1"]%string in
  exists o,
    fst (get_order "R-1" (run willing_venue cmds (init sample_config)))
      = Ok (Some o) /\
    o_status o = CANCELLED /\ o_quantity o = 5 /\
    o_quantity o <= max_contracts (trading sample_config).
Proof.
  cbv zeta. eexists. split; [reflexivity|]. split; [reflexivity|].
  split; [reflexivity|].
  refine (proj1 (proj2 (proj2
    (order_book_entries_are_submitted_or_cancelled willing_venue sample_config
       [CmdConnect;
        CmdPlaceOrder "ESH5" BUY 10 MARKET None None;
        CmdCancelOrder "R-1"]%string "R-1" _ eq_refl)))).
Defined.

(** X4: from a fresh client, once [cancel_all_orders] has gone through at
    the broker, [get_open_orders] lists nothing. *)
Theorem cancel_all_orders_leaves_no_open_order
    (venue : Venue) (cfg : Config) (cmds : list Command) :
  _connected (client (run venue cmds (init cfg))) = true ->
  v_cancel_all_orders venue
    (calls (run venue cmds (init cfg)) ++ [CallCancelAllOrders]) = Returns tt ->
  fst (cancel_all_orders venue (run venue cmds (init cfg))) = Ok true /\
  fst (get_open_orders
         (snd (cancel_all_orders venue (run venue cmds (init cfg))))) = Ok [].
Proof.
  intros Hc Hv.
  rewrite (cancel_all_orders_venue_returns venue _ Hc Hv).
  split; [reflexivity|].
  destruct (run_book_ok venue cfg cmds (init cfg) (init_book_ok cfg))
    as (_ & _ & Hall).
  unfold get_open_orders, gets. cbn. f_equal.
  induction Hall as [|[k o] rest (_ & Hst & _) _ IH]; [reflexivity|].
  cbn in Hst.
  destruct Hst as [Hst | Hst]; cbn; rewrite Hst; cbn; rewrite ?Hst; cbn;
    exact IH.
Qed.

Lemma cancel_all_orders_leaves_no_open_order_witness :
  let cmds := [CmdConnect;
               CmdPlaceOrder "ESH5" BUY 1 MARKET None None]%string in
  let w := run willing_venue cmds (init sample_config) in
  List.length (get_default
                 (match fst (get_open_orders w) with
                  | Ok l => Some l
                  | Raise _ => None
                  end) []) = 1%nat /\
  fst (get_open_orders (snd (cancel_all_orders willing_venue w))) = Ok [].
Proof.
  cbv zeta. split; [reflexivity|].
  exact (proj2 (cancel_all_orders_leaves_no_open_order willing_venue
                  sample_config
                  [CmdConnect;
                   CmdPlaceOrder "ESH5" BUY 1 MARKET None None]%string
                  eq_refl eq_refl)).
Defined.

(** ** The position ledger *)

Lemma place_order_ledger_ok (venue : Venue) s sd q t p sp :
  preserves ledger_ok (place_order venue s sd q t p sp).
Proof.
  intros w H.
  destruct (place_order_cases venue s sd q t p sp w)
    as [[_ ->] | [(_ & _ & ->) | [(_ & _ & _ & ->) | [(_ & _ & _ & ->)
       | (_ & _ & _ & oid & ->)]]]];
    exact H.
Qed.

Lemma run_ledger_ok (venue : Venue) (cmds : list Command) (w : World) :
  ledger_ok w -> ledger_ok (run venue cmds w).
Proof.
  apply run_preserves_any;
    try (intros; match goal with H : ledger_ok _ |- _ => exact H end).
  - intros w0 _. split; constructor.
  - intros w0 d [Hnd Hall]. split; cbn.
    + now apply dict_set_NoDup.
    + now apply dict_set_Forall.
  - intros. apply place_order_ledger_ok.
Qed.

(** X5: starting from a fresh client, whatever commands are issued and
    whatever the broker reports (the same symbol twice included), the
    ledger holds at most one position per symbol, each filed under its own
    symbol, and [get_positions] never answers two positions of one
    symbol. *)
Theorem ledger_holds_one_position_per_symbol
    (venue : Venue) (cfg : Config) (cmds : list Command) :
  NoDup (dict_keys (_positions (client (run venue cmds (init cfg))))) /\
  (forall s p,
      dict_get (_positions (client (run venue cmds (init cfg)))) s = Some p ->
      p_symbol p = s) /\
  (forall venue' l,
      fst (get_positions venue' (run venue cmds (init cfg))) = Ok l ->
      NoDup (map p_symbol l)).
Proof.
  assert (Hinit : ledger_ok (init cfg)) by (split; constructor).
  pose proof (run_ledger_ok venue cmds (init cfg) Hinit) as [Hnd Hall].
  split; [exact Hnd|]. split.
  - intros s p Hget. exact (dict_get_Forall _ _ _ _ Hall Hget).
  - intros venue' l Hl.
    assert (Hafter : ledger_ok (snd (get_positions venue'
                                       (run venue cmds (init cfg))))).
    { change (ledger_ok (run venue' [CmdGetPositions]
                           (run venue cmds (init cfg)))).
      apply run_ledger_ok. split; assumption. }
    assert (Hvalues : l = dict_values
                            (_positions
                               (client (snd (get_positions venue'
                                               (run venue cmds (init cfg))))))).
    { revert Hl. generalize (run venue cmds (init cfg)). intros w.
      unfold get_positions, bind, gets, try_except, call_venue, modify, ret.
      cbn. destruct (_connected (client w)); cbn.
      - destruct (v_get_positions venue' _) as [|items]; cbn.
        + intros H. now injection H as <-.
        + destruct (load_positions items _) as [[[]|e] w']; cbn;
            intros H; now injection H as <-.
      - intros H. now injection H as <-. }
    destruct Hafter as [Hnd' Hall']. rewrite Hvalues.
    assert (Hsym : forall d : dict Position,
               Forall (fun kv => p_symbol (snd kv) = fst kv) d ->
               map p_symbol (dict_values d) = dict_keys d).
    { intros d Hd. induction Hd as [|[k v] rest Hx _ IH]; [reflexivity|].
      unfold dict_values, dict_keys in *. cbn in *. now rewrite Hx, IH. }
    rewrite Hsym by exact Hall'. exact Hnd'.
Qed.

Lemma ledger_holds_one_position_per_symbol_witness :
  let twice :=
    {| v_connect := v_connect willing_venue;
       v_disconnect := v_disconnect willing_venue;
       v_submit_order := v_submit_order willing_venue;
       v_cancel_order := v_cancel_order willing_venue;
       v_cancel_all_orders := v_cancel_all_orders willing_venue;
       v_get_positions :=
         fun _ => Returns
           [PosDict {| raw_symbol := Some "ESH5"%string; raw_quantity := Some 2;
                       raw_avg_price := None; raw_unrealized_pnl := None;
                       raw_realized_pnl := None |};
            PosDict {| raw_symbol := Some "ESH5"%string; raw_quantity := Some 3;
                       raw_avg_price := None; raw_unrealized_pnl := None;
                       raw_realized_pnl := None |}];
       v_get_account_info := v_get_account_info willing_venue;
       v_now := v_now willing_venue;
       v_fallback_order_id := v_fallback_order_id willing_venue |} in
  let w := run twice [CmdConnect; CmdGetPositions] (init sample_config) in
  option_map p_quantity (dict_get (_positions (client w)) "ESH5") = Some 3 /\
  NoDup (dict_keys (_positions (client w))).
Proof.
  cbv zeta. split; [reflexivity|].
  exact (proj1 (ledger_holds_one_position_per_symbol _ sample_config
                  [CmdConnect; CmdGetPositions])).
Defined.

(** ** Off line *)

Section Offline.

Variable venue : Venue.

Lemma cancel_all_orders_not_connected (w : World) :
  _connected (client w) = false ->
  cancel_all_orders venue w =
    (Raise (RuntimeError "Not connected to Rithmic"), w).
Proof.
  intros Hc. unfold cancel_all_orders, bind, gets, raise. cbn. rewrite Hc.
  reflexivity.
Qed.

Lemma get_account_info_offline (w : World) :
  _connected (client w) = false ->
  get_account_info venue w = (Ok (_account_info (client w)), w).
Proof.
  intros Hc. unfold get_account_info, bind, gets. cbn. rewrite Hc.
  reflexivity.
Qed.

Lemma close_position_offline (w : World) (s : string) :
  _connected (client w) = false ->
  snd (close_position venue s w) = w.
Proof.
  intros Hc.
  destruct (dict_get (_positions (client w)) s) as [pos|] eqn:Hp.
  - destruct (Z.eq_dec (p_quantity pos) 0) as [Hq|Hq].
    + now rewrite (close_position_flat venue w s pos Hp Hq).
    + rewrite (close_position_open venue w s pos Hp Hq). unfold bind.
      now rewrite (place_order_not_connected venue _ _ _ _ _ _ w Hc).
  - now rewrite (close_position_absent venue w s Hp).
Qed.

Lemma close_all_loop_offline (symbols : list string) (success : bool)
    (w : World) :
  _connected (client w) = false ->
  snd (close_all_loop venue symbols success w) = w.
Proof.
  intros Hc. revert success.
  induction symbols as [|s rest IH]; intros success; [reflexivity|].
  cbn [close_all_loop]. unfold bind.
  pose proof (close_position_offline w s Hc) as Hs.
  destruct (close_position venue s w) as [[closed|e] w']; cbn in Hs; subst w'.
  - apply IH.
  - reflexivity.
Qed.

Lemma execute_signal_not_connected (w : World) (sg : SignalRequest) :
  _connected (client w) = false ->
  execute_signal venue sg w = (Raise (HTTPException 503), w).
Proof.
  intros Hc. unfold execute_signal, is_connected, bind, gets, raise. cbn.
  rewrite Hc. reflexivity.
Qed.

Lemma step_offline (w0 : World) (c : Command) (w : World) :
  uses_connection c = false ->
  offline_as w0 w -> offline_as w0 (step venue c w).
Proof.
  intros Hu (Hc & Hlog & Hbook & Hledger).
  destruct c; try discriminate Hu; cbn [step].
  - rewrite (place_order_not_connected venue _ _ _ _ _ _ w Hc).
    repeat split; assumption.
  - rewrite (cancel_order_not_connected venue w _ Hc). repeat split; assumption.
  - rewrite (cancel_all_orders_not_connected w Hc). repeat split; assumption.
  - rewrite (get_positions_offline venue w Hc). repeat split; assumption.
  - rewrite (close_position_offline w _ Hc). repeat split; assumption.
  - unfold close_all_positions, bind, gets. cbn -[close_all_loop].
    rewrite (close_all_loop_offline _ _ w Hc). repeat split; assumption.
  - rewrite (get_account_info_offline w Hc). repeat split; assumption.
  - rewrite (execute_signal_not_connected w _ Hc). repeat split; assumption.
  - unfold emergency_stop, disable_trading, bind, modify.
    cbn -[cancel_all_orders close_all_positions].
    rewrite cancel_all_orders_not_connected by exact Hc.
    repeat split; assumption.
  - repeat split; assumption.
  - repeat split; assumption.
  - repeat split; assumption.
Qed.

End Offline.

(** X6: on a client that is off line, every command other than [connect]
    and [disconnect] leaves the broker uncalled, the client off line, and
    the order book and the ledger as they were, for any sequence of such
    commands. *)
Theorem offline_commands_never_reach_the_broker
    (venue : Venue) (cmds : list Command) (w : World) :
  _connected (client w) = false ->
  Forall (fun c => uses_connection c = false) cmds ->
  calls (run venue cmds w) = calls w /\
  _connected (client (run venue cmds w)) = false /\
  _orders (client (run venue cmds w)) = _orders (client w) /\
  _positions (client (run venue cmds w)) = _positions (client w).
Proof.
  intros Hc Hcmds.
  assert (H : offline_as w (run venue cmds w)).
  { assert (H0 : offline_as w w) by (repeat split; assumption).
    revert H0. generalize w at 2 4. intros w1 H1. revert w1 H1.
    induction Hcmds as [|c cmds Hu _ IH]; intros w1 H1; cbn; [exact H1|].
    apply IH. now apply step_offline. }
  destruct H as (H1 & H2 & H3 & H4). auto.
Qed.

Lemma offline_commands_never_reach_the_broker_witness :
  let w := snd (disconnect willing_venue
                  (with_ledger [position "ESH5" 2; position "NQH5" 1]%string
                     online)) in
  let cmds := [CmdPlaceOrder "ESH5" BUY 1 MARKET None None;
               CmdCloseAllPositions;
               CmdEmergencyStop;
               CmdGetPositions;
               CmdResetDailyStats;
               CmdExecuteSignal (signal "EXIT" "ESH5" 1 None)]%string in
  _connected (client w) = false /\
  calls (run failing_venue cmds w) = calls w /\
  _positions (client (run failing_venue cmds w)) = _positions (client w).
Proof.
  cbv zeta. split; [reflexivity|].
  destruct (offline_commands_never_reach_the_broker failing_venue
              [CmdPlaceOrder "ESH5" BUY 1 MARKET None None;
               CmdCloseAllPositions;
               CmdEmergencyStop;
               CmdGetPositions;
               CmdResetDailyStats;
               CmdExecuteSignal (signal "EXIT" "ESH5" 1 None)]%string
              (snd (disconnect willing_venue
                      (with_ledger [position "ESH5" 2; position "NQH5" 1]%string
                         online)))
              eq_refl) as (H1 & _ & _ & H4).
  { repeat constructor. }
  split; [exact H1 | exact H4].
Defined.

(** ** More on [place_order] *)

Lemma clamped_within_cap (c : TradingClient) (q : Z) :
  q <= max_contracts (trading (config c)) -> clamped c q = q.
Proof.
  intros Hq. unfold clamped.
  destruct (q >? max_contracts (trading (config c))) eqn:E; [|reflexivity].
  rewrite Z.gtb_ltb, Z.ltb_lt in E. lia.
Qed.

(** X7: the cap is the only check on the quantity: with the gate open, a
    request for any quantity not above [max_contracts], zero and negative
    quantities included, reaches the broker with that very quantity. *)
Theorem place_order_sends_any_quantity_up_to_the_cap
    (venue : Venue) (w : World) (s : string) (sd : OrderSide) (q : Z)
    (t : OrderType) (p sp : option float) :
  _connected (client w) = true ->
  _trading_enabled (client w) = true ->
  loss_limit_breached (client w) = false ->
  q <= max_contracts (trading (config (client w))) ->
  calls (snd (place_order venue s sd q t p sp w)) =
    calls w ++ [CallSubmitOrder s "CME" (side_code sd) q (order_type_map t) p sp].
Proof.
  intros Hc He Hl Hq.
  destruct (place_order_gate_open venue s sd q t p sp w Hc He Hl) as [Hcalls _].
  rewrite Hcalls. unfold submission_of. now rewrite clamped_within_cap.
Qed.

Lemma place_order_sends_any_quantity_up_to_the_cap_witness :
  calls (snd (place_order willing_venue "ESH5" SELL (-3) MARKET None None online))
  = calls online ++ [CallSubmitOrder "ESH5" "CME" "S" (-3) R_MARKET None None] /\
  exists order,
    fst (place_order willing_venue "ESH5" SELL (-3) MARKET None None online)
      = Ok (Some order) /\ o_quantity order = -3.
Proof.
  split.
  - apply (place_order_sends_any_quantity_up_to_the_cap willing_venue online
             "ESH5" SELL (-3) MARKET None None eq_refl eq_refl eq_refl).
    cbn. lia.
  - eexists. split; reflexivity.
Defined.

(** X8: an order that [place_order] returns is the one [get_order] finds
    under its [order_id] afterwards, and [get_open_orders] lists it. *)
Theorem place_order_then_get_order
    (venue : Venue) (w : World) (s : string) (sd : OrderSide) (q : Z)
    (t : OrderType) (p sp : option float) (order : Order) :
  fst (place_order venue s sd q t p sp w) = Ok (Some order) ->
  fst (get_order (o_order_id order) (snd (place_order venue s sd q t p sp w)))
    = Ok (Some order) /\
  exists l,
    fst (get_open_orders (snd (place_order venue s sd q t p sp w))) = Ok l /\
    In order l.
Proof.
  intros Hres.
  destruct (place_order_cases venue s sd q t p sp w)
    as [[_ H] | [(_ & _ & H) | [(_ & _ & _ & H) | [(_ & _ & _ & H)
       | (_ & _ & _ & oid & H)]]]];
    rewrite H in Hres |- *; cbn [fst snd] in *; try discriminate Hres.
  injection Hres as <-.
  unfold get_order, get_open_orders, gets. cbn [fst snd client _orders set_orders].
  split.
  - now rewrite dict_get_set_same.
  - eexists. split; [reflexivity|].
    apply filter_In. split; [apply dict_set_values_in | reflexivity].
Qed.

Lemma place_order_then_get_order_witness :
  exists order,
    fst (place_order willing_venue "ESH5" BUY 2 LIMIT (Some 4500%float) None online)
      = Ok (Some order) /\
    fst (get_order "R-1"
           (snd (place_order willing_venue "ESH5" BUY 2 LIMIT
                   (Some 4500%float) None online))) = Ok (Some order).
Proof.
  eexists. split; [reflexivity|].
  exact (proj1 (place_order_then_get_order willing_venue online "ESH5" BUY 2
                  LIMIT (Some 4500%float) None _ eq_refl)).
Defined.

(** X9: the book is keyed by the identifier the broker gives.  A returned
    order whose identifier is new is appended to the book; one whose
    identifier the book already holds takes the place of the earlier
    order, which is lost, the book keeping its size. *)
Theorem place_order_files_by_broker_id
    (venue : Venue) (w : World) (s : string) (sd : OrderSide) (q : Z)
    (t : OrderType) (p sp : option float) (order : Order) :
  fst (place_order venue s sd q t p sp w) = Ok (Some order) ->
  (~ In (o_order_id order) (dict_keys (_orders (client w))) ->
   dict_keys (_orders (client (snd (place_order venue s sd q t p sp w)))) =
     dict_keys (_orders (client w)) ++ [o_order_id order]) /\
  (In (o_order_id order) (dict_keys (_orders (client w))) ->
   dict_keys (_orders (client (snd (place_order venue s sd q t p sp w)))) =
     dict_keys (_orders (client w)) /\
   dict_get (_orders (client (snd (place_order venue s sd q t p sp w))))
     (o_order_id order) = Some order).
Proof.
  intros Hres.
  destruct (place_order_cases venue s sd q t p sp w)
    as [[_ H] | [(_ & _ & H) | [(_ & _ & _ & H) | [(_ & _ & _ & H)
       | (_ & _ & _ & oid & H)]]]];
    rewrite H in Hres |- *; cbn [fst snd] in *; try discriminate Hres.
  injection Hres as <-. cbn [client _orders set_orders].
  split.
  - apply dict_keys_set_absent.
  - intros Hin. split; [now apply dict_keys_set_present|].
    apply dict_get_set_same.
Qed.

Lemma place_order_files_by_broker_id_witness :
  let w := snd (place_order willing_venue "ESH5" BUY 1 MARKET None None online) in
  In "R-1"%string (dict_keys (_orders (client w))) /\
  dict_keys (_orders (client (snd (place_order willing_venue "NQH5" SELL 2
                                     MARKET None None w)))) = ["R-1"%string] /\
  option_map o_symbol
    (dict_get (_orders (client (snd (place_order willing_venue "NQH5" SELL 2
                                       MARKET None None w)))) "R-1")
  = Some "NQH5"%string.
Proof.
  cbv zeta. split; [left; reflexivity|].
  destruct (place_order_files_by_broker_id willing_venue
              (snd (place_order willing_venue "ESH5" BUY 1 MARKET None None online))
              "NQH5" SELL 2 MARKET None None _ eq_refl) as [_ Hheld].
  destruct (Hheld (or_introl eq_refl)) as [Hkeys Hget].
  split; [exact Hkeys|]. reflexivity.
Defined.

(** X10: [enable_trading] alone does not lift a daily loss stop.  With the
    loss limit still breached, the next [place_order] is refused before the
    broker is called and switches trading off again. *)
Theorem enable_trading_does_not_lift_a_loss_stop
    (venue : Venue) (w : World) (s : string) (sd : OrderSide) (q : Z)
    (t : OrderType) (p sp : option float) :
  _connected (client w) = true ->
  loss_limit_breached (client w) = true ->
  _trading_enabled (client (snd (enable_trading w))) = true /\
  fst (place_order venue s sd q t p sp (snd (enable_trading w))) = Ok None /\
  calls (snd (place_order venue s sd q t p sp (snd (enable_trading w)))) =
    calls w /\
  _trading_enabled
    (client (snd (place_order venue s sd q t p sp (snd (enable_trading w)))))
    = false.
Proof.
  intros Hc Hl. split; [reflexivity|].
  rewrite (place_order_loss_limit venue s sd q t p sp (snd (enable_trading w)));
    [repeat split | exact Hc | reflexivity | exact Hl].
Qed.

Lemma enable_trading_does_not_lift_a_loss_stop_witness :
  let w := snd (place_order willing_venue "ESH5" BUY 1 MARKET None None
                  (with_pnl (-2000)%float online)) in
  _connected (client w) = true /\
  loss_limit_breached (client w) = true /\
  _trading_enabled (client w) = false /\
  fst (place_order willing_venue "ESH5" BUY 1 MARKET None None
         (snd (enable_trading w))) = Ok None.
Proof.
  cbv zeta. split; [reflexivity|]. split; [reflexivity|]. split; [reflexivity|].
  exact (proj1 (proj2
    (enable_trading_does_not_lift_a_loss_stop willing_venue
       (snd (place_order willing_venue "ESH5" BUY 1 MARKET None None
               (with_pnl (-2000)%float online)))
       "ESH5" BUY 1 MARKET None None eq_refl eq_refl))).
Defined.

(** ** More on [execute_signal] *)

(** X11: a signal whose type is none of [LONG], [SHORT], [EXIT], sent to a
    connected client with trading enabled, is answered with status 500:
    the [HTTPException] of status 400 raised for it is caught by the
    endpoint's own [except Exception].  Nothing is sent and nothing
    changes. *)
Theorem execute_signal_unknown_type_answers_500
    (venue : Venue) (w : World) (sg : SignalRequest) :
  _connected (client w) = true ->
  _trading_enabled (client w) = true ->
  signal_type sg <> "LONG"%string ->
  signal_type sg <> "SHORT"%string ->
  signal_type sg <> "EXIT"%string ->
  execute_signal venue sg w = (Raise (HTTPException 500), w).
Proof.
  intros Hc He H1 H2 H3.
  apply String.eqb_neq in H1, H2, H3.
  unfold execute_signal, is_connected, is_trading_enabled.
  unfold bind, gets, try_except, ret, raise.
  cbn -[place_order close_position cancel_all_orders]. rewrite Hc.
  cbn -[place_order close_position cancel_all_orders]. rewrite He.
  cbn -[place_order close_position cancel_all_orders].
  rewrite H1, H2, H3. reflexivity.
Qed.

Lemma execute_signal_unknown_type_answers_500_witness :
  _connected (client online) = true /\
  _trading_enabled (client online) = true /\
  execute_signal willing_venue (signal "long" "ESH5" 1 None) online =
    (Raise (HTTPException 500), online).
Proof.
  split; [reflexivity|]. split; [reflexivity|].
  apply execute_signal_unknown_type_answers_500;
    solve [reflexivity | discriminate].
Defined.

Lemma cancel_all_orders_connected (venue : Venue) (w : World) :
  _connected (client w) = true ->
  (exists b, fst (cancel_all_orders venue w) = Ok b) /\
  calls (snd (cancel_all_orders venue w)) = calls w ++ [CallCancelAllOrders].
Proof.
  intros Hc.
  destruct (v_cancel_all_orders venue (calls w ++ [CallCancelAllOrders]))
    as [|[]] eqn:Hv.
  - rewrite (cancel_all_orders_venue_raises venue w Hc Hv). cbn. eauto.
  - rewrite (cancel_all_orders_venue_returns venue w Hc Hv). cbn. eauto.
Qed.

(** X12: an [EXIT] signal on a connected client with trading enabled is
    always answered with the success body, whether or not the position
    was closed and the orders cancelled; the broker sees what
    [close_position] sends, then one cancel-all. *)
Theorem execute_signal_exit_always_reports_success
    (venue : Venue) (w : World) (sg : SignalRequest) :
  _connected (client w) = true ->
  _trading_enabled (client w) = true ->
  signal_type sg = "EXIT"%string ->
  fst (execute_signal venue sg w) =
    Ok [("success", JBool true); ("action", JString "EXIT");
        ("message", JString "Position closed")]%string /\
  calls (snd (execute_signal venue sg w)) =
    calls (snd (close_position venue (symbol sg) w)) ++ [CallCancelAllOrders] /\
  (loss_limit_breached (client w) = false ->
   calls (snd (execute_signal venue sg w)) =
     calls w ++ closing_call (client w) (symbol sg) ++ [CallCancelAllOrders]).
Proof.
  intros Hc He Hk.
  destruct (close_position_connected_returns venue w (symbol sg) Hc)
    as [[closed Hclosed] Hc1].
  assert (Hrun : fst (execute_signal venue sg w) =
                   Ok [("success", JBool true); ("action", JString "EXIT");
                       ("message", JString "Position closed")]%string /\
                 calls (snd (execute_signal venue sg w)) =
                   calls (snd (close_position venue (symbol sg) w)) ++
                   [CallCancelAllOrders]).
  { unfold execute_signal, is_connected, is_trading_enabled.
    unfold bind, gets, try_except, ret, raise.
    cbn -[place_order close_position cancel_all_orders]. rewrite Hc.
    cbn -[place_order close_position cancel_all_orders]. rewrite He.
    cbn -[place_order close_position cancel_all_orders]. rewrite Hk.
    cbn -[place_order close_position cancel_all_orders].
    destruct (close_position venue (symbol sg) w) as [[r|e] w1];
      cbn -[cancel_all_orders] in *; [|discriminate].
    destruct (cancel_all_orders_connected venue w1 Hc1) as [[b Hb] Hcalls].
    destruct (cancel_all_orders venue w1) as [[r2|e2] w2];
      cbn in *; [|discriminate].
    split; [reflexivity | exact Hcalls]. }
  destruct Hrun as [Hres Hcalls].
  split; [exact Hres|]. split; [exact Hcalls|].
  intros Hl. rewrite Hcalls.
  destruct (close_position_gate_open venue w (symbol sg) Hc He Hl) as [-> _].
  now rewrite app_assoc.
Qed.

Lemma execute_signal_exit_always_reports_success_witness :
  let w := with_ledger [position "ESH5" 2]%string online in
  fst (close_position failing_venue "ESH5" w) = Ok false /\
  fst (cancel_all_orders failing_venue (snd (close_position failing_venue "ESH5" w)))
    = Ok false /\
  fst (execute_signal failing_venue (signal "EXIT" "ESH5" 1 None) w) =
    Ok [("success", JBool true); ("action", JString "EXIT");
        ("message", JString "Position closed")]%string.
Proof.
  cbv zeta. split; [reflexivity|]. split; [reflexivity|].
  exact (proj1 (execute_signal_exit_always_reports_success failing_venue
                  (with_ledger [position "ESH5" 2]%string online)
                  (signal "EXIT" "ESH5" 1 None) eq_refl eq_refl eq_refl)).
Defined.

(** ** The [/orders] endpoint *)

Section OrdersEndpoint.

Variable venue : Venue.
Variable upper : string -> string.

(** The side and the order type the endpoint hands to the client. *)
Lemma orders_endpoint_runs_place_order (w : World) (req : OrderRequest) :
  _connected (client w) = true ->
  _trading_enabled (client w) = true ->
  Endpoints.place_order venue upper req w =
    match place_order venue (rq_symbol req)
            (if String.eqb (upper (rq_side req)) "BUY" then BUY else SELL)
            (rq_quantity req)
            (get_default
               (dict_get Endpoints.order_type_map (upper (rq_order_type req)))
               MARKET)
            (rq_price req) (rq_stop_price req) w with
    | (Ok (Some result), w') =>
        (Ok [("success", JBool true);
             ("order_id", JString (o_order_id result));
             ("symbol", JString (o_symbol result));
             ("side", JString (OrderSide_value (o_side result)));
             ("quantity", JInt (o_quantity result));
             ("status", JString (OrderStatus_value (o_status result)))]%string,
         w')
    | (_, w') => (Raise (HTTPException 500), w')
    end.
Proof.
  intros Hc He.
  unfold Endpoints.place_order, is_connected, is_trading_enabled.
  unfold bind, gets, try_except, ret, raise.
  cbn -[place_order Endpoints.order_type_map]. rewrite Hc.
  cbn -[place_order Endpoints.order_type_map]. rewrite He.
  cbn -[place_order Endpoints.order_type_map].
  destruct (place_order venue _ _ _ _ _ _ w) as [[[o|]|e] w']; reflexivity.
Qed.

End OrdersEndpoint.

(** X13: [POST /orders] answers 503 off line and 403 with trading
    disabled, changing nothing.  Otherwise it answers with the body of the
    order the client returns, and with status 500 when the client returns
    none: the 400 raised for a rejected order never leaves the endpoint. *)
Theorem orders_endpoint_statuses
    (venue : Venue) (upper : string -> string) (w : World) (req : OrderRequest) :
  (_connected (client w) = false ->
   Endpoints.place_order venue upper req w = (Raise (HTTPException 503), w)) /\
  (_connected (client w) = true -> _trading_enabled (client w) = false ->
   Endpoints.place_order venue upper req w = (Raise (HTTPException 403), w)) /\
  (_connected (client w) = true -> _trading_enabled (client w) = true ->
   (exists order,
       fst (Endpoints.place_order venue upper req w) =
         Ok [("success", JBool true);
             ("order_id", JString (o_order_id order));
             ("symbol", JString (rq_symbol req));
             ("side", JString (OrderSide_value (o_side order)));
             ("quantity", JInt (clamped (client w) (rq_quantity req)));
             ("status", JString "SUBMITTED")]%string) \/
   fst (Endpoints.place_order venue upper req w) = Raise (HTTPException 500)) /\
  fst (Endpoints.place_order venue upper req w) <> Raise (HTTPException 400).
Proof.
  assert (Hoff : _connected (client w) = false ->
                 Endpoints.place_order venue upper req w =
                   (Raise (HTTPException 503), w)).
  { intros Hc. unfold Endpoints.place_order, is_connected, bind, gets, raise.
    cbn. rewrite Hc. reflexivity. }
  assert (Hdis : _connected (client w) = true ->
                 _trading_enabled (client w) = false ->
                 Endpoints.place_order venue upper req w =
                   (Raise (HTTPException 403), w)).
  { intros Hc He.
    unfold Endpoints.place_order, is_connected, is_trading_enabled, bind, gets,
      raise.
    cbn. rewrite Hc. cbn. rewrite He. reflexivity. }
  assert (Hon : _connected (client w) = true ->
                _trading_enabled (client w) = true ->
                (exists order,
                    fst (Endpoints.place_order venue upper req w) =
                      Ok [("success", JBool true);
                          ("order_id", JString (o_order_id order));
                          ("symbol", JString (rq_symbol req));
                          ("side", JString (OrderSide_value (o_side order)));
                          ("quantity",
                           JInt (clamped (client w) (rq_quantity req)));
                          ("status", JString "SUBMITTED")]%string) \/
                fst (Endpoints.place_order venue upper req w) =
                  Raise (HTTPException 500)).
  { intros Hc He.
    rewrite (orders_endpoint_runs_place_order venue upper w req Hc He).
    destruct (place_order_cases venue (rq_symbol req)
                (if String.eqb (upper (rq_side req)) "BUY" then BUY else SELL)
                (rq_quantity req)
                (get_default
                   (dict_get Endpoints.order_type_map
                      (upper (rq_order_type req))) MARKET)
                (rq_price req) (rq_stop_price req) w)
      as [[_ ->] | [(_ & _ & ->) | [(_ & _ & _ & ->) | [(_ & _ & _ & ->)
         | (_ & _ & _ & oid & ->)]]]];
      try (right; reflexivity).
    left. eexists. reflexivity. }
  split; [exact Hoff|]. split; [exact Hdis|]. split; [exact Hon|].
  destruct (_connected (client w)) eqn:Hc.
  - destruct (_trading_enabled (client w)) eqn:He.
    + destruct (Hon eq_refl eq_refl) as [[order ->] | ->]; discriminate.
    + rewrite (Hdis eq_refl eq_refl). discriminate.
  - rewrite (Hoff eq_refl). discriminate.
Qed.

Lemma orders_endpoint_statuses_witness :
  let req := {| rq_symbol := "ESH5"; rq_side := "BUY"; rq_quantity := 1;
                rq_order_type := "MARKET"; rq_price := None;
                rq_stop_price := None |}%string in
  _connected (client online) = true /\
  _trading_enabled (client online) = true /\
  fst (place_order failing_venue "ESH5" BUY 1 MARKET None None online) = Ok None /\
  fst (Endpoints.place_order failing_venue (fun s => s) req online) =
    Raise (HTTPException 500).
Proof.
  cbv zeta. split; [reflexivity|]. split; [reflexivity|]. split; [reflexivity|].
  destruct (proj1 (proj2 (proj2
              (orders_endpoint_statuses failing_venue (fun s => s) online
                 {| rq_symbol := "ESH5"; rq_side := "BUY"; rq_quantity := 1;
                    rq_order_type := "MARKET"; rq_price := None;
                    rq_stop_price := None |}%string))) eq_refl eq_refl)
    as [[order H] | H].
  - cbn in H. discriminate H.
  - exact H.
Defined.

(** X14: [POST /orders] sells whatever side is not [BUY] once upper-cased,
    and sends a [MARKET] order for whatever order type is none of the four
    names: with the gate open the broker receives that order. *)
Theorem orders_endpoint_defaults_to_sell_and_market
    (venue : Venue) (upper : string -> string) (w : World) (req : OrderRequest) :
  _connected (client w) = true ->
  _trading_enabled (client w) = true ->
  loss_limit_breached (client w) = false ->
  (upper (rq_side req) <> "BUY"%string ->
   exists ot,
     calls (snd (Endpoints.place_order venue upper req w)) =
       calls w ++ [CallSubmitOrder (rq_symbol req) "CME" "S"
                     (clamped (client w) (rq_quantity req)) ot
                     (rq_price req) (rq_stop_price req)]) /\
  (dict_get Endpoints.order_type_map (upper (rq_order_type req)) = None ->
   exists side,
     calls (snd (Endpoints.place_order venue upper req w)) =
       calls w ++ [CallSubmitOrder (rq_symbol req) "CME" side
                     (clamped (client w) (rq_quantity req)) R_MARKET
                     (rq_price req) (rq_stop_price req)]).
Proof.
  intros Hc He Hl.
  assert (Hcalls : calls (snd (Endpoints.place_order venue upper req w)) =
                   calls w ++
                   [submission_of (client w) (rq_symbol req)
                      (if String.eqb (upper (rq_side req)) "BUY"
                       then BUY else SELL)
                      (rq_quantity req)
                      (get_default
                         (dict_get Endpoints.order_type_map
                            (upper (rq_order_type req))) MARKET)
                      (rq_price req) (rq_stop_price req)]).
  { rewrite (orders_endpoint_runs_place_order venue upper w req Hc He).
    destruct (place_order_gate_open venue (rq_symbol req)
                (if String.eqb (upper (rq_side req)) "BUY" then BUY else SELL)
                (rq_quantity req)
                (get_default
                   (dict_get Endpoints.order_type_map
                      (upper (rq_order_type req))) MARKET)
                (rq_price req) (rq_stop_price req) w Hc He Hl) as [H _].
    destruct (place_order venue _ _ _ _ _ _ w) as [[[o|]|e] w']; exact H. }
  rewrite Hcalls. unfold submission_of. split.
  - intros Hside. apply String.eqb_neq in Hside. rewrite Hside.
    eexists. reflexivity.
  - intros Htype. rewrite Htype. eexists. reflexivity.
Qed.

Lemma orders_endpoint_defaults_to_sell_and_market_witness :
  let req := {| rq_symbol := "ESH5"; rq_side := "buy "; rq_quantity := 1;
                rq_order_type := "TRAILING"; rq_price := None;
                rq_stop_price := None |}%string in
  calls (snd (Endpoints.place_order willing_venue (fun s => s) req online)) =
    calls online ++ [CallSubmitOrder "ESH5" "CME" "S" 1 R_MARKET None None].
Proof.
  cbv zeta.
  destruct (orders_endpoint_defaults_to_sell_and_market willing_venue
              (fun s => s) online
              {| rq_symbol := "ESH5"; rq_side := "buy "; rq_quantity := 1;
                 rq_order_type := "TRAILING"; rq_price := None;
                 rq_stop_price := None |}%string eq_refl eq_refl eq_refl)
    as [Hside _].
  destruct Hside as [ot Hot]; [cbn; discriminate|].
  reflexivity.
Defined.

(** ** Refreshing the ledger *)

Section Refresh.

Variable venue : Venue.

Lemma same_but_ledger_refl (w : World) : same_but_ledger w w.
Proof. repeat split. Qed.

Lemma same_but_ledger_trans (w1 w2 w3 : World) :
  same_but_ledger w1 w2 -> same_but_ledger w2 w3 -> same_but_ledger w1 w3.
Proof.
  unfold same_but_ledger. intros H12 H23.
  destruct H12 as (A1 & A2 & A3 & A4 & A5 & A6 & A7 & A8 & A9).
  destruct H23 as (B1 & B2 & B3 & B4 & B5 & B6 & B7 & B8 & B9).
  repeat split; congruence.
Qed.

(** Loading well-formed elements: the later element of a symbol wins, a
    symbol not reported keeps what the ledger held when the loop began. *)
Lemma load_positions_dicts (ds : list RawPosition) :
  forall w : World,
    exists w',
      load_positions (map PosDict ds) w = (Ok tt, w') /\
      same_but_ledger w w' /\
      forall s,
        dict_get (_positions (client w')) s =
          match last_reported s ds with
          | Some p => Some p
          | None => dict_get (_positions (client w)) s
          end.
Proof.
  induction ds as [|d rest IH]; intros w.
  - exists w. split; [reflexivity|]. split; [apply same_but_ledger_refl|].
    reflexivity.
  - cbn [map load_positions]. unfold bind, modify.
    destruct (IH (with_client
                    (set_positions
                       (dict_set (_positions (client w))
                          (p_symbol (position_of d)) (position_of d))
                       (client w)) w)) as (w' & Hrun & Hsame & Hget).
    exists w'. rewrite Hrun. split; [reflexivity|]. split.
    + eapply same_but_ledger_trans; [|exact Hsame]. repeat split.
    + intros s. rewrite Hget. cbn [last_reported].
      destruct (last_reported s rest) as [p|]; [reflexivity|].
      cbn [client with_client _positions set_positions].
      destruct (String.eqb s (p_symbol (position_of d))) eqn:E.
      * apply String.eqb_eq in E. subst s. apply dict_get_set_same.
      * apply String.eqb_neq in E. now apply dict_get_set_other.
Qed.

(** [get_positions] answers with the values of the ledger it leaves, and
    leaves everything but the ledger and the log alone. *)
Lemma get_positions_answer (w : World) :
  fst (get_positions venue w) =
    Ok (dict_values (_positions (client (snd (get_positions venue w))))) /\
  config (client (snd (get_positions venue w))) = config (client w) /\
  _connected (client (snd (get_positions venue w))) = _connected (client w) /\
  _account_info (client (snd (get_positions venue w))) =
    _account_info (client w) /\
  _daily_pnl (client (snd (get_positions venue w))) = _daily_pnl (client w) /\
  _trading_enabled (client (snd (get_positions venue w))) =
    _trading_enabled (client w) /\
  _orders (client (snd (get_positions venue w))) = _orders (client w).
Proof.
  destruct (_connected (client w)) eqn:Hc.
  - unfold get_positions, bind, gets, try_except, call_venue, modify.
    cbn -[load_positions]. rewrite Hc. cbn -[load_positions].
    destruct (v_get_positions venue _) as [|items]; cbn -[load_positions].
    + repeat split. exact Hc.
    + pose proof (load_positions_preserves
                    (fun w' =>
                       config (client w') = config (client w) /\
                       _connected (client w') = true /\
                       _account_info (client w') = _account_info (client w) /\
                       _daily_pnl (client w') = _daily_pnl (client w) /\
                       _trading_enabled (client w') =
                         _trading_enabled (client w) /\
                       _orders (client w') = _orders (client w))) as Hkeep.
      specialize (Hkeep ltac:(intros w0 d0 H0; exact H0) items
                    (with_client (set_positions [] (client w))
                       (with_calls (calls w ++ [CallGetPositions]) w))).
      cbn -[load_positions] in Hkeep.
      specialize (Hkeep ltac:(repeat split; exact Hc)).
      destruct (load_positions items _) as [[[]|e] w']; cbn in *;
        (split; [reflexivity | exact Hkeep]).
  - rewrite (get_positions_offline venue w Hc). cbn. repeat split. exact Hc.
Qed.

End Refresh.

(** X15: when the broker's positions query returns well-formed elements,
    [get_positions] replaces the ledger wholesale: afterwards a symbol
    looks up the last element reported for it, and nothing at all if it
    was not reported, whatever the ledger held before; the answer is the
    values of the new ledger. *)
Theorem get_positions_replaces_the_ledger
    (venue : Venue) (w : World) (ds : list RawPosition) :
  _connected (client w) = true ->
  v_get_positions venue (calls w ++ [CallGetPositions]) =
    Returns (map PosDict ds) ->
  (forall s,
      dict_get (_positions (client (snd (get_positions venue w)))) s =
        last_reported s ds) /\
  fst (get_positions venue w) =
    Ok (dict_values (_positions (client (snd (get_positions venue w))))).
Proof.
  intros Hc Hv. split; [|apply get_positions_answer].
  unfold get_positions, bind, gets, try_except, call_venue, modify.
  cbn -[load_positions]. rewrite Hc. cbn -[load_positions]. rewrite Hv.
  cbn -[load_positions].
  destruct (load_positions_dicts ds
              (with_client (set_positions [] (client w))
                 (with_calls (calls w ++ [CallGetPositions]) w)))
    as (w' & Hrun & _ & Hget).
  rewrite Hrun. cbn. intros s. rewrite Hget. cbn.
  destruct (last_reported s ds); reflexivity.
Qed.

Lemma get_positions_replaces_the_ledger_witness :
  let w := with_ledger [position "NQH5" 4; position "CLH5" 1]%string online in
  dict_get (_positions (client (snd (get_positions holding_venue w)))) "NQH5"
    = None /\
  option_map p_quantity
    (dict_get (_positions (client (snd (get_positions holding_venue w)))) "ESH5")
    = Some 2.
Proof.
  cbv zeta.
  destruct (get_positions_replaces_the_ledger holding_venue
              (with_ledger [position "NQH5" 4; position "CLH5" 1]%string online)
              [{| raw_symbol := Some "ESH5"%string; raw_quantity := Some 2;
                  raw_avg_price := Some 4500%float;
                  raw_unrealized_pnl := None; raw_realized_pnl := None |}]
              eq_refl eq_refl) as [Hget _].
  split; [exact (Hget "NQH5"%string)|].
  now rewrite (Hget "ESH5"%string).
Defined.

(** ** The account snapshot *)

Section Account.

Variable venue : Venue.

Lemma get_account_info_query_raises (w : World) :
  _connected (client w) = true ->
  v_get_account_info venue (calls w ++ [CallGetAccountInfo]) = Raises ->
  get_account_info venue w =
    (Ok (_account_info (client w)),
     with_calls (calls w ++ [CallGetAccountInfo]) w).
Proof.
  intros Hc Hv.
  unfold get_account_info, bind, gets, try_except, call_venue.
  cbn -[get_positions]. rewrite Hc. cbn -[get_positions]. rewrite Hv.
  reflexivity.
Qed.

Lemma get_account_info_query_returns (w : World) (d : RawAccount) :
  _connected (client w) = true ->
  v_get_account_info venue (calls w ++ [CallGetAccountInfo]) =
    Returns (AccountDict d) ->
  let refreshed :=
    snd (get_positions venue (with_calls (calls w ++ [CallGetAccountInfo]) w)) in
  let info :=
    {| a_account_id :=
         get_default (raw_account_id d) (user (rithmic (config (client w))));
       a_balance := get_default (raw_balance d) 150000%float;
       a_buying_power := get_default (raw_buying_power d) 0%float;
       a_daily_pnl := get_default (raw_daily_pnl d) 0%float;
       a_unrealized_pnl := get_default (raw_acc_unrealized_pnl d) 0%float;
       a_realized_pnl := get_default (raw_acc_realized_pnl d) 0%float;
       a_positions := dict_values (_positions (client refreshed)) |} in
  get_account_info venue w =
    (Ok (Some info),
     with_client
       (set_daily_pnl (a_daily_pnl info)
          (set_account_info (Some info) (client refreshed))) refreshed).
Proof.
  intros Hc Hv refreshed info.
  destruct (get_positions_answer venue
              (with_calls (calls w ++ [CallGetAccountInfo]) w))
    as (Hans & Hcfg & _).
  fold refreshed in Hans, Hcfg. cbn in Hcfg.
  unfold get_account_info, bind, gets, try_except, call_venue, modify, ret.
  cbn -[get_positions]. rewrite Hc. cbn -[get_positions]. rewrite Hv.
  cbn -[get_positions].
  destruct (get_positions venue (with_calls (calls w ++ [CallGetAccountInfo]) w))
    as [[l|e] w1] eqn:E; cbn -[get_positions] in *; [|discriminate].
  subst refreshed. cbn in *. injection Hans as ->. subst info.
  rewrite Hcfg. reflexivity.
Qed.

End Account.

Lemma get_positions_connected_log (venue : Venue) (w : World) :
  _connected (client w) = true ->
  calls (snd (get_positions venue w)) = calls w ++ [CallGetPositions].
Proof.
  intros Hc.
  unfold get_positions, bind, gets, try_except, call_venue, modify.
  cbn -[load_positions]. rewrite Hc. cbn -[load_positions].
  destruct (v_get_positions venue _) as [|items]; cbn -[load_positions];
    [reflexivity|].
  pose proof (load_positions_preserves
                (fun w' => calls w' = calls w ++ [CallGetPositions])
                ltac:(intros w0 d0 H0; exact H0) items
                (with_client (set_positions [] (client w))
                   (with_calls (calls w ++ [CallGetPositions]) w))
                eq_refl) as Hkeep.
  destruct (load_positions items _) as [[[]|e] w']; exact Hkeep.
Qed.

Lemma get_positions_returned_lookup (venue : Venue) (w : World)
    (ds : list RawPosition) :
  _connected (client w) = true ->
  v_get_positions venue (calls w ++ [CallGetPositions]) =
    Returns (map PosDict ds) ->
  forall s,
    dict_get (_positions (client (snd (get_positions venue w)))) s =
      last_reported s ds.
Proof.
  intros Hc Hv.
  unfold get_positions, bind, gets, try_except, call_venue, modify.
  cbn -[load_positions]. rewrite Hc. cbn -[load_positions]. rewrite Hv.
  cbn -[load_positions].
  destruct (load_positions_dicts ds
              (with_client (set_positions [] (client w))
                 (with_calls (calls w ++ [CallGetPositions]) w)))
    as (w' & Hrun & _ & Hget).
  rewrite Hrun. cbn. intros s. rewrite Hget. cbn.
  destruct (last_reported s ds); reflexivity.
Qed.

(** X16: when the broker's account query returns a mapping,
    [get_account_info] refreshes the ledger by a [get_positions] of its
    own (the positions query is the next broker call, and what it reports
    is the new ledger), answers with the snapshot whose seven fields are
    those of the mapping (a missing key giving the configured user, a
    balance of 150000, or zero) with the values of the refreshed ledger,
    caches that snapshot, and makes its [daily_pnl] the figure the daily
    loss rule reads; nothing else of the client changes. *)
Theorem get_account_info_takes_the_broker_figures
    (venue : Venue) (w : World) (d : RawAccount) :
  _connected (client w) = true ->
  v_get_account_info venue (calls w ++ [CallGetAccountInfo]) =
    Returns (AccountDict d) ->
  let refreshed :=
    snd (get_positions venue (with_calls (calls w ++ [CallGetAccountInfo]) w)) in
  let info :=
    {| a_account_id :=
         get_default (raw_account_id d) (user (rithmic (config (client w))));
       a_balance := get_default (raw_balance d) 150000%float;
       a_buying_power := get_default (raw_buying_power d) 0%float;
       a_daily_pnl := get_default (raw_daily_pnl d) 0%float;
       a_unrealized_pnl := get_default (raw_acc_unrealized_pnl d) 0%float;
       a_realized_pnl := get_default (raw_acc_realized_pnl d) 0%float;
       a_positions := dict_values (_positions (client refreshed)) |} in
  get_account_info venue w =
    (Ok (Some info),
     with_client
       (set_daily_pnl (get_default (raw_daily_pnl d) 0%float)
          (set_account_info (Some info) (client refreshed))) refreshed) /\
  calls (snd (get_account_info venue w)) =
    calls w ++ [CallGetAccountInfo; CallGetPositions] /\
  (forall ds,
      v_get_positions venue
        (calls w ++ [CallGetAccountInfo; CallGetPositions]) =
        Returns (map PosDict ds) ->
      forall s,
        dict_get (_positions (client (snd (get_account_info venue w)))) s =
          last_reported s ds) /\
  _orders (client (snd (get_account_info venue w))) = _orders (client w) /\
  _trading_enabled (client (snd (get_account_info venue w))) =
    _trading_enabled (client w) /\
  _connected (client (snd (get_account_info venue w))) = true.
Proof.
  intros Hc Hv refreshed info.
  pose proof (get_account_info_query_returns venue w d Hc Hv) as Hrun.
  cbv zeta in Hrun. fold refreshed in Hrun. fold info in Hrun.
  assert (Hc0 : _connected
                  (client (with_calls (calls w ++ [CallGetAccountInfo]) w))
                = true) by exact Hc.
  pose proof (get_positions_connected_log venue _ Hc0) as Hlog.
  fold refreshed in Hlog. cbn [calls with_calls] in Hlog.
  rewrite <- app_assoc in Hlog. cbn [app] in Hlog.
  destruct (get_positions_answer venue
              (with_calls (calls w ++ [CallGetAccountInfo]) w))
    as (_ & _ & Hc1 & _ & _ & He & Ho).
  fold refreshed in Hc1, He, Ho.
  split; [exact Hrun|]. rewrite Hrun. cbn [snd].
  split; [exact Hlog|]. split; [|split; [exact Ho | split; [exact He|]]].
  - intros ds Hds s.
    cbn [client with_client _positions set_daily_pnl set_account_info].
    apply (get_positions_returned_lookup venue
             (with_calls (calls w ++ [CallGetAccountInfo]) w) ds Hc0).
    cbn [calls with_calls]. rewrite <- app_assoc. exact Hds.
  - cbn [client with_client _connected set_daily_pnl set_account_info].
    rewrite Hc1. exact Hc.
Qed.

Lemma get_account_info_takes_the_broker_figures_witness :
  let venue :=
    {| v_connect := v_connect losing_venue;
       v_disconnect := v_disconnect losing_venue;
       v_submit_order := v_submit_order losing_venue;
       v_cancel_order := v_cancel_order losing_venue;
       v_cancel_all_orders := v_cancel_all_orders losing_venue;
       v_get_positions := v_get_positions holding_venue;
       v_get_account_info := v_get_account_info losing_venue;
       v_now := v_now losing_venue;
       v_fallback_order_id := v_fallback_order_id losing_venue |} in
  let w := with_ledger [position "NQH5" 4]%string online in
  _connected (client w) = true /\
  calls (snd (get_account_info venue w)) =
    calls w ++ [CallGetAccountInfo; CallGetPositions] /\
  dict_get (_positions (client (snd (get_account_info venue w)))) "NQH5" = None /\
  option_map (fun info => (a_account_id info, a_daily_pnl info,
                           List.length (a_positions info)))
    (_account_info (client (snd (get_account_info venue w)))) =
    Some ("APEX-1"%string, (-3000)%float, 1%nat).
Proof.
  cbv zeta. split; [reflexivity|].
  destruct (get_account_info_takes_the_broker_figures
              {| v_connect := v_connect losing_venue;
                 v_disconnect := v_disconnect losing_venue;
                 v_submit_order := v_submit_order losing_venue;
                 v_cancel_order := v_cancel_order losing_venue;
                 v_cancel_all_orders := v_cancel_all_orders losing_venue;
                 v_get_positions := v_get_positions holding_venue;
                 v_get_account_info := v_get_account_info losing_venue;
                 v_now := v_now losing_venue;
                 v_fallback_order_id := v_fallback_order_id losing_venue |}
              (with_ledger [position "NQH5" 4]%string online)
              {| raw_account_id := None; raw_balance := None;
                 raw_buying_power := None;
                 raw_daily_pnl := Some (-3000)%float;
                 raw_acc_unrealized_pnl := None;
                 raw_acc_realized_pnl := None |} eq_refl eq_refl)
    as (_ & Hlog & Hledger & _).
  split; [exact Hlog|]. split; [|reflexivity].
  exact (Hledger [{| raw_symbol := Some "ESH5"%string; raw_quantity := Some 2;
                     raw_avg_price := Some 4500%float;
                     raw_unrealized_pnl := None; raw_realized_pnl := None |}]
           eq_refl "NQH5"%string).
Defined.

(** X17: a daily loss reported by the broker beyond the limit stops
    trading at the next order: after such a [get_account_info], a
    [place_order] made with trading enabled returns no order, reaches no
    broker and switches trading off. *)
Theorem reported_loss_stops_the_next_order
    (venue : Venue) (w : World) (d : RawAccount)
    (s : string) (sd : OrderSide) (q : Z) (t : OrderType)
    (p sp : option float) :
  _connected (client w) = true ->
  _trading_enabled (client w) = true ->
  v_get_account_info venue (calls w ++ [CallGetAccountInfo]) =
    Returns (AccountDict d) ->
  (get_default (raw_daily_pnl d) 0 <?
     - max_daily_loss (trading (config (client w))))%float = true ->
  fst (place_order venue s sd q t p sp (snd (get_account_info venue w)))
    = Ok None /\
  calls (snd (place_order venue s sd q t p sp (snd (get_account_info venue w))))
    = calls (snd (get_account_info venue w)) /\
  _trading_enabled
    (client (snd (place_order venue s sd q t p sp
                    (snd (get_account_info venue w))))) = false.
Proof.
  intros Hc He Hv Hloss.
  pose proof (get_account_info_query_returns venue w d Hc Hv) as Hrun.
  cbv zeta in Hrun.
  destruct (get_positions_answer venue
              (with_calls (calls w ++ [CallGetAccountInfo]) w))
    as (_ & Hcfg & Hc1 & _ & _ & He1 & _).
  cbn -[get_positions] in Hcfg, Hc1, He1.
  rewrite Hrun. cbn [snd].
  rewrite place_order_loss_limit.
  - repeat split.
  - cbn -[get_positions]. rewrite Hc1. exact Hc.
  - cbn -[get_positions]. rewrite He1. exact He.
  - unfold loss_limit_breached. cbn -[get_positions]. rewrite Hcfg.
    exact Hloss.
Qed.

Lemma reported_loss_stops_the_next_order_witness :
  _connected (client online) = true /\
  _trading_enabled (client online) = true /\
  fst (place_order losing_venue "ESH5" BUY 1 MARKET None None
         (snd (get_account_info losing_venue online))) = Ok None /\
  _trading_enabled
    (client (snd (place_order losing_venue "ESH5" BUY 1 MARKET None None
                    (snd (get_account_info losing_venue online))))) = false.
Proof.
  split; [reflexivity|]. split; [reflexivity|].
  destruct (reported_loss_stops_the_next_order losing_venue online
              {| raw_account_id := None; raw_balance := None;
                 raw_buying_power := None;
                 raw_daily_pnl := Some (-3000)%float;
                 raw_acc_unrealized_pnl := None;
                 raw_acc_realized_pnl := None |}
              "ESH5" BUY 1 MARKET None None eq_refl eq_refl eq_refl eq_refl)
    as (Hres & _ & Hoff).
  split; [exact Hres | exact Hoff].
Defined.

(** ** Disconnecting *)

(** X18: [disconnect] on a client that has a broker client always ends
    off line, whether the broker's own disconnect returns or raises; it
    publishes the status, and leaves the order book, the ledger, the daily
    figure and the trading flag as they were.  Without a broker client it
    does nothing. *)
Theorem disconnect_always_ends_offline (venue : Venue) (w : World) :
  (_client (client w) = true ->
   fst (disconnect venue w) = Ok tt /\
   _connected (client (snd (disconnect venue w))) = false /\
   calls (snd (disconnect venue w)) = calls w ++ [CallDisconnect] /\
   published (snd (disconnect venue w)) =
     published w ++ [EvConnectionStatus false false] /\
   _orders (client (snd (disconnect venue w))) = _orders (client w) /\
   _positions (client (snd (disconnect venue w))) = _positions (client w) /\
   _daily_pnl (client (snd (disconnect venue w))) = _daily_pnl (client w) /\
   _trading_enabled (client (snd (disconnect venue w))) =
     _trading_enabled (client w)) /\
  (_client (client w) = false -> disconnect venue w = (Ok tt, w)).
Proof.
  unfold disconnect, bind, gets, try_except, call_venue, modify,
    _notify_callbacks, ret.
  cbn. split; intros H; rewrite H; [|reflexivity].
  destruct (v_disconnect venue _) as [|[]]; cbn; repeat split.
Qed.

Lemma disconnect_always_ends_offline_witness :
  let w := with_ledger [position "ESH5" 2]%string online in
  _client (client w) = true /\
  _connected (client w) = true /\
  _connected (client (snd (disconnect failing_venue w))) = false /\
  _positions (client (snd (disconnect failing_venue w))) = _positions (client w).
Proof.
  cbv zeta. split; [reflexivity|]. split; [reflexivity|].
  destruct (proj1 (disconnect_always_ends_offline failing_venue
                     (with_ledger [position "ESH5" 2]%string online)) eq_refl)
    as (_ & Hoff & _ & _ & _ & Hledger & _).
  split; [exact Hoff | exact Hledger].
Defined.

(** ** Queries answer in every state *)

Section NeverRaises.

Context {A B : Type}.

Lemma never_raises_ret (a : A) : never_raises (ret a).
Proof. intros w. now exists a. Qed.

Lemma never_raises_gets (f : TradingClient -> A) : never_raises (gets f).
Proof. intros w. eexists. reflexivity. Qed.

Lemma never_raises_bind (m : M A) (k : A -> M B) :
  never_raises m -> (forall a, never_raises (k a)) -> never_raises (bind m k).
Proof.
  intros Hm Hk w. unfold bind. destruct (Hm w) as [a Ha].
  destruct (m w) as [[a'|e] w']; cbn in Ha; [|discriminate].
  apply Hk.
Qed.

Lemma never_raises_try (body : M A) (handler : exn -> M A) :
  (forall e, never_raises (handler e)) -> never_raises (try_except body handler).
Proof.
  intros Hk w. unfold try_except.
  destruct (body w) as [[a|e] w']; [now exists a | apply Hk].
Qed.

Lemma never_raises_if (b : bool) (m1 m2 : M A) :
  never_raises m1 -> never_raises m2 -> never_raises (if b then m1 else m2).
Proof. destruct b; auto. Qed.

End NeverRaises.

Lemma get_positions_never_raises (venue : Venue) :
  never_raises (get_positions venue).
Proof.
  unfold get_positions.
  apply never_raises_bind; [apply never_raises_gets|]. intros connected.
  apply never_raises_if; [apply never_raises_gets|].
  apply never_raises_try. intros e. apply never_raises_gets.
Qed.

Lemma get_account_info_never_raises (venue : Venue) :
  never_raises (get_account_info venue).
Proof.
  unfold get_account_info.
  apply never_raises_bind; [apply never_raises_gets|]. intros connected.
  apply never_raises_if; [apply never_raises_gets|].
  apply never_raises_try. intros e. apply never_raises_gets.
Qed.

(** X19: the account and position queries answer in every state and
    whatever the broker does, be it a call that raises, an answer that is
    not a mapping, or a list holding an element that is not one: no
    exception leaves [get_positions], [get_account_info] or
    [GET /account]. *)
Theorem queries_never_raise (venue : Venue) :
  never_raises (get_positions venue) /\
  never_raises (get_account_info venue) /\
  never_raises (Endpoints.get_account venue).
Proof.
  pose proof (get_positions_never_raises venue) as Hp.
  pose proof (get_account_info_never_raises venue) as Ha.
  repeat split; try assumption.
  unfold Endpoints.get_account.
  apply never_raises_bind; [assumption|]. intros [a|].
  - apply never_raises_ret.
  - apply never_raises_bind; [apply never_raises_gets|]. intros ?.
    apply never_raises_ret.
Qed.

(** X20: [GET /account] tells the connection by the cache, not by the
    connection: off line with a cached snapshot it answers
    ["connected": true] with the cached figures and calls no broker; with
    no snapshot it answers ["connected": false] with the configured user,
    a balance of 150000 and a daily figure of 0. *)
Theorem account_endpoint_reports_connected_from_cache
    (venue : Venue) (w : World) :
  _connected (client w) = false ->
  (forall info,
      _account_info (client w) = Some info ->
      Endpoints.get_account venue w =
        (Ok [("account_id", JString (a_account_id info));
             ("connected", JBool true);
             ("balance", JFloat (a_balance info));
             ("buying_power", JFloat (a_buying_power info));
             ("daily_pnl", JFloat (a_daily_pnl info));
             ("unrealized_pnl", JFloat (a_unrealized_pnl info));
             ("realized_pnl", JFloat (a_realized_pnl info));
             ("positions_count",
              JInt (Z.of_nat (List.length (a_positions info))))]%string, w)) /\
  (_account_info (client w) = None ->
   Endpoints.get_account venue w =
     (Ok [("account_id", JString (user (rithmic (config (client w)))));
          ("connected", JBool false);
          ("message", JString "Not connected - showing estimated data");
          ("balance", JInt 150000);
          ("daily_pnl", JInt 0)]%string, w)).
Proof.
  intros Hc.
  unfold Endpoints.get_account, bind.
  rewrite (get_account_info_offline venue w Hc).
  split.
  - intros info ->. reflexivity.
  - intros ->. reflexivity.
Qed.

Lemma account_endpoint_reports_connected_from_cache_witness :
  let w := snd (disconnect willing_venue
                  (snd (get_account_info losing_venue online))) in
  _connected (client w) = false /\
  exists body,
    fst (Endpoints.get_account failing_venue w) = Ok body /\
    dict_get body "connected" = Some (JBool true) /\
    dict_get body "daily_pnl" = Some (JFloat (-3000)%float).
Proof.
  cbv zeta. split; [reflexivity|].
  destruct (account_endpoint_reports_connected_from_cache failing_venue
              (snd (disconnect willing_venue
                      (snd (get_account_info losing_venue online)))) eq_refl)
    as [Hcached _].
  eexists. rewrite (Hcached _ eq_refl). cbn [fst].
  split; [reflexivity|]. split; reflexivity.
Defined.

(** ** The market data cache *)

(** X21: a market data push for a symbol followed by a read of that symbol
    gives back exactly the pushed values (zero for a missing key, the
    empty symbol for a missing symbol) stamped with the time of the push;
    the other symbols read as before; the snapshot is handed to the
    callbacks; a payload that is not a mapping changes nothing. *)
Theorem market_data_push_then_read
    (now : Z) (d : RawQuote) (st : MarketState) :
  get_market_data (get_default (q_symbol d) ""%string)
    (_handle_market_data now (QuoteDict d) st) =
    Some {| md_symbol := get_default (q_symbol d) ""%string;
            md_last_price := get_default (q_last_trade_price d) 0%float;
            md_bid := get_default (q_best_bid_price d) 0%float;
            md_ask := get_default (q_best_ask_price d) 0%float;
            md_bid_size := get_default (q_best_bid_size d) 0;
            md_ask_size := get_default (q_best_ask_size d) 0;
            md_volume := get_default (q_volume d) 0;
            md_high := get_default (q_high_price d) 0%float;
            md_low := get_default (q_low_price d) 0%float;
            md_open := get_default (q_open_price d) 0%float;
            md_timestamp := now |} /\
  (forall other,
      other <> get_default (q_symbol d) ""%string ->
      get_market_data other (_handle_market_data now (QuoteDict d) st) =
        get_market_data other st) /\
  (exists snapshot,
      get_market_data (get_default (q_symbol d) ""%string)
        (_handle_market_data now (QuoteDict d) st) = Some snapshot /\
      market_published (_handle_market_data now (QuoteDict d) st) =
        market_published st ++ [snapshot]) /\
  _handle_market_data now QuoteNotADict st = st.
Proof.
  unfold get_market_data, _handle_market_data. cbn.
  split; [apply dict_get_set_same|]. split.
  - intros other Hne. now apply dict_get_set_other.
  - split; [|reflexivity]. eexists. split; [apply dict_get_set_same|].
    reflexivity.
Qed.

Lemma market_data_push_then_read_witness :
  let quote :=
    {| q_symbol := Some "ESH5"%string; q_last_trade_price := Some 4500%float;
       q_best_bid_price := None; q_best_ask_price := None;
       q_best_bid_size := Some 12; q_best_ask_size := None;
       q_volume := None; q_high_price := None; q_low_price := None;
       q_open_price := None |} in
  let st := _handle_market_data 1 (QuoteDict quote)
              {| _market_data := []; market_published := [] |} in
  "NQH5"%string <> "ESH5"%string /\
  get_market_data "NQH5"
    (_handle_market_data 2
       (QuoteDict {| q_symbol := Some "NQH5"%string;
                     q_last_trade_price := None;
                     q_best_bid_price := None; q_best_ask_price := None;
                     q_best_bid_size := None; q_best_ask_size := None;
                     q_volume := None; q_high_price := None;
                     q_low_price := None; q_open_price := None |}) st) <> None /\
  option_map md_timestamp
    (get_market_data "ESH5"
       (_handle_market_data 2
          (QuoteDict {| q_symbol := Some "NQH5"%string;
                        q_last_trade_price := None;
                        q_best_bid_price := None; q_best_ask_price := None;
                        q_best_bid_size := None; q_best_ask_size := None;
                        q_volume := None; q_high_price := None;
                        q_low_price := None; q_open_price := None |}) st))
  = Some 1.
Proof.
  cbv zeta. split; [discriminate|]. split; [cbn; discriminate|].
  rewrite (proj1 (proj2 (market_data_push_then_read 2
             {| q_symbol := Some "NQH5"%string; q_last_trade_price := None;
                q_best_bid_price := None; q_best_ask_price := None;
                q_best_bid_size := None; q_best_ask_size := None;
                q_volume := None; q_high_price := None;
                q_low_price := None; q_open_price := None |} _))
             "ESH5"%string); [reflexivity | cbn; discriminate].
Defined.

(** X22: the cache keeps no history: a push for a symbol it already holds
    overwrites that symbol's snapshot in place, the symbols of the cache
    staying the same in number and order, while a push for a new symbol
    adds it at the end; the cache never holds a symbol twice. *)
Theorem market_data_cache_keeps_one_snapshot_per_symbol
    (now : Z) (d : RawQuote) (st : MarketState) :
  (In (get_default (q_symbol d) ""%string) (dict_keys (_market_data st)) ->
   dict_keys (_market_data (_handle_market_data now (QuoteDict d) st)) =
     dict_keys (_market_data st)) /\
  (~ In (get_default (q_symbol d) ""%string) (dict_keys (_market_data st)) ->
   dict_keys (_market_data (_handle_market_data now (QuoteDict d) st)) =
     dict_keys (_market_data st) ++ [get_default (q_symbol d) ""%string]) /\
  (NoDup (dict_keys (_market_data st)) ->
   NoDup (dict_keys (_market_data (_handle_market_data now (QuoteDict d) st)))).
Proof.
  unfold _handle_market_data. cbn [_market_data].
  split; [apply dict_keys_set_present|].
  split; [apply dict_keys_set_absent | apply dict_set_NoDup].
Qed.

Lemma market_data_cache_keeps_one_snapshot_per_symbol_witness :
  let quote price :=
    {| q_symbol := Some "ESH5"%string; q_last_trade_price := Some price;
       q_best_bid_price := None; q_best_ask_price := None;
       q_best_bid_size := None; q_best_ask_size := None;
       q_volume := None; q_high_price := None; q_low_price := None;
       q_open_price := None |} in
  let st := _handle_market_data 1 (QuoteDict (quote 4500%float))
              {| _market_data := []; market_published := [] |} in
  In "ESH5"%string (dict_keys (_market_data st)) /\
  dict_keys (_market_data
               (_handle_market_data 2 (QuoteDict (quote 4501%float)) st)) =
    ["ESH5"%string] /\
  option_map md_last_price
    (get_market_data "ESH5"
       (_handle_market_data 2 (QuoteDict (quote 4501%float)) st)) =
    Some 4501%float.
Proof.
  cbv zeta. split; [left; reflexivity|]. split; [|reflexivity].
  exact (proj1 (market_data_cache_keeps_one_snapshot_per_symbol 2
                  {| q_symbol := Some "ESH5"%string;
                     q_last_trade_price := Some 4501%float;
                     q_best_bid_price := None; q_best_ask_price := None;
                     q_best_bid_size := None; q_best_ask_size := None;
                     q_volume := None; q_high_price := None;
                     q_low_price := None; q_open_price := None |}
                  (_handle_market_data 1
                     (QuoteDict
                        {| q_symbol := Some "ESH5"%string;
                           q_last_trade_price := Some 4500%float;
                           q_best_bid_price := None; q_best_ask_price := None;
                           q_best_bid_size := None; q_best_ask_size := None;
                           q_volume := None; q_high_price := None;
                           q_low_price := None; q_open_price := None |})
                     {| _market_data := []; market_published := [] |}))
               (or_introl eq_refl)).
Defined.

(** ** The callback registry *)

Lemma list_remove_last (x : nat) (l : list nat) :
  ~ In x l -> list_remove x (l ++ [x]) = l.
Proof.
  induction l as [|y rest IH]; cbn; intros Hnin.
  - now rewrite Nat.eqb_refl.
  - destruct (Nat.eqb y x) eqn:E.
    + apply Nat.eqb_eq in E. exfalso. auto.
    + f_equal. apply IH. auto.
Qed.

Lemma dict_set_back {V : Type} (d : dict V) (k : string) (v v' : V) :
  dict_get d k = Some v -> dict_set (dict_set d k v') k v = d.
Proof.
  induction d as [|[k0 v0] rest IH]; cbn; [discriminate|].
  destruct (String.eqb k k0) eqn:E; cbn; rewrite E.
  - intros H. now injection H as ->.
  - intros H. now rewrite IH.
Qed.

(** X23: registering under an event name the registry does not know is
    ignored, and so is unregistering; unregistering a callback that is not
    registered changes nothing; registering a callback that was not
    registered and then unregistering it gives the registry back as it
    was. *)
Theorem on_then_off_restores_the_registry
    (r : Registry) (event : string) (callback : nat) :
  (dict_get r event = None ->
   on event callback r = r /\ off event callback r = r) /\
  (forall registered,
      dict_get r event = Some registered ->
      ~ In callback registered ->
      off event callback r = r /\
      dict_get (on event callback r) event = Some (registered ++ [callback]) /\
      off event callback (on event callback r) = r).
Proof.
  split.
  - intros Hnone. unfold on, off. rewrite Hnone. split; reflexivity.
  - intros registered Hsome Hnin.
    assert (Hno : existsb (Nat.eqb callback) registered = false).
    { destruct (existsb (Nat.eqb callback) registered) eqn:E; [|reflexivity].
      apply existsb_exists in E. destruct E as (x & Hx & Heq).
      apply Nat.eqb_eq in Heq. subst x. contradiction. }
    split; [unfold off; now rewrite Hsome, Hno|].
    unfold on. rewrite Hsome. split; [apply dict_get_set_same|].
    unfold off. rewrite dict_get_set_same.
    assert (Hyes : existsb (Nat.eqb callback) (registered ++ [callback]) = true).
    { rewrite existsb_app. cbn. rewrite Nat.eqb_refl. apply orb_true_r. }
    rewrite Hyes, list_remove_last by exact Hnin.
    now apply dict_set_back.
Qed.

Lemma on_then_off_restores_the_registry_witness :
  let r := on "order_update" 7 initial_callbacks in
  dict_get r "order_update" = Some [7%nat] /\
  on "fills" 9 r = r /\
  off "order_update" 9 (on "order_update" 9 r) = r.
Proof.
  cbv zeta. split; [reflexivity|].
  destruct (on_then_off_restores_the_registry
              (on "order_update" 7 initial_callbacks) "fills" 9)
    as [Hunknown _].
  destruct (on_then_off_restores_the_registry
              (on "order_update" 7 initial_callbacks) "order_update" 9)
    as [_ Hknown].
  split; [exact (proj1 (Hunknown eq_refl))|].
  refine (proj2 (proj2 (Hknown [7%nat] eq_refl _))).
  cbn. intros [H | []]. discriminate H.
Defined.

(** ** Orders stay in the book *)

Lemma dict_keys_set_keeps {V : Type} (d : dict V) (k k' : string) (v : V) :
  In k (dict_keys d) -> In k (dict_keys (dict_set d k' v)).
Proof.
  intros Hin.
  destruct (in_dec string_dec k' (dict_keys d)) as [Hin' | Hnin].
  - now rewrite dict_keys_set_present.
  - rewrite dict_keys_set_absent by exact Hnin. apply in_or_app. now left.
Qed.

(** X24: no command ever removes an order from the book: an identifier
    the book holds is still held after any sequence of commands, whatever
    the broker answers. *)
Theorem orders_are_never_removed_from_the_book
    (venue : Venue) (cmds : list Command) (w : World) (oid : string) :
  In oid (dict_keys (_orders (client w))) ->
  In oid (dict_keys (_orders (client (run venue cmds w)))).
Proof.
  apply (run_preserves_any venue
           (fun w' => In oid (dict_keys (_orders (client w')))));
    try (intros; assumption).
  - intros w0 oid' o H _. cbn [client with_client _orders set_orders].
    now apply dict_keys_set_keeps.
  - intros w0 H. cbn [client with_client _orders set_orders].
    now rewrite dict_map_values_keys.
  - intros s sd q t p sp w0 H.
    destruct (place_order_cases venue s sd q t p sp w0)
      as [[_ ->] | [(_ & _ & ->) | [(_ & _ & _ & ->) | [(_ & _ & _ & ->)
         | (_ & _ & _ & oid' & ->)]]]];
      try exact H.
    cbn [snd client _orders set_orders]. now apply dict_keys_set_keeps.
Qed.

Lemma orders_are_never_removed_from_the_book_witness :
  let w := snd (place_order willing_venue "ESH5" BUY 1 MARKET None None online) in
  let cmds := [CmdCancelOrder "R-1"; CmdCancelAllOrders; CmdEmergencyStop;
               CmdDisconnect; CmdResetDailyStats]%string in
  In "R-1"%string (dict_keys (_orders (client w))) /\
  In "R-1"%string (dict_keys (_orders (client (run willing_venue cmds w)))).
Proof.
  cbv zeta.
  assert (H : In "R-1"%string
                (dict_keys (_orders (client (snd (place_order willing_venue
                   "ESH5" BUY 1 MARKET None None online))))))
    by (left; reflexivity).
  split; [exact H|].
  exact (orders_are_never_removed_from_the_book willing_venue _ _ _ H).
Defined.

(** ** [emergency_stop] on a connected client *)

(** X25: on a connected client [emergency_stop] always answers with the
    same success body, leaves trading disabled, and calls the broker once,
    for the cancel-all: the closing orders are refused by the trading flag
    it has just cleared, so no [submit_order] is made and the ledger is
    left as it was. *)
Theorem emergency_stop_sends_no_closing_order (venue : Venue) (w : World) :
  _connected (client w) = true ->
  fst (emergency_stop venue w) =
    Ok [("success", JBool true);
        ("message",
         JString "Emergency stop executed - all positions closed, trading disabled")
       ]%string /\
  calls (snd (emergency_stop venue w)) = calls w ++ [CallCancelAllOrders] /\
  _trading_enabled (client (snd (emergency_stop venue w))) = false /\
  _positions (client (snd (emergency_stop venue w))) = _positions (client w).
Proof.
  intros Hc.
  destruct (emergency_stop_connected venue w Hc) as (Hrun & Hsame & Hcalls & He).
  rewrite Hrun, Hsame. cbn [fst snd].
  split; [reflexivity|]. split; [exact Hcalls|]. split; [exact He|].
  destruct (v_cancel_all_orders venue
              (calls (snd (disable_trading w)) ++ [CallCancelAllOrders]))
    as [|[]] eqn:Hv.
  - now rewrite (cancel_all_orders_venue_raises venue
                   (snd (disable_trading w)) Hc Hv).
  - now rewrite (cancel_all_orders_venue_returns venue
                   (snd (disable_trading w)) Hc Hv).
Qed.

Lemma emergency_stop_sends_no_closing_order_witness :
  let w := with_ledger [position "ESH5" 2; position "NQH5" (-1)]%string online in
  _connected (client w) = true /\
  calls (snd (emergency_stop willing_venue w)) = calls w ++ [CallCancelAllOrders] /\
  _positions (client (snd (emergency_stop willing_venue w))) = _positions (client w).
Proof.
  cbv zeta. split; [reflexivity|].
  destruct (emergency_stop_sends_no_closing_order willing_venue
              (with_ledger [position "ESH5" 2; position "NQH5" (-1)]%string online)
              eq_refl) as (_ & Hcalls & _ & Hledger).
  split; [exact Hcalls | exact Hledger].
Defined.

(** ** The cancel and close endpoints off line *)

Section UnguardedEndpoints.

Variable venue : Venue.

Lemma close_position_offline_open (w : World) (s : string) (pos : Position) :
  _connected (client w) = false ->
  dict_get (_positions (client w)) s = Some pos ->
  p_quantity pos <> 0 ->
  close_position venue s w =
    (Raise (RuntimeError "Not connected to Rithmic"), w).
Proof.
  intros Hc Hp Hq.
  rewrite (close_position_open venue w s pos Hp Hq). unfold bind.
  now rewrite (place_order_not_connected venue _ _ _ _ _ _ w Hc).
Qed.

Lemma close_all_loop_offline_open (symbols : list string) (s : string)
    (pos : Position) (w : World) :
  _connected (client w) = false ->
  In s symbols ->
  dict_get (_positions (client w)) s = Some pos ->
  p_quantity pos <> 0 ->
  forall success,
    close_all_loop venue symbols success w =
      (Raise (RuntimeError "Not connected to Rithmic"), w).
Proof.
  intros Hc Hin Hp Hq.
  induction symbols as [|s0 rest IH]; [destruct Hin|].
  intros success. cbn [close_all_loop]. unfold bind.
  destruct (dict_get (_positions (client w)) s0) as [pos0|] eqn:Hp0.
  - destruct (Z.eq_dec (p_quantity pos0) 0) as [Hq0|Hq0].
    + rewrite (close_position_flat venue w s0 pos0 Hp0 Hq0).
      apply IH. destruct Hin as [-> | Hin]; [|exact Hin].
      congruence.
    + now rewrite (close_position_offline_open w s0 pos0 Hc Hp0 Hq0).
  - rewrite (close_position_absent venue w s0 Hp0).
    apply IH. destruct Hin as [-> | Hin]; [congruence | exact Hin].
Qed.

End UnguardedEndpoints.

(** X26: the cancel and close endpoints do not check the connection.  Off
    line, [DELETE /orders/{id}] and [DELETE /orders] let the client's
    [RuntimeError] through as it is, and so do the two close endpoints as
    soon as the ledger holds an open position, where [POST /orders]
    answers 503; closing a symbol the ledger does not hold answers 400. *)
Theorem cancel_and_close_endpoints_offline
    (venue : Venue) (w : World) (oid s : string) :
  _connected (client w) = false ->
  Endpoints.cancel_order venue oid w =
    (Raise (RuntimeError "Not connected to Rithmic"), w) /\
  Endpoints.cancel_all_orders venue w =
    (Raise (RuntimeError "Not connected to Rithmic"), w) /\
  (forall pos,
      dict_get (_positions (client w)) s = Some pos ->
      p_quantity pos <> 0 ->
      Endpoints.close_position venue s w =
        (Raise (RuntimeError "Not connected to Rithmic"), w) /\
      Endpoints.close_all_positions venue w =
        (Raise (RuntimeError "Not connected to Rithmic"), w)) /\
  (dict_get (_positions (client w)) s = None ->
   Endpoints.close_position venue s w = (Raise (HTTPException 400), w)).
Proof.
  intros Hc. split; [|split; [|split]].
  - unfold Endpoints.cancel_order, bind.
    now rewrite (cancel_order_not_connected venue w oid Hc).
  - unfold Endpoints.cancel_all_orders, bind.
    now rewrite (cancel_all_orders_not_connected venue w Hc).
  - intros pos Hp Hq. split.
    + unfold Endpoints.close_position, bind.
      now rewrite (close_position_offline_open venue w s pos Hc Hp Hq).
    + unfold Endpoints.close_all_positions, close_all_positions, bind, gets.
      cbn -[close_all_loop].
      rewrite (close_all_loop_offline_open venue _ s pos w Hc); try assumption;
        [reflexivity|].
      apply dict_get_in_keys. now exists pos.
  - intros Hp. unfold Endpoints.close_position, bind.
    now rewrite (close_position_absent venue w s Hp).
Qed.

Lemma cancel_and_close_endpoints_offline_witness :
  let w := snd (disconnect willing_venue
                  (with_ledger [position "NQH5" 0; position "ESH5" 2]%string
                     online)) in
  _connected (client w) = false /\
  Endpoints.cancel_all_orders willing_venue w =
    (Raise (RuntimeError "Not connected to Rithmic"), w) /\
  Endpoints.close_all_positions willing_venue w =
    (Raise (RuntimeError "Not connected to Rithmic"), w).
Proof.
  cbv zeta. split; [reflexivity|].
  destruct (cancel_and_close_endpoints_offline willing_venue
              (snd (disconnect willing_venue
                      (with_ledger [position "NQH5" 0; position "ESH5" 2]%string
                         online))) "R-1" "ESH5" eq_refl)
    as (_ & Hall & Hclose & _).
  split; [exact Hall|].
  refine (proj2 (Hclose (position "ESH5" 2) eq_refl _)).
  cbn. discriminate.
Defined.

(** ** Cancelling on the books the client builds *)

Lemma set_status_same (o : Order) : set_status (o_status o) o = o.
Proof. destruct o. reflexivity. Qed.

Lemma dict_set_same_value {V : Type} (d : dict V) (k : string) (v : V) :
  dict_get d k = Some v -> dict_set d k v = d.
Proof.
  induction d as [|[k0 v0] rest IH]; cbn; [discriminate|].
  destruct (String.eqb k k0) eqn:E.
  - intros H. now injection H as ->.
  - intros H. now rewrite IH.
Qed.

(** On a book built by commands, a terminal status can only be
    [CANCELLED]. *)
Lemma reached_terminal_is_cancelled (venue : Venue) (cfg : Config)
    (cmds : list Command) (oid : string) (order : Order) :
  dict_get (_orders (client (run venue cmds (init cfg)))) oid = Some order ->
  status_in (o_status order) [FILLED; REJECTED; CANCELLED] = true ->
  o_status order = CANCELLED.
Proof.
  intros Hget Hterminal.
  destruct (run_book_ok venue cfg cmds (init cfg) (init_book_ok cfg))
    as (_ & _ & Hall).
  destruct (dict_get_Forall _ _ _ _ Hall Hget) as (_ & [Hst | Hst] & _);
    cbn in Hst; [|exact Hst].
  rewrite Hst in Hterminal. discriminate Hterminal.
Qed.

(** C3, as the code has it: on a client built from a fresh one by any
    commands, [cancel_order] on an order of the book in status [FILLED],
    [REJECTED] or [CANCELLED] leaves that order, its status included, and
    the whole book as they were, whatever the broker answers.  Connected,
    it returns [False] when the broker's cancel call raises, the client
    then being untouched, and [True] when the broker's call returns; off
    line it raises the [RuntimeError] of the missing connection and
    touches nothing. *)
Theorem cancel_order_keeps_terminal_order
    (venue : Venue) (cfg : Config) (cmds : list Command) (w : World)
    (oid : string) (order : Order) :
  w = run venue cmds (init cfg) ->
  dict_get (_orders (client w)) oid = Some order ->
  status_in (o_status order) [FILLED; REJECTED; CANCELLED] = true ->
  dict_get (_orders (client (snd (cancel_order venue oid w)))) oid = Some order /\
  _orders (client (snd (cancel_order venue oid w))) = _orders (client w) /\
  (_connected (client w) = true ->
   v_cancel_order venue (calls w ++ [CallCancelOrder oid]) = Raises ->
   fst (cancel_order venue oid w) = Ok false /\
   client (snd (cancel_order venue oid w)) = client w) /\
  (_connected (client w) = true ->
   v_cancel_order venue (calls w ++ [CallCancelOrder oid]) = Returns tt ->
   fst (cancel_order venue oid w) = Ok true) /\
  (_connected (client w) = false ->
   cancel_order venue oid w =
     (Raise (RuntimeError "Not connected to Rithmic"), w)).
Proof.
  intros -> Hget Hterminal.
  pose proof (reached_terminal_is_cancelled venue cfg cmds oid order
                Hget Hterminal) as Hst.
  set (w := run venue cmds (init cfg)) in *.
  assert (Hbook : _orders (client (snd (cancel_order venue oid w))) =
                  _orders (client w)).
  { destruct (_connected (client w)) eqn:Hc.
    - destruct (v_cancel_order venue (calls w ++ [CallCancelOrder oid]))
        as [|[]] eqn:Hv.
      + now rewrite (cancel_order_venue_raises venue w oid Hc Hv).
      + rewrite (cancel_order_venue_returns venue w oid Hc Hv).
        cbn [snd client with_calls with_client]. rewrite Hget.
        cbn [_orders set_orders]. rewrite <- Hst, set_status_same.
        now apply dict_set_same_value.
    - now rewrite (cancel_order_not_connected venue w oid Hc). }
  split; [now rewrite Hbook|]. split; [exact Hbook|].
  split; [|split].
  - intros Hc Hv.
    rewrite (cancel_order_venue_raises venue w oid Hc Hv). split; reflexivity.
  - intros Hc Hv. now rewrite (cancel_order_venue_returns venue w oid Hc Hv).
  - intros Hc. apply (cancel_order_not_connected venue w oid Hc).
Qed.

Lemma cancel_order_keeps_terminal_order_witness :
  let cmds := [CmdConnect;
               CmdPlaceOrder "ESH5" BUY 1 MARKET None None;
               CmdCancelOrder "R-1"]%string in
  let w := run willing_venue cmds (init sample_config) in
  _connected (client w) = true /\
  option_map o_status (dict_get (_orders (client w)) "R-1") = Some CANCELLED /\
  fst (cancel_order willing_venue "R-1" w) = Ok true /\
  _orders (client (snd (cancel_order willing_venue "R-1" w))) =
    _orders (client w).
Proof.
  cbv zeta. split; [reflexivity|]. split; [reflexivity|].
  destruct (cancel_order_keeps_terminal_order willing_venue sample_config
              [CmdConnect;
               CmdPlaceOrder "ESH5" BUY 1 MARKET None None;
               CmdCancelOrder "R-1"]%string _ "R-1" _
              eq_refl eq_refl eq_refl)
    as (_ & Hbook & _ & Haccepted & _).
  split; [exact (Haccepted eq_refl eq_refl) | exact Hbook].
Defined.



(** ** [close_all_positions], connected or not *)

(** Nothing is sent for a ledger of flat positions, connected or not. *)
Lemma close_all_loop_all_flat (venue : Venue) (w : World)
    (symbols : list string) :
  (forall s, In s symbols ->
             exists pos, dict_get (_positions (client w)) s = Some pos /\
                         p_quantity pos = 0) ->
  forall success,
    close_all_loop venue symbols success w = (Ok success, w).
Proof.
  induction symbols as [|s rest IH]; intros Hflat success; [reflexivity|].
  cbn [close_all_loop]. unfold bind.
  destruct (Hflat s (or_introl eq_refl)) as (pos & Hp & Hq).
  rewrite (close_position_flat venue w s pos Hp Hq).
  cbn [negb]. apply IH. intros s' Hin. apply Hflat. now right.
Qed.

(** A client off line holding two open positions, as three commands leave
    it: the call raises at the first and answers nothing. *)
Lemma close_all_positions_offline_counterexample :
  let w := run two_holdings_venue [CmdConnect; CmdGetPositions; CmdDisconnect]
             (init sample_config) in
  _connected (client w) = false /\
  map (fun kv => (fst kv, p_quantity (snd kv))) (_positions (client w)) =
    [("ESH5", 2); ("NQH5", -1)]%string /\
  close_all_positions two_holdings_venue w =
    (Raise (RuntimeError "Not connected to Rithmic"), w) /\
  (forall answer, fst (close_all_positions two_holdings_venue w) <> Ok answer).
Proof.
  cbv zeta. split; [reflexivity|]. split; [reflexivity|].
  split; [reflexivity|]. intros answer. vm_compute. discriminate.
Qed.

(** C6, as the code has it: [close_all_positions] is the program that
    attempts every symbol of the ledger in turn, keeps each outcome and
    answers with their conjunction.  On a connected client every attempt
    answers, whatever the earlier ones answered: the outcomes are as many
    as the symbols, the call answers [True] only if no attempt failed, and
    with the gate open each open position has its closing call sent to
    the broker even when the broker failed the earlier ones.  Off line the
    call answers [True], nothing being sent, when every position of the
    ledger is flat, and raises the [RuntimeError] of the missing
    connection as soon as the ledger holds an open position, leaving the
    world as it was. *)
Theorem close_all_positions_continues_while_connected
    (venue : Venue) (w : World) :
  close_all_positions venue w = close_all_by_conjunction venue w /\
  (_connected (client w) = true ->
   exists outcomes,
     close_each venue (dict_keys (_positions (client w))) w =
       (Ok outcomes, snd (close_all_positions venue w)) /\
     List.length outcomes = List.length (dict_keys (_positions (client w))) /\
     fst (close_all_positions venue w) =
       Ok (forallb (fun closed => closed) outcomes) /\
     (fst (close_all_positions venue w) = Ok true <->
      forall closed, In closed outcomes -> closed = true) /\
     (_trading_enabled (client w) = true ->
      loss_limit_breached (client w) = false ->
      calls (snd (close_all_positions venue w)) =
        calls w ++ closing_calls (client w))) /\
  (_connected (client w) = false ->
   (forall s pos,
       dict_get (_positions (client w)) s = Some pos -> p_quantity pos = 0) ->
   close_all_positions venue w = (Ok true, w)) /\
  (_connected (client w) = false ->
   forall s pos,
     dict_get (_positions (client w)) s = Some pos ->
     p_quantity pos <> 0 ->
     close_all_positions venue w =
       (Raise (RuntimeError "Not connected to Rithmic"), w)).
Proof.
  split; [apply close_all_positions_is_conjunction|]. split; [|split].
  - intros Hc.
    destruct (close_each_connected venue (dict_keys (_positions (client w))) w Hc)
      as (outcomes & Hout & Hlen).
    pose proof (close_each_gate_open venue (dict_keys (_positions (client w)))
                  w Hc) as Hopen.
    rewrite close_all_positions_is_conjunction.
    unfold close_all_by_conjunction, bind, gets, ret. cbn.
    destruct (close_each venue (dict_keys (_positions (client w))) w)
      as [[outcomes'|e] w'] eqn:E; cbn in *; [|discriminate].
    injection Hout as ->.
    exists outcomes. split; [reflexivity|]. split; [exact Hlen|].
    split; [reflexivity|]. split.
    + rewrite <- (forallb_forall (fun closed => closed) outcomes).
      split; intros H; [now injection H | now rewrite H].
    + intros He Hl. exact (proj1 (Hopen He Hl)).
  - intros _ Hflat.
    unfold close_all_positions, bind, gets. cbn -[close_all_loop].
    apply close_all_loop_all_flat. intros s Hin.
    apply dict_get_in_keys in Hin. destruct Hin as [pos Hp].
    exists pos. split; [exact Hp | exact (Hflat s pos Hp)].
  - intros Hc s pos Hp Hq.
    unfold close_all_positions, bind, gets. cbn -[close_all_loop].
    apply (close_all_loop_offline_open venue _ s pos w Hc); try assumption.
    apply dict_get_in_keys. now exists pos.
Qed.

Lemma close_all_positions_continues_while_connected_witness :
  let w := with_ledger [position "ESH5" 2; position "NQH5" 0;
                        position "CLH5" (-7)]%string online in
  let away := run two_holdings_venue
                [CmdConnect; CmdGetPositions; CmdDisconnect]
                (init sample_config) in
  _connected (client w) = true /\
  fst (close_all_positions failing_venue w) = Ok false /\
  calls (snd (close_all_positions failing_venue w)) =
    calls w ++ [CallSubmitOrder "ESH5" "CME" "S" 2 R_MARKET None None;
                CallSubmitOrder "CLH5" "CME" "B" 5 R_MARKET None None]%string /\
  _connected (client away) = false /\
  close_all_positions failing_venue away =
    (Raise (RuntimeError "Not connected to Rithmic"), away).
Proof.
  cbv zeta. split; [reflexivity|].
  destruct (close_all_positions_continues_while_connected failing_venue
              (with_ledger [position "ESH5" 2; position "NQH5" 0;
                            position "CLH5" (-7)]%string online))
    as (_ & Hon & _ & _).
  destruct (Hon eq_refl) as (outcomes & _ & _ & _ & _ & Hcalls).
  split; [reflexivity|]. split; [exact (Hcalls eq_refl eq_refl)|].
  split; [reflexivity|].
  destruct (close_all_positions_continues_while_connected failing_venue
              (run two_holdings_venue
                 [CmdConnect; CmdGetPositions; CmdDisconnect]
                 (init sample_config)))
    as (_ & _ & _ & Hoff).
  refine (Hoff eq_refl "ESH5"%string (position "ESH5" 2) eq_refl _).
  cbn. discriminate.
Defined.
